(** * dkglib: the on-chain and off-chain DKG coordinators

    A shallow embedding of [lib/offChain], [lib/onChain] and the tx helpers of
    [lib/client/utils], with the properties of the coordinator specification
    stated and proved over it.

    Conventions.
    - Go's [int], [int64] and [uint64] are [Z] with the wrap-around of the
      arithmetic written out (module [GoInt]); [int] is taken to be 64 bits.
    - A Go method that mutates its receiver or performs I/O is a computation
      in the monad [Go S]: it takes the state, and gives back either a return
      value or a panic, together with the state it leaves behind.
    - Every call that leaves the coordinator (logger, event switch, RPC node,
      dealer) is appended to a trace, so that "fires", "slashes", "broadcasts"
      and "reaches a handler" are statements about that trace.
    - The dealer is an interface: a type class over the dealer's own state.
      A dealer talks back to its coordinator only through the sink it was
      constructed with, which is what [SinkM] records. *)

From stdpp Require Import gmap strings list fin_maps pretty.
From Stdlib Require Import ZArith Lia.
From Stdlib Require SpecFloat.

Open Scope Z_scope.

(* ===================================================================== *)
(** * Go integers *)
(* ===================================================================== *)

Module GoInt.

Definition min_int64 : Z := - 2 ^ 63.
Definition max_int64 : Z := 2 ^ 63 - 1.
Definition max_uint64 : Z := 2 ^ 64 - 1.

(** Two's complement reduction of a mathematical integer to [int64]. *)
Definition wrap_int64 (z : Z) : Z := (z + 2 ^ 63) `mod` 2 ^ 64 - 2 ^ 63.

Definition wrap_uint64 (z : Z) : Z := z `mod` 2 ^ 64.

Definition add_int64 (x y : Z) : Z := wrap_int64 (x + y).
Definition sub_int64 (x y : Z) : Z := wrap_int64 (x - y).

(** [x % y] on signed integers truncates towards zero: the sign of the
    result is the sign of [x].  The caller guards [y = 0] (Go panics). *)
Definition rem_int64 (x y : Z) : Z := wrap_int64 (Z.rem x y).

Definition add_uint64 (x y : Z) : Z := wrap_uint64 (x + y).

Definition is_int64 (z : Z) : Prop := min_int64 <= z <= max_int64.
Definition is_uint64 (z : Z) : Prop := 0 <= z <= max_uint64.

End GoInt.

(* ===================================================================== *)
(** * Errors *)
(* ===================================================================== *)

(** Error values.  The two sentinels are the package variables the
    coordinators compare against with [==]; [Errorf] is
    [fmt.Errorf(format, cause)] with a single [%v] verb. *)
Inductive error : Type :=
| ErrVerifierNotReady                         (* offChain.ErrVerifierNotReady *)
| ErrDKGVerifierNotReady                      (* types.ErrDKGVerifierNotReady *)
| ErrOther (text : string)
| Errorf (format : string) (cause : error).

Global Instance error_eq_dec : EqDecision error.
Proof. solve_decision. Defined.

(* ===================================================================== *)
(** * Messages, validators, verifiers *)
(* ===================================================================== *)

Definition bytes : Type := list Byte.byte.

(** Modelled from the spec: [alias.DKGDataType] and its seven constants are
    declared in [lib/alias], which is not among the sources; section 6 of the
    specification gives the ordinals 0..6 in the order below. *)
Definition DKGDataType : Type := Z.

Definition DKGPubKey : DKGDataType := 0.
Definition DKGDeal : DKGDataType := 1.
Definition DKGResponse : DKGDataType := 2.
Definition DKGJustification : DKGDataType := 3.
Definition DKGCommits : DKGDataType := 4.
Definition DKGComplaint : DKGDataType := 5.
Definition DKGReconstructCommit : DKGDataType := 6.

(** [alias.DKGData], with the fields the coordinators read. *)
Record DKGData : Type := mkDKGData {
  Type_ : DKGDataType;
  Addr : bytes;
  RoundID : Z;
  Payload : bytes;
  Signature : bytes
}.

Record DKGDataMessage : Type := mkDKGDataMessage { Data : DKGData }.

Record Validator : Type := mkValidator { Address : bytes }.

Definition ValidatorSet : Type := list Validator.

(** A verifier is an opaque handle. *)
Inductive Verifier : Type := VerifierHandle (id : Z).

Inductive PubKey : Type := PubKeyHandle (raw : bytes).

(** [alias.PrivValidator]: [SignData chainID data] writes the signature into
    [data] and may fail. *)
Record PrivValidator : Type := mkPrivValidator {
  SignData : string -> DKGData -> DKGData * option error
}.

(** The seven phase handlers of a dealer. *)
Inductive Handler : Type :=
| HPubKey | HDeal | HResponse | HJustification | HCommit | HComplaint
| HReconstructCommit.

Global Instance Handler_eq_dec : EqDecision Handler.
Proof. solve_decision. Defined.

(* ===================================================================== *)
(** * Logging and panics *)
(* ===================================================================== *)

Inductive Level : Type := LInfo | LDebug | LError.

(** Arguments of a log line or of a panic message. *)
Inductive Val : Type :=
| VStr (s : string)
| VInt (z : Z)
| VBytes (b : bytes)
| VHex (b : bytes)                  (* hex.EncodeToString(b) *)
| VAddr (a : bytes)                 (* crypto.Address(a).String() *)
| VErr (e : error).

Record PanicInfo : Type := mkPanic { panic_format : string; panic_args : list Val }.

(** A method call on a nil interface or pointer. *)
Definition nilDereference : PanicInfo :=
  mkPanic "runtime error: invalid memory address or nil pointer dereference" [].

(** [x % 0]. *)
Definition divideByZero : PanicInfo :=
  mkPanic "runtime error: integer divide by zero" [].

(* ===================================================================== *)
(** * The monad of Go computations *)
(* ===================================================================== *)

Inductive Outcome (A : Type) : Type :=
| Return (a : A)
| Panic (info : PanicInfo).

Arguments Return {A} a.
Arguments Panic {A} info.

Definition Go (S A : Type) : Type := S -> Outcome A * S.

Section GoMonad.
Context {S : Type}.

Definition ret {A} (a : A) : Go S A := fun s => (Return a, s).

Definition bind {A B} (c : Go S A) (k : A -> Go S B) : Go S B :=
  fun s =>
    match c s with
    | (Return a, s') => k a s'
    | (Panic info, s') => (Panic info, s')
    end.

Definition panic {A} (info : PanicInfo) : Go S A := fun s => (Panic info, s).

Definition get : Go S S := fun s => (Return s, s).

Definition put (s : S) : Go S unit := fun _ => (Return tt, s).

Definition modify (f : S -> S) : Go S unit := fun s => (Return tt, f s).

(** [for _, x := range xs { if err := body(x); err != nil { return err } }] *)
Fixpoint forEach {X} (body : X -> Go S (option error)) (xs : list X)
  : Go S (option error) :=
  match xs with
  | [] => ret None
  | x :: rest =>
      bind (body x) (fun err =>
        match err with
        | Some e => ret (Some e)
        | None => forEach body rest
        end)
  end.
End GoMonad.

Declare Scope go_scope.
Delimit Scope go_scope with go.
Notation "x <- c ;; k" := (bind c (fun x => k))
  (at level 100, c at next level, right associativity) : go_scope.
Notation "c ;;; k" := (bind c (fun _ => k))
  (at level 100, right associativity) : go_scope.
Open Scope go_scope.

(* ===================================================================== *)
(** * The dealer interface *)
(* ===================================================================== *)

(** What a dealer method does with the sink it was constructed with: it
    either finishes, or hands one message to the sink and goes on from the
    message as the sink left it (the sink takes a pointer) and the sink's
    error. *)
Inductive SinkM (A : Type) : Type :=
| Done (a : A)
| Send (data : DKGData) (k : DKGData * option error -> SinkM A).

Arguments Done {A} a.
Arguments Send {A} data k.

Section RunSink.
Context {S : Type} (sink : DKGData -> Go S (DKGData * option error)).

Fixpoint runSink {A} (p : SinkM A) : Go S A :=
  match p with
  | Done a => ret a
  | Send data k => bind (sink data) (fun r => runSink (k r))
  end.
End RunSink.

(** [dealer.Dealer].  [Start] and the handlers change the dealer and may
    send; [VerifyMessage], [GetVerifier] and [GetLosers] only read it.
    [GetVerifier] returns both a verifier (possibly nil) and an error. *)
Class Dealer (D : Type) : Type := {
  Start : D -> SinkM (D * option error);
  VerifyMessage : DKGDataMessage -> D -> option error;
  HandleDKGPubKey : DKGData -> D -> SinkM (D * option error);
  HandleDKGDeal : DKGData -> D -> SinkM (D * option error);
  HandleDKGResponse : DKGData -> D -> SinkM (D * option error);
  HandleDKGJustification : DKGData -> D -> SinkM (D * option error);
  HandleDKGCommit : DKGData -> D -> SinkM (D * option error);
  HandleDKGComplaint : DKGData -> D -> SinkM (D * option error);
  HandleDKGReconstructCommit : DKGData -> D -> SinkM (D * option error);
  GetVerifier : D -> option Verifier * option error;
  GetLosers : D -> list Validator
}.

(** The method behind each handler name. *)
Definition handlerMethod {D} `{Dealer D} (h : Handler)
  : DKGData -> D -> SinkM (D * option error) :=
  match h with
  | HPubKey => HandleDKGPubKey
  | HDeal => HandleDKGDeal
  | HResponse => HandleDKGResponse
  | HJustification => HandleDKGJustification
  | HCommit => HandleDKGCommit
  | HComplaint => HandleDKGComplaint
  | HReconstructCommit => HandleDKGReconstructCommit
  end.

(** The [switch] on a data type that both coordinators use to choose a
    handler: one case for each of the seven types; any other value matches
    no case. *)
Definition handlerOf (t : DKGDataType) : option Handler :=
  if decide (t = DKGPubKey) then Some HPubKey
  else if decide (t = DKGDeal) then Some HDeal
  else if decide (t = DKGResponse) then Some HResponse
  else if decide (t = DKGJustification) then Some HJustification
  else if decide (t = DKGCommits) then Some HCommit
  else if decide (t = DKGComplaint) then Some HComplaint
  else if decide (t = DKGReconstructCommit) then Some HReconstructCommit
  else None.

(* ===================================================================== *)
(** * Off-chain coordinator (package offChain) *)
(* ===================================================================== *)

Module OffChain.

Definition BlocksAhead : Z := 20.
Definition DefaultDKGNumBlocks : Z := 100.

(** Events fired on the event switch, with their data. *)
Inductive Event : Type :=
| EventDKGStart (roundID : Z)
| EventDKGData (msg : DKGData)
| EventDKGSuccessful (changeHeight : Z)
| EventDKGKeyChange (height : Z).

(** Calls that leave the coordinator.  A dealer is named by its address in
    the heap of dealers; a dealer call is recorded when it returns. *)
Inductive Action : Type :=
| ALog (lvl : Level) (text : string) (keyvals : list Val)
| AFireEvent (ev : Event)
| ADealerStart (ref : nat) (err : option error)
| ADealerHandle (ref : nat) (h : Handler) (msg : DKGData) (err : option error).

Inductive Logger_ : Type := LoggerHandle (name : string).
Inductive EventSwitch : Type := EventSwitchHandle (name : string).

Section Coordinator.
Context {D : Type} `{Dealer D}.

(** [dkglib.DKGDealerConstructor]; the sink, the event switch and the
    logger it also receives are the coordinator's own. *)
Definition DKGDealerConstructor : Type :=
  ValidatorSet -> option PrivValidator -> Z -> D.

(** [dkglib.NewDKGDealer], the default constructor. *)
Variable NewDKGDealer : DKGDealerConstructor.

(** [alias.MsgQueueSize], the capacity of the message queue. *)
Variable MsgQueueSize : nat.

(** The struct.  A nil interface is [None]; the map holds dealer
    references, and a tombstone is a key mapped to nil. *)
Record OffChainDKG : Type := mkOffChainDKG {
  verifier : option Verifier;
  nextVerifier : option Verifier;
  changeHeight : Z;
  dkgRoundToDealer : gmap Z (option nat);
  dkgRoundID : Z;
  dkgNumBlocks : Z;
  newDKGDealer : DKGDealerConstructor;
  privValidator : option PrivValidator;
  Logger : option Logger_;
  evsw : EventSwitch;
  chainID : string
}.

(** What the struct's references point to: the dealers, the contents of
    the channel [dkgMsgQueue] with the senders parked on it, and the
    trace of outgoing calls. *)
Record World : Type := mkWorld {
  heap : list D;
  trace : list Action;
  dkgMsgQueue : list DKGDataMessage;
  goroutines : list DKGDataMessage
}.

Definition St : Type := OffChainDKG * World.

(** ** Field updates *)

Definition set_verifier (v : option Verifier) (m : OffChainDKG) :=
  mkOffChainDKG v (nextVerifier m) (changeHeight m) (dkgRoundToDealer m)
    (dkgRoundID m) (dkgNumBlocks m) (newDKGDealer m) (privValidator m)
    (Logger m) (evsw m) (chainID m).

Definition set_nextVerifier (v : option Verifier) (m : OffChainDKG) :=
  mkOffChainDKG (verifier m) v (changeHeight m) (dkgRoundToDealer m)
    (dkgRoundID m) (dkgNumBlocks m) (newDKGDealer m) (privValidator m)
    (Logger m) (evsw m) (chainID m).

Definition set_changeHeight (h : Z) (m : OffChainDKG) :=
  mkOffChainDKG (verifier m) (nextVerifier m) h (dkgRoundToDealer m)
    (dkgRoundID m) (dkgNumBlocks m) (newDKGDealer m) (privValidator m)
    (Logger m) (evsw m) (chainID m).

Definition set_dkgRoundToDealer (r : gmap Z (option nat)) (m : OffChainDKG) :=
  mkOffChainDKG (verifier m) (nextVerifier m) (changeHeight m) r
    (dkgRoundID m) (dkgNumBlocks m) (newDKGDealer m) (privValidator m)
    (Logger m) (evsw m) (chainID m).

Definition set_dkgRoundID (r : Z) (m : OffChainDKG) :=
  mkOffChainDKG (verifier m) (nextVerifier m) (changeHeight m)
    (dkgRoundToDealer m) r (dkgNumBlocks m) (newDKGDealer m)
    (privValidator m) (Logger m) (evsw m) (chainID m).

Definition set_dkgNumBlocks (n : Z) (m : OffChainDKG) :=
  mkOffChainDKG (verifier m) (nextVerifier m) (changeHeight m)
    (dkgRoundToDealer m) (dkgRoundID m) n (newDKGDealer m)
    (privValidator m) (Logger m) (evsw m) (chainID m).

Definition set_newDKGDealer (c : DKGDealerConstructor) (m : OffChainDKG) :=
  mkOffChainDKG (verifier m) (nextVerifier m) (changeHeight m)
    (dkgRoundToDealer m) (dkgRoundID m) (dkgNumBlocks m) c
    (privValidator m) (Logger m) (evsw m) (chainID m).

Definition set_privValidator (pv : option PrivValidator) (m : OffChainDKG) :=
  mkOffChainDKG (verifier m) (nextVerifier m) (changeHeight m)
    (dkgRoundToDealer m) (dkgRoundID m) (dkgNumBlocks m) (newDKGDealer m)
    pv (Logger m) (evsw m) (chainID m).

Definition set_Logger (l : option Logger_) (m : OffChainDKG) :=
  mkOffChainDKG (verifier m) (nextVerifier m) (changeHeight m)
    (dkgRoundToDealer m) (dkgRoundID m) (dkgNumBlocks m) (newDKGDealer m)
    (privValidator m) l (evsw m) (chainID m).

Definition set_heap (h : list D) (w : World) :=
  mkWorld h (trace w) (dkgMsgQueue w) (goroutines w).

Definition set_trace (t : list Action) (w : World) :=
  mkWorld (heap w) t (dkgMsgQueue w) (goroutines w).

Definition set_dkgMsgQueue (q : list DKGDataMessage) (w : World) :=
  mkWorld (heap w) (trace w) q (goroutines w).

Definition set_goroutines (g : list DKGDataMessage) (w : World) :=
  mkWorld (heap w) (trace w) (dkgMsgQueue w) g.

(** ** Primitive steps *)

Definition self : Go St OffChainDKG := fun s => (Return (fst s), s).

Definition update (f : OffChainDKG -> OffChainDKG) : Go St unit :=
  modify (fun s => (f (fst s), snd s)).

Definition emit (a : Action) : Go St unit :=
  modify (fun s => (fst s, set_trace (trace (snd s) ++ [a]) (snd s))).

(** [m.Logger.<lvl>(text, keyvals...)]: a nil logger panics. *)
Definition logAt (lvl : Level) (text : string) (keyvals : list Val)
  : Go St unit :=
  m <- self ;;
  match Logger m with
  | None => panic nilDereference
  | Some _ => emit (ALog lvl text keyvals)
  end.

Definition FireEvent (ev : Event) : Go St unit := emit (AFireEvent ev).

(** [m.dkgRoundToDealer[roundID] = dealer] *)
Definition setRound (roundID : Z) (dealer : option nat) : Go St unit :=
  update (fun m =>
    set_dkgRoundToDealer (<[roundID := dealer]> (dkgRoundToDealer m)) m).

(** A new dealer object; the result is its address. *)
Definition allocDealer (d : D) : Go St nat :=
  fun s =>
    let w := snd s in
    (Return (length (heap w)), (fst s, set_heap (heap w ++ [d]) w)).

(** A read-only method of the dealer at [ref]. *)
Definition readDealer {A} (ref : nat) (f : D -> A) : Go St A :=
  fun s =>
    match heap (snd s) !! ref with
    | Some d => (Return (f d), s)
    | None => (Panic nilDereference, s)
    end.

(** ** The sink: [sendSignedMessage] and what it calls *)

(** [Sign] signs the message in place. *)
Definition Sign (data : DKGData) : Go St (DKGData * option error) :=
  m <- self ;;
  match privValidator m with
  | None => panic nilDereference
  | Some pv =>
      match SignData pv (chainID m) data with
      | (data', Some err) =>
          ret (data', Some (Errorf "failed to sign data: %v" err))
      | (data', None) => ret (data', None)
      end
  end.

(** [sendDKGMessage]: fire the event for the peers, then queue the
    message for this node; when the channel is full the send is left to
    a new goroutine. *)
Definition sendDKGMessage (msg : DKGData) : Go St unit :=
  FireEvent (EventDKGData msg) ;;;
  let mi := mkDKGDataMessage msg in
  s <- get ;;
  if decide (length (dkgMsgQueue (snd s)) < MsgQueueSize)%nat
  then modify (fun s =>
         (fst s, set_dkgMsgQueue (dkgMsgQueue (snd s) ++ [mi]) (snd s)))
  else
    logAt LInfo "dkgMsgQueue is full. Using a go-routine" [] ;;;
    modify (fun s =>
      (fst s, set_goroutines (goroutines (snd s) ++ [mi]) (snd s))).

Definition sendSignedMessage (data : DKGData)
  : Go St (DKGData * option error) :=
  r <- Sign data ;;
  match r with
  | (data', Some err) => ret (data', Some err)
  | (data', None) =>
      logAt LInfo "DKG: msg signed with signature"
        [VStr "signature"; VHex (Signature data')] ;;;
      sendDKGMessage data' ;;;
      ret (data', None)
  end.

(** A state-changing method of the dealer at [ref], run against the
    sink; the dealer's new state is stored back at [ref]. *)
Definition callDealer (ref : nat) (f : D -> SinkM (D * option error))
  : Go St (option error) :=
  s <- get ;;
  match heap (snd s) !! ref with
  | None => panic nilDereference
  | Some d =>
      r <- runSink sendSignedMessage (f d) ;;
      modify (fun s =>
        (fst s, set_heap (<[ref := fst r]> (heap (snd s))) (snd s))) ;;;
      ret (snd r)
  end.

Definition startDealer (ref : nat) : Go St (option error) :=
  err <- callDealer ref Start ;;
  emit (ADealerStart ref err) ;;;
  ret err.

Definition callHandler (ref : nat) (h : Handler) (msg : DKGData)
  : Go St (option error) :=
  err <- callDealer ref (handlerMethod h msg) ;;
  emit (ADealerHandle ref h msg err) ;;;
  ret err.

(** ** [slashLosers]: one log line per loser *)

Fixpoint slashLosers (losers : list Validator) : Go St unit :=
  match losers with
  | [] => ret tt
  | loser :: rest =>
      logAt LInfo "Slashing validator" [VAddr (Address loser)] ;;;
      slashLosers rest
  end.

(** ** [HandleOffChainShare] *)

(** The text logged by each case before it calls its handler. *)
Definition receivedText (h : Handler) : string :=
  match h with
  | HPubKey => "dkgState: received PubKey message"
  | HDeal => "dkgState: received Deal message"
  | HResponse => "dkgState: received Response message"
  | HJustification => "dkgState: received Justification message"
  | HCommit => "dkgState: received Commit message"
  | HComplaint => "dkgState: received Complaint message"
  | HReconstructCommit => "dkgState: received ReconstructCommit message"
  end.

(** The body of the loop over the registry once a verifier is there:
    for a key below the message's round it writes nil at the message's
    round. *)
Definition retireStep (msgRound : Z) (reg : gmap Z (option nat))
  (roundID : Z) : gmap Z (option nat) :=
  if decide (roundID < msgRound) then <[msgRound := None]> reg else reg.

(** [for roundID := range m.dkgRoundToDealer { ... }], the keys taken in
    the order [keys].  The loop writes only at a key that is present, so
    the keys it visits are those of the map it started from. *)
Definition retireLoop (keys : list Z) (msgRound : Z)
  (reg : gmap Z (option nat)) : gmap Z (option nat) :=
  foldl (retireStep msgRound) reg keys.

(** The order in which the model walks a registry. *)
Definition rangeKeys (reg : gmap Z (option nat)) : list Z :=
  (map_to_list reg).*1.

(** [(height + BlocksAhead) - ((height + BlocksAhead) % 5)] on [int64]. *)
Definition nextChangeHeight (height : Z) : Z :=
  GoInt.sub_int64 (GoInt.add_int64 height BlocksAhead)
    (GoInt.rem_int64 (GoInt.add_int64 height BlocksAhead) 5).

(** Lines 336-344: the dealer of the message's round, created and
    started when the round has no entry.  The result is the entry: nil
    for a tombstone. *)
Definition obtainDealer (msg : DKGData) (validators : ValidatorSet)
  : Go St (option nat) :=
  m <- self ;;
  match dkgRoundToDealer m !! RoundID msg with
  | Some dealer => ret dealer
  | None =>
      logAt LInfo "dkgState: dealer not found, creating a new dealer"
        [VStr "round_id"; VInt (RoundID msg)] ;;;
      ref <- allocDealer
               (newDKGDealer m validators (privValidator m) (RoundID msg)) ;;
      setRound (RoundID msg) (Some ref) ;;;
      err <- startDealer ref ;;
      match err with
      | Some e =>
          panic (mkPanic "failed to start a dealer (round %d): %v"
                   [VInt (dkgRoundID m); VErr e])
      | None => ret (Some ref)
      end
  end.

(** Lines 359-382: [var err error] and the [switch msg.Type]. *)
Definition dispatch (ref : nat) (msg : DKGData) : Go St (option error) :=
  match handlerOf (Type_ msg) with
  | Some h =>
      logAt LInfo (receivedText h) [VStr "from"; VAddr (Addr msg)] ;;;
      callHandler ref h msg
  | None => ret None
  end.

(** Lines 385-386 and 397-398: slash the losers, tombstone the round. *)
Definition failRound (ref : nat) (msg : DKGData) : Go St unit :=
  losers <- readDealer ref GetLosers ;;
  slashLosers losers ;;;
  setRound (RoundID msg) None.

(** The mutex taken on entry serialises callers; a single caller is
    modelled, so it does not appear. *)
Definition HandleOffChainShare (dkgMsg : DKGDataMessage) (height : Z)
  (validators : ValidatorSet) (pubKey : PubKey) : Go St bool :=
  let msg := Data dkgMsg in
  dealer <- obtainDealer msg validators ;;
  match dealer with
  | None =>
      logAt LInfo "dkgState: received message for inactive round:"
        [VStr "round"; VInt (RoundID msg)] ;;;
      ret false
  | Some ref =>
      logAt LInfo "dkgState: received message with signature:"
        [VStr "signature"; VHex (Signature msg)] ;;;
      verr <- readDealer ref (VerifyMessage dkgMsg) ;;
      match verr with
      | Some e =>
          logAt LInfo "DKG: can't verify message:" [VStr "error"; VErr e] ;;;
          ret false
      | None =>
          logAt LInfo "DKG: message verified" [] ;;;
          err <- dispatch ref msg ;;
          match err with
          | Some e =>
              logAt LError "dkgState: failed to handle message"
                [VStr "error"; VErr e; VStr "type"; VInt (Type_ msg)] ;;;
              failRound ref msg ;;;
              ret false
          | None =>
              r <- readDealer ref GetVerifier ;;
              match r with
              | (_, Some e) =>
                  if decide (e = ErrVerifierNotReady) then
                    logAt LDebug "dkgState: verifier not ready" [] ;;;
                    ret false
                  else
                    logAt LError
                      "dkgState: verifier should be ready, but it's not ready:"
                      [VErr e] ;;;
                    failRound ref msg ;;;
                    ret true
              | (verifier, None) =>
                  logAt LInfo
                    "dkgState: verifier is ready, killing older rounds" [] ;;;
                  update (fun m =>
                    set_dkgRoundToDealer
                      (retireLoop (rangeKeys (dkgRoundToDealer m))
                         (RoundID msg) (dkgRoundToDealer m)) m) ;;;
                  update (set_nextVerifier verifier) ;;;
                  update (set_changeHeight (nextChangeHeight height)) ;;;
                  m' <- self ;;
                  FireEvent (EventDKGSuccessful (changeHeight m')) ;;;
                  ret false
              end
          end
      end
  end.

(** ** [startRound] *)

Definition startRound (validators : ValidatorSet) : Go St (option error) :=
  update (fun m => set_dkgRoundID (GoInt.add_int64 (dkgRoundID m) 1) m) ;;;
  m <- self ;;
  logAt LInfo "dkgState: starting round"
    [VStr "round_id"; VInt (dkgRoundID m)] ;;;
  match dkgRoundToDealer m !! dkgRoundID m with
  | None =>
      dealer <- allocDealer
                  (newDKGDealer m validators (privValidator m) (dkgRoundID m)) ;;
      setRound (dkgRoundID m) (Some dealer) ;;;
      FireEvent (EventDKGStart (dkgRoundID m)) ;;;
      startDealer dealer
  | Some _ => ret None
  end.

(** ** [CheckDKGTime] *)

(** Lines 474-476: a round that fails to start panics. *)
Definition startRoundOrPanic (validators : ValidatorSet) : Go St unit :=
  err <- startRound validators ;;
  match err with
  | Some e =>
      m' <- self ;;
      panic (mkPanic "failed to start a dealer (round %d): %v"
               [VInt (dkgRoundID m'); VErr e])
  | None => ret tt
  end.

(** [&&] evaluates [height % m.dkgNumBlocks] only when [height > 1];
    a zero divisor panics. *)
Definition CheckDKGTime (height : Z) (validators : ValidatorSet)
  : Go St unit :=
  m <- self ;;
  (if decide (changeHeight m = height) then
     logAt LInfo "dkgState: time to update verifier"
       [VInt (changeHeight m); VInt height] ;;;
     update (fun m => set_nextVerifier None (set_verifier (nextVerifier m) m)) ;;;
     update (set_changeHeight 0) ;;;
     FireEvent (EventDKGKeyChange height)
   else ret tt) ;;;
  m <- self ;;
  if decide (height > 1) then
    if decide (dkgNumBlocks m = 0) then panic divideByZero
    else if decide (GoInt.rem_int64 height (dkgNumBlocks m) = 0) then
      startRoundOrPanic validators
    else ret tt
  else ret tt.

(** ** Construction *)

(** [DKGOption] *)
Definition DKGOption : Type := OffChainDKG -> OffChainDKG.

Definition WithVerifier (verifier : option Verifier) : DKGOption :=
  fun d => set_verifier verifier d.

Definition WithDKGNumBlocks (numBlocks : Z) : DKGOption :=
  fun d => set_dkgNumBlocks numBlocks d.

Definition WithLogger (l : option Logger_) : DKGOption :=
  fun d => set_Logger l d.

Definition WithPVKey (pv : option PrivValidator) : DKGOption :=
  fun d => set_privValidator pv d.

Definition WithDKGDealerConstructor (newDealer : option DKGDealerConstructor)
  : DKGOption :=
  fun d =>
    match newDealer with
    | None => d
    | Some c => set_newDKGDealer c d
    end.

(** The struct is built with an empty registry and the default number of
    blocks, the options are applied in order, and a zero number of
    blocks is replaced by the default. *)
Definition NewOffChainDKG (evsw : EventSwitch) (chainID : string)
  (options : list DKGOption) : OffChainDKG :=
  let dkg :=
    {| verifier := None;
       nextVerifier := None;
       changeHeight := 0;
       dkgRoundToDealer := ∅;
       dkgRoundID := 0;
       dkgNumBlocks := DefaultDKGNumBlocks;
       newDKGDealer := NewDKGDealer;
       privValidator := None;
       Logger := None;
       evsw := evsw;
       chainID := chainID |} in
  let dkg := foldl (fun dkg option => option dkg) dkg options in
  if decide (dkgNumBlocks dkg = 0)
  then set_dkgNumBlocks DefaultDKGNumBlocks dkg
  else dkg.

(** The world a new coordinator starts in: no dealers, nothing sent. *)
Definition emptyWorld : World := mkWorld [] [] [] [].

Definition Verifier_ (m : OffChainDKG) : option Verifier := verifier m.

Definition SetVerifier (v : option Verifier) : Go St unit :=
  update (set_verifier v).
End Coordinator.
End OffChain.

(* ===================================================================== *)
(** * Tx helpers (package utils) *)
(* ===================================================================== *)

Module Utils.

(** [float64]: an IEEE 754 binary64 number, 53 bits of precision. *)
Definition Float64 : Type := SpecFloat.spec_float.

(** [float64(n)] for an unsigned integer [n]: the nearest [float64], ties
    to even. *)
Definition float64_of_uint64 (n : Z) : Float64 :=
  SpecFloat.binary_normalize 53 1024 n 0 false.

(** [x * y] on [float64]. *)
Definition float64_mul (x y : Float64) : Float64 := SpecFloat.SFmul 53 1024 x y.

(** [uint64(x)]: the fraction is discarded.  For a value that [uint64]
    cannot hold (negative from -1 down, 2^64 and above, an infinity, a
    NaN) Go leaves the result to the implementation: [unrepresentable x]. *)
Definition uint64_of_float64 (unrepresentable : Float64 -> Z) (x : Float64)
  : Z :=
  match x with
  | SpecFloat.S754_zero _ => 0
  | SpecFloat.S754_finite negative m e =>
      let magnitude :=
        if decide (0 <= e) then Z.pos m * 2 ^ e else Z.pos m `div` 2 ^ (- e) in
      if decide (magnitude = 0) then 0
      else if negative then unrepresentable x
      else if decide (magnitude < 2 ^ 64) then magnitude
      else unrepresentable x
  | _ => unrepresentable x
  end.

(** [authtypes.TxBuilder], a value type: every [With...] gives a copy. *)
Record TxBuilder : Type := mkTxBuilder {
  accountNumber : Z;
  sequence : Z;
  gas : Z;
  gasAdjustment : Float64;
  simulateAndExecute : bool;
  txChainID : string;
  memo : string
}.

Definition WithAccountNumber (accnum : Z) (b : TxBuilder) : TxBuilder :=
  mkTxBuilder accnum (sequence b) (gas b) (gasAdjustment b)
    (simulateAndExecute b) (txChainID b) (memo b).

Definition WithSequence (seq : Z) (b : TxBuilder) : TxBuilder :=
  mkTxBuilder (accountNumber b) seq (gas b) (gasAdjustment b)
    (simulateAndExecute b) (txChainID b) (memo b).

Definition WithGas (g : Z) (b : TxBuilder) : TxBuilder :=
  mkTxBuilder (accountNumber b) (sequence b) g (gasAdjustment b)
    (simulateAndExecute b) (txChainID b) (memo b).

(** [context.CLIContext], the fields the helpers read. *)
Record CLIContext : Type := mkCLIContext {
  GenerateOnly : bool;
  Simulate : bool;
  Passphrase : string;
  FromName : string;
  FromAddress : bytes
}.

(** Calls to the node, the account retriever and the terminal. *)
Inductive Call : Type :=
| CEnsureExists (addr : bytes)
| CGetAccountNumberSequence (addr : bytes)
| CQuery (path : string) (data : bytes)
| CQueryWithData (path : string) (data : bytes)
| CBroadcastTx (txBytes : bytes)
| CPrintOutput (res : bytes)
| CFprintf (stream : string) (format : string) (args : list Val).

(** What a call gives back; a call uses the fields it has results for. *)
Record Reply : Type := mkReply {
  r_data : bytes;
  r_num : Z;
  r_seq : Z;
  r_err : option error
}.

(** Methods of the builder, the keybase and the codec that the helpers
    call, [client.DefaultKeyPass], and what the platform gives for the
    conversion to [uint64] of a [float64] that [uint64] cannot hold. *)
Record Deps (Msg : Type) : Type := mkDeps {
  DefaultKeyPass : string;
  BuildAndSign : TxBuilder -> string -> string -> list Msg -> bytes * option error;
  BuildTxForSim : TxBuilder -> list Msg -> bytes * option error;
  BuildSignMsg : TxBuilder -> list Msg -> bytes * option error;
  NewStdTx : bytes -> bytes;
  MarshalJSON : bytes -> bytes * option error;
  UnmarshalGasUsed : bytes -> Z * option error;
  unrepresentable : Float64 -> Z
}.

Arguments DefaultKeyPass {Msg} _.
Arguments BuildAndSign {Msg} _ _ _ _ _.
Arguments BuildTxForSim {Msg} _ _ _.
Arguments BuildSignMsg {Msg} _ _ _.
Arguments NewStdTx {Msg} _ _.
Arguments MarshalJSON {Msg} _ _.
Arguments UnmarshalGasUsed {Msg} _ _.
Arguments unrepresentable {Msg} _ _.

Section Helpers.
Context {S Msg : Type}.

(** How a call is carried out in the caller's world. *)
Variable perform : Call -> Go S Reply.

(** The builder's and the codec's methods, as given. *)
Variable deps : Deps Msg.

(** [uint64(adjustment * float64(estimate))] *)
Definition adjustGasEstimate (estimate : Z) (adjustment : Float64) : Z :=
  uint64_of_float64 (unrepresentable deps)
    (float64_mul adjustment (float64_of_uint64 estimate)).

Definition parseQueryResponse (rawRes : bytes) : Z * option error :=
  match UnmarshalGasUsed deps rawRes with
  | (_, Some err) => (0, Some err)
  | (gasUsed, None) => (gasUsed, None)
  end.

(** [CalculateGas], with [cliCtx.Query] as its query function. *)
Definition CalculateGas (txBytes : bytes) (adjustment : Float64)
  : Go S (Z * Z * option error) :=
  r <- perform (CQuery "/app/simulate" txBytes) ;;
  match r_err r with
  | Some err => ret (0, 0, Some err)
  | None =>
      match parseQueryResponse (r_data r) with
      | (estimate, Some err) => ret (estimate, 0, Some err)
      | (estimate, None) =>
          ret (estimate, adjustGasEstimate estimate adjustment, None)
      end
  end.

Definition simulateMsgs (txBldr : TxBuilder) (msgs : list Msg)
  : Go S (Z * Z * option error) :=
  match BuildTxForSim deps txBldr msgs with
  | (_, Some err) => ret (0, 0, Some err)
  | (txBytes, None) => CalculateGas txBytes (gasAdjustment txBldr)
  end.

Definition EnrichWithGas (txBldr : TxBuilder) (msgs : list Msg)
  : Go S (TxBuilder * option error) :=
  r <- simulateMsgs txBldr msgs ;;
  match r with
  | (_, _, Some err) => ret (txBldr, Some err)
  | (_, adjusted, None) => ret (WithGas adjusted txBldr, None)
  end.

Definition PrepareTxBuilder (txBldr : TxBuilder) (cliCtx : CLIContext)
  : Go S (TxBuilder * option error) :=
  let from := FromAddress cliCtx in
  r <- perform (CEnsureExists from) ;;
  match r_err r with
  | Some err => ret (txBldr, Some err)
  | None =>
      let txbldrAccNum := accountNumber txBldr in
      let txbldrAccSeq := sequence txBldr in
      if decide (txbldrAccNum = 0 \/ txbldrAccSeq = 0) then
        r <- perform (CGetAccountNumberSequence from) ;;
        match r_err r with
        | Some err => ret (txBldr, Some err)
        | None =>
            let txBldr :=
              if decide (txbldrAccNum = 0)
              then WithAccountNumber (r_num r) txBldr else txBldr in
            let txBldr :=
              if decide (txbldrAccSeq = 0)
              then WithSequence (r_seq r) txBldr else txBldr in
            ret (txBldr, None)
        end
      else ret (txBldr, None)
  end.

Definition buildUnsignedStdTxOffline (txBldr : TxBuilder)
  (cliCtx : CLIContext) (msgs : list Msg) : Go S (bytes * option error) :=
  r <-
    (if simulateAndExecute txBldr then
       r <- EnrichWithGas txBldr msgs ;;
       match r with
       | (txBldr, Some err) => ret (txBldr, Some err)
       | (txBldr, None) =>
           perform (CFprintf "stderr" "estimated gas = %v\n"
                      [VInt (gas txBldr)]) ;;;
           ret (txBldr, None)
       end
     else ret (txBldr, None)) ;;
  match r with
  | (_, Some err) => ret ([], Some err)
  | (txBldr, None) =>
      match BuildSignMsg deps txBldr msgs with
      | (_, Some err) => ret ([], Some err)
      | (stdSignMsg, None) => ret (NewStdTx deps stdSignMsg, None)
      end
  end.

Definition buildUnsignedStdTx (txBldr : TxBuilder) (cliCtx : CLIContext)
  (msgs : list Msg) : Go S (bytes * option error) :=
  r <- PrepareTxBuilder txBldr cliCtx ;;
  match r with
  | (_, Some err) => ret ([], Some err)
  | (txBldr, None) => buildUnsignedStdTxOffline txBldr cliCtx msgs
  end.

Definition PrintUnsignedStdTx (txBldr : TxBuilder) (cliCtx : CLIContext)
  (msgs : list Msg) (offline : bool) : Go S (option error) :=
  r <- (if offline
        then buildUnsignedStdTxOffline txBldr cliCtx msgs
        else buildUnsignedStdTx txBldr cliCtx msgs) ;;
  match r with
  | (_, Some err) => ret (Some err)
  | (stdTx, None) =>
      match MarshalJSON deps stdTx with
      | (_, Some err) => ret (Some err)
      | (json, None) =>
          perform (CFprintf "output" "%s\n" [VBytes json]) ;;;
          ret None
      end
  end.

Definition CompleteAndBroadcastTxCLI (txBldr : TxBuilder)
  (cliCtx : CLIContext) (msgs : list Msg) : Go S (option error) :=
  r <- PrepareTxBuilder txBldr cliCtx ;;
  match r with
  | (_, Some err) => ret (Some err)
  | (txBldr, None) =>
      let fromName := FromName cliCtx in
      r <-
        (if simulateAndExecute txBldr || Simulate cliCtx then
           r <- EnrichWithGas txBldr msgs ;;
           match r with
           | (txBldr, Some err) => ret (txBldr, Some err)
           | (txBldr, None) =>
               perform (CFprintf "stderr" "gas estimate: %d\n"
                          [VInt (gas txBldr)]) ;;;
               ret (txBldr, None)
           end
         else ret (txBldr, None)) ;;
      match r with
      | (_, Some err) => ret (Some err)
      | (txBldr, None) =>
          if Simulate cliCtx then ret None
          else
            let passphrase :=
              if decide (Passphrase cliCtx = "")
              then DefaultKeyPass deps else Passphrase cliCtx in
            match BuildAndSign deps txBldr fromName passphrase msgs with
            | (_, Some err) => ret (Some err)
            | (txBytes, None) =>
                r <- perform (CBroadcastTx txBytes) ;;
                match r_err r with
                | Some err => ret (Some err)
                | None =>
                    r <- perform (CPrintOutput (r_data r)) ;;
                    ret (r_err r)
                end
            end
      end
  end.

Definition GenerateOrBroadcastMsgs (cliCtx : CLIContext)
  (txBldr : TxBuilder) (msgs : list Msg) (offline : bool)
  : Go S (option error) :=
  if GenerateOnly cliCtx
  then PrintUnsignedStdTx txBldr cliCtx msgs offline
  else CompleteAndBroadcastTxCLI txBldr cliCtx msgs.
End Helpers.
End Utils.

(* ===================================================================== *)
(** * On-chain coordinator (package onChain) *)
(* ===================================================================== *)

Module OnChain.

(** [msgs.MsgSendDKGData] *)
Record MsgSendDKGData : Type := NewMsgSendDKGData {
  Data : DKGData;
  Owner : bytes
}.

(** Calls that leave the coordinator: to the node and the terminal (with
    the reply), to the logger, and to the dealer (recorded on return). *)
Inductive Action : Type :=
| ACall (c : Utils.Call) (r : Utils.Reply)
| ALog (lvl : Level) (text : string) (keyvals : list Val)
| ADealerStart (err : option error)
| ADealerHandle (h : Handler) (msg : DKGData) (err : option error).

Inductive Logger_ : Type := NewTMLogger (out : string).

(** The seven types in the order of the loop of [ProcessBlock]. *)
Definition dataTypes : list DKGDataType :=
  [DKGPubKey; DKGDeal; DKGResponse; DKGJustification; DKGCommits;
   DKGComplaint; DKGReconstructCommit].

(** [fmt.Sprintf("custom/randapp/dkgData/%d", dataType)] *)
Definition dkgDataPath (dataType : DKGDataType) : string :=
  "custom/randapp/dkgData/" +:+ pretty dataType.

Section Coordinator.
Context {D : Type} `{Dealer D}.

(** The node, the account retriever and the terminal: the reply to a
    call, given every call made so far. *)
Variable node : list Action -> Utils.Call -> Utils.Reply.

(** [MsgSendDKGData.ValidateBasic] (package msgs). *)
Variable ValidateBasic : MsgSendDKGData -> option error.

(** [gob.NewDecoder(...).Decode] into a list of messages. *)
Variable gobDecode : bytes -> list MsgSendDKGData * option error.

(** [dealer.NewDKGDealer]; its sink is the coordinator's [sendMsg]. *)
Variable NewDKGDealer : ValidatorSet -> option PrivValidator -> Z -> D.

Variable deps : Utils.Deps MsgSendDKGData.

Record OnChainDKG : Type := mkOnChainDKG {
  cli : Utils.CLIContext;
  txBldr : Utils.TxBuilder;
  dealer : option D;
  typesList : list DKGDataType;
  logger : Logger_
}.

(** The coordinator and the trace of its outgoing calls. *)
Definition St : Type := OnChainDKG * list Action.

Definition set_txBldr (b : Utils.TxBuilder) (m : OnChainDKG) :=
  mkOnChainDKG (cli m) b (dealer m) (typesList m) (logger m).

Definition set_dealer (d : option D) (m : OnChainDKG) :=
  mkOnChainDKG (cli m) (txBldr m) d (typesList m) (logger m).

Definition self : Go St OnChainDKG := fun s => (Return (fst s), s).

Definition update (f : OnChainDKG -> OnChainDKG) : Go St unit :=
  modify (fun s => (f (fst s), snd s)).

Definition emit (a : Action) : Go St unit :=
  modify (fun s => (fst s, snd s ++ [a])).

Definition perform (c : Utils.Call) : Go St Utils.Reply :=
  fun s =>
    let r := node (snd s) c in
    (Return r, (fst s, snd s ++ [ACall c r])).

Definition NewOnChainDKG (cli : Utils.CLIContext) (txBldr : Utils.TxBuilder)
  : OnChainDKG :=
  {| cli := cli;
     txBldr := txBldr;
     dealer := None;
     typesList := [];
     logger := NewTMLogger "stdout" |}.

(** ** [sendMsg], the dealer's sink *)

Definition sendMsg (data : DKGData) : Go St (option error) :=
  m <- self ;;
  let msg := NewMsgSendDKGData data (Utils.FromAddress (cli m)) in
  match ValidateBasic msg with
  | Some err => ret (Some (Errorf "failed to validate basic: %v" err))
  | None =>
      err <- Utils.GenerateOrBroadcastMsgs perform deps
               (cli m) (txBldr m) [msg] false ;;
      update (fun m =>
        set_txBldr
          (Utils.WithSequence
             (GoInt.add_uint64 (Utils.sequence (txBldr m)) 1) (txBldr m))
          m) ;;;
      match err with
      | Some err => ret (Some (Errorf "failed to broadcast msg: %v" err))
      | None => ret None
      end
  end.

Definition sink (data : DKGData) : Go St (DKGData * option error) :=
  err <- sendMsg data ;;
  ret (data, err).

(** A state-changing method of [m.dealer]; a nil dealer panics. *)
Definition callDealer (f : D -> SinkM (D * option error))
  : Go St (option error) :=
  m <- self ;;
  match dealer m with
  | None => panic nilDereference
  | Some d =>
      r <- runSink sink (f d) ;;
      update (set_dealer (Some (fst r))) ;;;
      ret (snd r)
  end.

Definition readDealer {A} (f : D -> A) : Go St A :=
  m <- self ;;
  match dealer m with
  | None => panic nilDereference
  | Some d => ret (f d)
  end.

Definition callHandler (h : Handler) (msg : DKGData)
  : Go St (option error) :=
  err <- callDealer (handlerMethod h msg) ;;
  emit (ADealerHandle h msg err) ;;;
  ret err.

(** ** [getDKGMessages] *)

Definition getDKGMessages (dataType : DKGDataType)
  : Go St (list MsgSendDKGData * option error) :=
  r <- perform (Utils.CQueryWithData (dkgDataPath dataType) []) ;;
  match Utils.r_err r with
  | Some err => ret ([], Some (Errorf "failed to query for DKG data: %v" err))
  | None =>
      match gobDecode (Utils.r_data r) with
      | (_, Some err) =>
          ret ([], Some (Errorf "failed to decode DKG data: %v" err))
      | (data, None) =>
          (if decide (dataType = 0)
           then emit (ALog LInfo "DKG DATA"
                        [VStr "data"; VStr "dataLen";
                         VInt (Z.of_nat (length data))])
           else ret tt) ;;;
          ret (data, None)
      end
  end.

(** ** [ProcessBlock] *)

(** The [switch dataType] binds a method of [m.dealer]; taking a method
    of a nil interface panics.  A type without a case leaves the handler
    nil. *)
Definition bindHandler (dataType : DKGDataType) : Go St (option Handler) :=
  match handlerOf dataType with
  | Some h =>
      m <- self ;;
      match dealer m with
      | None => panic nilDereference
      | Some _ => ret (Some h)
      end
  | None => ret None
  end.

(** Lines 73-77: the messages of one bucket, in order, until a handler
    fails. *)
Definition dispatchAll (handler : option Handler)
  (messages : list MsgSendDKGData) : Go St (option error) :=
  forEach (fun msg =>
    err <-
      match handler with
      | Some h => callHandler h (Data msg)
      | None => panic nilDereference
      end ;;
    match err with
    | Some err => ret (Some (Errorf "failed to handle message: %v" err))
    | None => ret None
    end) messages.

(** Lines 52-77: the body of the loop over the data types; [Some err]
    is [return err, false]. *)
Definition processBucket (dataType : DKGDataType) : Go St (option error) :=
  r <- getDKGMessages dataType ;;
  match r with
  | (_, Some err) => ret (Some (Errorf "failed to getDKGMessages: %v" err))
  | (messages, None) =>
      handler <- bindHandler dataType ;;
      dispatchAll handler messages
  end.

Definition ProcessBlock : Go St (option error * bool) :=
  err <- forEach processBucket dataTypes ;;
  match err with
  | Some err => ret (Some err, false)
  | None =>
      r <- readDealer GetVerifier ;;
      match snd r with
      | Some err =>
          if decide (err = ErrDKGVerifierNotReady) then
            emit (ALog LInfo "Verifier Not ready" []) ;;;
            ret (None, false)
          else ret (Some (Errorf "DKG round failed: %v" err), false)
      | None => ret (None, true)
      end
  end.

(** ** [StartRound] and the getters *)

(** The event firer and the logger that [StartRound] also takes are handed
    to the dealer and nothing else. *)

Definition StartRound (validators : ValidatorSet)
  (pv : option PrivValidator) (startRound : Z) : Go St (option error) :=
  update (set_dealer (Some (NewDKGDealer validators pv startRound))) ;;;
  err <- callDealer Start ;;
  emit (ADealerStart err) ;;;
  match err with
  | Some err => ret (Some (Errorf "failed to start dealer: %v" err))
  | None => ret None
  end.

Definition GetVerifier_ : Go St (option Verifier * option error) :=
  readDealer GetVerifier.

Definition GetLosers_ : Go St (list Validator) := readDealer GetLosers.

Definition StartDKGRound (validators : ValidatorSet)
  : Go St (option error) := ret None.
End Coordinator.
End OnChain.

(* ===================================================================== *)
(** * Test doubles *)
(* ===================================================================== *)

(** A scripted dealer in the manner of the repository's mocks: it answers
    from its script, keeps what it was handed, and sends its outbox through
    the sink on [Start] and from every handler that accepts a message. *)
Module Mock.

Record Script : Type := mkScript {
  startErr : option error;
  verifyErr : option error;
  refuse : DKGData -> option error;
  notReady : error;
  readyAfter : nat;
  key : Verifier;
  losers : list Validator;
  outbox : list DKGData;
  handled : list (Handler * DKGData)
}.

Definition record (h : Handler) (msg : DKGData) (s : Script) : Script :=
  mkScript (startErr s) (verifyErr s) (refuse s) (notReady s) (readyAfter s)
    (key s) (losers s) (outbox s) (handled s ++ [(h, msg)]).

Fixpoint sendAll {A} (msgs : list DKGData) (k : SinkM A) : SinkM A :=
  match msgs with
  | [] => k
  | msg :: rest => Send msg (fun _ => sendAll rest k)
  end.

Definition handle (h : Handler) (msg : DKGData) (s : Script)
  : SinkM (Script * option error) :=
  match refuse s msg with
  | Some e => Done (s, Some e)
  | None => sendAll (outbox s) (Done (record h msg s, None))
  end.

Global Instance dealer : Dealer Script := {|
  Start s := sendAll (outbox s) (Done (s, startErr s));
  VerifyMessage _ s := verifyErr s;
  HandleDKGPubKey := handle HPubKey;
  HandleDKGDeal := handle HDeal;
  HandleDKGResponse := handle HResponse;
  HandleDKGJustification := handle HJustification;
  HandleDKGCommit := handle HCommit;
  HandleDKGComplaint := handle HComplaint;
  HandleDKGReconstructCommit := handle HReconstructCommit;
  GetVerifier s :=
    if decide (readyAfter s <= length (handled s))%nat
    then (Some (key s), None)
    else (None, Some (notReady s));
  GetLosers := losers
|}.

(** A dealer that accepts everything and is ready after [n] messages. *)
Definition honest (n : nat) (id : Z) (notReady : error) : Script :=
  mkScript None None (fun _ => None) notReady n (VerifierHandle id) [] [] [].

Definition pv : PrivValidator :=
  mkPrivValidator (fun chainID data =>
    (mkDKGData (Type_ data) (Addr data) (RoundID data) (Payload data)
       [Byte.x53; Byte.x49; Byte.x47], None)).

Definition message (t : DKGDataType) (round : Z) : DKGDataMessage :=
  mkDKGDataMessage (mkDKGData t [Byte.x01] round [] []).

Definition validator (b : Byte.byte) : Validator := mkValidator [b].
End Mock.

(** Runs of the off-chain coordinator against scripted dealers. *)
Module Scenario.

(** The state a computation leaves, and what it returns. *)
Definition after {S A} (c : Go S A) (s : S) : S := snd (c s).
Definition outcome {S A} (c : Go S A) (s : S) : Outcome A := fst (c s).

Definition MsgQueueSize : nat := 1000.

Definition hello (round : Z) : DKGData :=
  mkDKGData DKGPubKey [Byte.x01] round [] [].

(** Round 1 needs five messages, any other round a single one; each
    dealer announces itself on [Start]. *)
Definition newDealer : OffChain.DKGDealerConstructor :=
  fun validators pv round =>
    Mock.mkScript None None (fun _ => None) ErrVerifierNotReady
      (if decide (round = 1) then 5%nat else 1%nat)
      (VerifierHandle (11 * round)) [] [hello round] [].

Definition pubKey : PubKey := PubKeyHandle [Byte.x02].

(** A coordinator with a logger and a key, at boot. *)
Definition boot : @OffChain.St Mock.Script :=
  (OffChain.NewOffChainDKG newDealer (OffChain.EventSwitchHandle "evsw")
     "rchain"
     [OffChain.WithLogger (Some (OffChain.LoggerHandle "dkg"));
      OffChain.WithPVKey (Some Mock.pv)],
   OffChain.emptyWorld).

(** Rounds 1 and 2 are started at heights 100 and 200. *)
Definition twoRounds : @OffChain.St Mock.Script :=
  after (OffChain.CheckDKGTime MsgQueueSize 200 [])
    (after (OffChain.CheckDKGTime MsgQueueSize 100 []) boot).

(** A message of round 2 arrives at height 277 and completes the round. *)
Definition roundTwoDone : @OffChain.St Mock.Script :=
  after (OffChain.HandleOffChainShare MsgQueueSize
           (Mock.message DKGPubKey 2) 277 [] pubKey) twoRounds.

(** Then a message of round 1 arrives. *)
Definition lateMessage : DKGDataMessage := Mock.message DKGDeal 1.

Definition afterLate : @OffChain.St Mock.Script :=
  after (OffChain.HandleOffChainShare MsgQueueSize lateMessage 278 []
           pubKey) roundTwoDone.

(** The coordinator with a single round, 1, whose dealer is [script]. *)
Definition oneRound (script : Mock.Script) : @OffChain.St Mock.Script :=
  (OffChain.set_dkgRoundToDealer {[ 1 := Some 0%nat ]} (fst boot),
   OffChain.mkWorld [script] [] [] []).

(** A dealer that refuses every message and names validator 7 a loser. *)
Definition refusing : Mock.Script :=
  Mock.mkScript None None (fun _ => Some (ErrOther "bad share"))
    ErrVerifierNotReady 3%nat (VerifierHandle 1) [Mock.validator Byte.x07]
    [] [].

(** A dealer for which no message verifies. *)
Definition distrustful : Mock.Script :=
  Mock.mkScript None (Some (ErrOther "bad signature")) (fun _ => None)
    ErrVerifierNotReady 3%nat (VerifierHandle 1) [] [] [].
End Scenario.

(* ===================================================================== *)
(** * Vocabulary of the statements *)
(* ===================================================================== *)

Section OffChainVocabulary.
Context {D : Type} `{Dealer D}.

Implicit Types (m : @OffChain.OffChainDKG D) (w : @OffChain.World D).

(** The trace of [w] with [acts] appended. *)
Definition logged (acts : list OffChain.Action) w : OffChain.World :=
  OffChain.set_trace (OffChain.trace w ++ acts) w.

(** The lines [slashLosers] logs. *)
Definition slashLines (losers : list Validator) : list OffChain.Action :=
  map (fun loser =>
         OffChain.ALog LInfo "Slashing validator" [VAddr (Address loser)])
    losers.

(** A computation that leaves the struct and the dealers as they are. *)
Definition quiet {A} (c : Go (@OffChain.St D) A) : Prop :=
  forall m w o m' w',
    c (m, w) = (o, (m', w')) -> m' = m /\ OffChain.heap w' = OffChain.heap w.

(** The two lines logged between obtaining a live dealer and the
    dispatch of a verified message. *)
Definition verifiedLines (msg : DKGData) : list OffChain.Action :=
  [OffChain.ALog LInfo "dkgState: received message with signature:"
     [VStr "signature"; VHex (Signature msg)];
   OffChain.ALog LInfo "DKG: message verified" []].

(** The registry with nil written at [round]. *)
Definition tombstone (round : Z) m : OffChain.OffChainDKG :=
  OffChain.set_dkgRoundToDealer
    (<[round := None]> (OffChain.dkgRoundToDealer m)) m.

(** The struct after a round has produced [verifier] at [height]. *)
Definition staged (msg : DKGData) (height : Z) (verifier : option Verifier) m
  : OffChain.OffChainDKG :=
  OffChain.set_changeHeight (OffChain.nextChangeHeight height)
    (OffChain.set_nextVerifier verifier
       (OffChain.set_dkgRoundToDealer
          (OffChain.retireLoop
             (OffChain.rangeKeys (OffChain.dkgRoundToDealer m))
             (RoundID msg) (OffChain.dkgRoundToDealer m)) m)).

(** What [HandleOffChainShare] does from the point where the phase handler
    has returned, by the handler's error and the dealer's verifier. *)
Definition afterDispatch (msg : DKGData) (height : Z) (err : option error)
  (d1 : D) m0 w1 : Outcome bool * OffChain.St :=
  match err with
  | Some e =>
      (Return false,
       (tombstone (RoundID msg) m0,
        logged (OffChain.ALog LError "dkgState: failed to handle message"
                  [VStr "error"; VErr e; VStr "type"; VInt (Type_ msg)]
                :: slashLines (GetLosers d1)) w1))
  | None =>
      match GetVerifier d1 with
      | (_, Some e) =>
          if decide (e = ErrVerifierNotReady) then
            (Return false,
             (m0, logged [OffChain.ALog LDebug "dkgState: verifier not ready" []] w1))
          else
            (Return true,
             (tombstone (RoundID msg) m0,
              logged (OffChain.ALog LError
                        "dkgState: verifier should be ready, but it's not ready:"
                        [VErr e]
                      :: slashLines (GetLosers d1)) w1))
      | (verifier, None) =>
          (Return false,
           (staged msg height verifier m0,
            logged [OffChain.ALog LInfo
                      "dkgState: verifier is ready, killing older rounds" [];
                    OffChain.AFireEvent
                      (OffChain.EventDKGSuccessful
                         (OffChain.nextChangeHeight height))] w1))
      end
  end.

(** A computation that leaves the struct as it is. *)
Definition keepsStruct {A} (c : Go (@OffChain.St D) A) : Prop :=
  forall m w o m' w', c (m, w) = (o, (m', w')) -> m' = m.

(** The state [CheckDKGTime] reaches before it decides on a new round:
    at the change height the verifiers are swapped, the change height is
    reset and the key change is announced. *)
Definition swapped (height : Z) (s : @OffChain.St D) : OffChain.St :=
  let m := fst s in
  if decide (OffChain.changeHeight m = height) then
    (OffChain.set_changeHeight 0
       (OffChain.set_nextVerifier None
          (OffChain.set_verifier (OffChain.nextVerifier m) m)),
     logged [OffChain.ALog LInfo "dkgState: time to update verifier"
               [VInt (OffChain.changeHeight m); VInt height];
             OffChain.AFireEvent (OffChain.EventDKGKeyChange height)]
       (snd s))
  else s.

(** A computation that only adds to the trace. *)
Definition grows {A} (c : Go (@OffChain.St D) A) : Prop :=
  forall s o s',
    c s = (o, s') -> OffChain.trace (snd s) `prefix_of` OffChain.trace (snd s').

(** An option that does not touch the number of blocks. *)
Definition keepsNumBlocks (option : @OffChain.DKGOption D) : Prop :=
  forall d, OffChain.dkgNumBlocks (option d) = OffChain.dkgNumBlocks d.
End OffChainVocabulary.

(** An on-chain coordinator against a scripted node. *)
Module ChainScenario.

(** The node: bucket 0 holds two messages, bucket 1 one, the others
    none; the account is 3 with sequence 9; a simulation reports 200
    thousand units of gas; a broadcast is refused once eight calls have
    been made. *)
Definition node (history : list OnChain.Action) (c : Utils.Call)
  : Utils.Reply :=
  match c with
  | Utils.CQueryWithData path _ =>
      if decide (path = OnChain.dkgDataPath DKGPubKey)
      then Utils.mkReply [Byte.x0a; Byte.x0b] 0 0 None
      else if decide (path = OnChain.dkgDataPath DKGDeal)
      then Utils.mkReply [Byte.x0c] 0 0 None
      else Utils.mkReply [] 0 0 None
  | Utils.CGetAccountNumberSequence _ => Utils.mkReply [] 3 9 None
  | Utils.CQuery _ _ => Utils.mkReply [Byte.xc8] 0 0 None
  | Utils.CBroadcastTx txBytes =>
      if decide (length history < 8)%nat
      then Utils.mkReply txBytes 0 0 None
      else Utils.mkReply [] 0 0 (Some (ErrOther "mempool is full"))
  | _ => Utils.mkReply [] 0 0 None
  end.

(** A message needs an owner. *)
Definition ValidateBasic (msg : OnChain.MsgSendDKGData) : option error :=
  match OnChain.Owner msg with
  | [] => Some (ErrOther "empty owner")
  | _ => None
  end.

(** One message per byte. *)
Definition gobDecode (raw : bytes)
  : list OnChain.MsgSendDKGData * option error :=
  (map (fun b => OnChain.NewMsgSendDKGData
                   (mkDKGData DKGPubKey [b] 0 [] []) [b]) raw,
   None).

(** The builder and the codec: fixed bytes for every transaction, a
    simulation result of one byte that counts thousands of units of gas,
    and 2^63 for a [float64] that [uint64] cannot hold, as on amd64. *)
Definition deps : Utils.Deps OnChain.MsgSendDKGData :=
  Utils.mkDeps _ "12345678"
    (fun txBldr name pass msgs => ([Byte.x54; Byte.x58], None))
    (fun txBldr msgs => ([Byte.x53], None))
    (fun txBldr msgs => ([Byte.x4d], None))
    (fun stdSignMsg => stdSignMsg)
    (fun stdTx => (stdTx, None))
    (fun raw =>
       match raw with
       | [b] => (1000 * Z.of_N (Byte.to_N b), None)
       | _ => (0, Some (ErrOther "not a result"))
       end)
    (fun x => 9223372036854775808).

(** The builder of the driver: gas 400000, gas adjustment 0.0, no
    simulation. *)
Definition txBldr (seq : Z) : Utils.TxBuilder :=
  Utils.mkTxBuilder 3 seq 400000 (SpecFloat.S754_zero false) false "rchain" "".

Definition cliOf (from : bytes) : Utils.CLIContext :=
  Utils.mkCLIContext false false "12345678" "validator0" from.

(** A coordinator whose round has been started with [script]. *)
Definition started (from : bytes) (seq : Z) (script : Mock.Script)
  : @OnChain.St Mock.Script :=
  (OnChain.set_dealer (Some script)
     (OnChain.NewOnChainDKG (cliOf from) (txBldr seq)), []).

Definition sendMsg :=
  OnChain.sendMsg (D := Mock.Script) node ValidateBasic deps.

Definition ProcessBlock :=
  OnChain.ProcessBlock (D := Mock.Script) node ValidateBasic gobDecode deps.

(** A dealer that answers each message with one of its own. *)
Definition talkative : Mock.Script :=
  Mock.mkScript None None (fun _ => None) ErrDKGVerifierNotReady 3%nat
    (VerifierHandle 5) [] [Scenario.hello 0] [].
End ChainScenario.

Section OnChainVocabulary.
Context {D : Type}.

(** Every call the tx helpers make; [QueryWithData] is the coordinator's
    own. *)
Definition isHelperCall (c : Utils.Call) : bool :=
  match c with
  | Utils.CQueryWithData _ _ => false
  | _ => true
  end.

(** The steps of [ProcessBlock] in a trace: the queries for a bucket and
    the calls of the dealer's handlers. *)
Definition isStep (a : OnChain.Action) : bool :=
  match a with
  | OnChain.ACall (Utils.CQueryWithData _ _) _ => true
  | OnChain.ADealerHandle _ _ _ => true
  | _ => false
  end.

Definition steps (t : list OnChain.Action) : list OnChain.Action :=
  List.filter isStep t.

Definition queried (dataType : DKGDataType) (r : Utils.Reply)
  : OnChain.Action :=
  OnChain.ACall (Utils.CQueryWithData (OnChain.dkgDataPath dataType) []) r.

Definition handledOk (h : Handler) (msg : OnChain.MsgSendDKGData)
  : OnChain.Action :=
  OnChain.ADealerHandle h (OnChain.Data msg) None.

(** A computation that always returns, leaves the dealer field as it is,
    and adds no step to the trace. *)
Definition calm {A} (c : Go (@OnChain.St D) A) : Prop :=
  forall m t, exists a m' new,
    c (m, t) = (Return a, (m', t ++ new)) /\
    OnChain.dealer m' = OnChain.dealer m /\
    steps new = [].

(** The same, and the whole struct is as it was. *)
Definition tidy {A} (c : Go (@OnChain.St D) A) : Prop :=
  forall m t, exists a new,
    c (m, t) = (Return a, (m, t ++ new)) /\ steps new = [].

Variable gobDecode : bytes -> list OnChain.MsgSendDKGData * option error.

(** The steps of the loop of [ProcessBlock] over the data types [tys],
    with what the loop gives for them: each bucket is queried, then its
    messages go to the handler of its type one by one; a failed query, a
    reply that does not decode, or a handler error ends the steps there
    with that error, wrapped. *)
Inductive BucketRun
  : list DKGDataType -> list OnChain.Action -> option error -> Prop :=
| run_done : BucketRun [] [] None
| run_bucket ty tys r msgs h rest res :
    Utils.r_err r = None ->
    gobDecode (Utils.r_data r) = (msgs, None) ->
    handlerOf ty = Some h ->
    BucketRun tys rest res ->
    BucketRun (ty :: tys)
      (queried ty r :: map (handledOk h) msgs ++ rest) res
| run_query_failed ty tys r e :
    Utils.r_err r = Some e ->
    BucketRun (ty :: tys) [queried ty r]
      (Some (Errorf "failed to getDKGMessages: %v"
               (Errorf "failed to query for DKG data: %v" e)))
| run_decode_failed ty tys r junk e :
    Utils.r_err r = None ->
    gobDecode (Utils.r_data r) = (junk, Some e) ->
    BucketRun (ty :: tys) [queried ty r]
      (Some (Errorf "failed to getDKGMessages: %v"
               (Errorf "failed to decode DKG data: %v" e)))
| run_handler_failed ty tys r before msg rest h e :
    Utils.r_err r = None ->
    gobDecode (Utils.r_data r) = (before ++ msg :: rest, None) ->
    handlerOf ty = Some h ->
    BucketRun (ty :: tys)
      (queried ty r :: map (handledOk h) before
       ++ [OnChain.ADealerHandle h (OnChain.Data msg) (Some e)])
      (Some (Errorf "failed to handle message: %v" e)).

(** The coordinator after a call of [sendMsg] that got to the
    broadcast. *)
Definition bumped (m : @OnChain.OnChainDKG D) : OnChain.OnChainDKG :=
  OnChain.set_txBldr
    (Utils.WithSequence
       (GoInt.add_uint64 (Utils.sequence (OnChain.txBldr m)) 1)
       (OnChain.txBldr m)) m.
End OnChainVocabulary.

Section MoreOffChainVocabulary.
Context {D : Type} `{Dealer D}.
Variable MsgQueueSize : nat.

(** The settings of a coordinator: what its constructor and options fix. *)
Definition sameSettings (m m' : @OffChain.OffChainDKG D) : Prop :=
  OffChain.dkgNumBlocks m' = OffChain.dkgNumBlocks m /\
  OffChain.newDKGDealer m' = OffChain.newDKGDealer m /\
  OffChain.privValidator m' = OffChain.privValidator m /\
  OffChain.Logger m' = OffChain.Logger m /\
  OffChain.evsw m' = OffChain.evsw m /\
  OffChain.chainID m' = OffChain.chainID m.

(** The settings, the current verifier and the round id. *)
Definition sameKey (m m' : @OffChain.OffChainDKG D) : Prop :=
  sameSettings m m' /\
  OffChain.verifier m' = OffChain.verifier m /\
  OffChain.dkgRoundID m' = OffChain.dkgRoundID m.

(** A computation that, however it ends, leaves a struct related by [R] to
    the one it found, and that does not panic on a division by zero when
    the number of blocks is not zero. *)
Definition orderly
  (R : @OffChain.OffChainDKG D -> @OffChain.OffChainDKG D -> Prop)
  {A} (c : Go (@OffChain.St D) A) : Prop :=
  forall m w o m' w',
    c (m, w) = (o, (m', w')) ->
    R m m' /\
    (OffChain.dkgNumBlocks m <> 0 -> o <> Panic divideByZero).

(** The calls a node makes on its coordinator. *)
Inductive Op : Type :=
| OpShare (dkgMsg : DKGDataMessage) (height : Z) (validators : ValidatorSet)
    (pubKey : PubKey)
| OpTick (height : Z) (validators : ValidatorSet).

Definition runOp (op : Op) : Go (@OffChain.St D) unit :=
  match op with
  | OpShare dkgMsg height validators pubKey =>
      OffChain.HandleOffChainShare MsgQueueSize dkgMsg height validators
        pubKey ;;;
      ret tt
  | OpTick height validators =>
      OffChain.CheckDKGTime MsgQueueSize height validators
  end.

(** The calls one after the other; a panic ends the run. *)
Fixpoint runOps (ops : list Op) : Go (@OffChain.St D) unit :=
  match ops with
  | [] => ret tt
  | op :: rest => runOp op ;;; runOps rest
  end.

(** The world in which a dealer created by the coordinator is started:
    [line] is logged first, the dealer [d] is allocated, then [acts]. *)
Definition withNewDealer (line : OffChain.Action) (d : D)
  (acts : list OffChain.Action) (w : @OffChain.World D) : OffChain.World :=
  logged acts (OffChain.set_heap (OffChain.heap w ++ [d]) (logged [line] w)).

(** The world after the dealer at [ref] has returned from [Start]. *)
Definition dealerStarted (ref : nat) (d' : D) (err : option error)
  (w : @OffChain.World D) : OffChain.World :=
  logged [OffChain.ADealerStart ref err]
    (OffChain.set_heap (<[ref := d']> (OffChain.heap w)) w).
End MoreOffChainVocabulary.

Section MoreOnChainVocabulary.
Context {D : Type}.

(** The calls that stay short of the network's mempool: every call but
    [BroadcastTx]. *)
Definition isBroadcast (a : OnChain.Action) : bool :=
  match a with
  | OnChain.ACall (Utils.CBroadcastTx _) _ => true
  | _ => false
  end.

(** The calls of the helpers that prepare, simulate and print. *)
Definition isLocalCall (c : Utils.Call) : bool :=
  match c with
  | Utils.CEnsureExists _ | Utils.CGetAccountNumberSequence _
  | Utils.CQuery _ _ | Utils.CFprintf _ _ _ => true
  | _ => false
  end.

(** A computation that always returns, leaves the coordinator as it is
    and broadcasts nothing. *)
Definition offTheAir {A} (c : Go (@OnChain.St D) A) : Prop :=
  forall m t, exists a new,
    c (m, t) = (Return a, (m, t ++ new)) /\
    List.filter isBroadcast new = [].

(** Two coordinators that differ at most in the dealer and in the sequence
    number of the builder. *)
Definition sameAccount (m m' : @OnChain.OnChainDKG D) : Prop :=
  OnChain.cli m' = OnChain.cli m /\
  OnChain.typesList m' = OnChain.typesList m /\
  OnChain.logger m' = OnChain.logger m /\
  Utils.WithSequence (Utils.sequence (OnChain.txBldr m)) (OnChain.txBldr m')
  = OnChain.txBldr m.

(** A computation that, however it ends, changes at most the dealer and
    the sequence number. *)
Definition accountKept {A} (c : Go (@OnChain.St D) A) : Prop :=
  forall m t o m' t', c (m, t) = (o, (m', t')) -> sameAccount m m'.
End MoreOnChainVocabulary.

Section BlockVocabulary.
Context {D : Type} `{Dealer D}.
Variable node : list OnChain.Action -> Utils.Call -> Utils.Reply.
Variable ValidateBasic : OnChain.MsgSendDKGData -> option error.
Variable gobDecode : bytes -> list OnChain.MsgSendDKGData * option error.
Variable deps : Utils.Deps OnChain.MsgSendDKGData.

(** A handler of the dealer. *)
Definition Method : Type := DKGData -> D -> SinkM (D * option error).

(** What a bucket that was fetched and decoded has added to the trace:
    the query with the node's reply and, for type 0, the log line. *)
Definition fetched (dataType : DKGDataType) (r : Utils.Reply)
  (msgs : list OnChain.MsgSendDKGData) : list OnChain.Action :=
  queried dataType r
  :: (if decide (dataType = 0)
      then [OnChain.ALog LInfo "DKG DATA"
              [VStr "data"; VStr "dataLen"; VInt (Z.of_nat (length msgs))]]
      else []).

(** The messages of a bucket delivered to [method] of the coordinator's
    dealer, from one state of the coordinator to another: each message,
    in order, is given to [method] of the dealer the coordinator holds,
    the method runs against the coordinator's [sendMsg], and the dealer
    it leaves is the coordinator's dealer from then on; the call is
    entered in the trace under the name [h].  The first message that the
    method refuses ends the delivery there, with the method's error. *)
Inductive Delivered (h : Handler) (method : Method)
  : list OnChain.MsgSendDKGData -> @OnChain.St D -> @OnChain.St D ->
    option error -> Prop :=
| delivered_all s : Delivered h method [] s s None
| delivered_one msg rest m t d d' m1 t1 s' res :
    OnChain.dealer m = Some d ->
    runSink (OnChain.sink node ValidateBasic deps)
      (method (OnChain.Data msg) d) (m, t)
    = (Return (d', None), (m1, t1)) ->
    Delivered h method rest
      (OnChain.set_dealer (Some d') m1,
       t1 ++ [OnChain.ADealerHandle h (OnChain.Data msg) None]) s' res ->
    Delivered h method (msg :: rest) (m, t) s' res
| delivered_refused msg rest m t d d' e m1 t1 :
    OnChain.dealer m = Some d ->
    runSink (OnChain.sink node ValidateBasic deps)
      (method (OnChain.Data msg) d) (m, t)
    = (Return (d', Some e), (m1, t1)) ->
    Delivered h method (msg :: rest) (m, t)
      (OnChain.set_dealer (Some d') m1,
       t1 ++ [OnChain.ADealerHandle h (OnChain.Data msg) (Some e)])
      (Some e).

(** A block processed over the buckets [table], each with the name and
    the method of its handler, from one state of the coordinator to
    another, with the error the loop ends in.  Each bucket is queried at
    the node as the trace stands; when the reply decodes, its messages are
    delivered to the bucket's handler, and the next bucket follows.  A
    failed query, a reply that does not decode and a refused message end
    the block there, with that error, wrapped. *)
Inductive BlockRun
  : list (DKGDataType * Handler * Method) -> @OnChain.St D -> @OnChain.St D ->
    option error -> Prop :=
| block_done s : BlockRun [] s s None
| block_bucket ty h method table m t r msgs s1 s2 res :
    r = node t (Utils.CQueryWithData (OnChain.dkgDataPath ty) []) ->
    Utils.r_err r = None ->
    gobDecode (Utils.r_data r) = (msgs, None) ->
    Delivered h method msgs (m, t ++ fetched ty r msgs) s1 None ->
    BlockRun table s1 s2 res ->
    BlockRun ((ty, h, method) :: table) (m, t) s2 res
| block_query_failed ty h method table m t r e :
    r = node t (Utils.CQueryWithData (OnChain.dkgDataPath ty) []) ->
    Utils.r_err r = Some e ->
    BlockRun ((ty, h, method) :: table) (m, t) (m, t ++ [queried ty r])
      (Some (Errorf "failed to getDKGMessages: %v"
               (Errorf "failed to query for DKG data: %v" e)))
| block_decode_failed ty h method table m t r junk e :
    r = node t (Utils.CQueryWithData (OnChain.dkgDataPath ty) []) ->
    Utils.r_err r = None ->
    gobDecode (Utils.r_data r) = (junk, Some e) ->
    BlockRun ((ty, h, method) :: table) (m, t) (m, t ++ [queried ty r])
      (Some (Errorf "failed to getDKGMessages: %v"
               (Errorf "failed to decode DKG data: %v" e)))
| block_handler_failed ty h method table m t r msgs s1 e :
    r = node t (Utils.CQueryWithData (OnChain.dkgDataPath ty) []) ->
    Utils.r_err r = None ->
    gobDecode (Utils.r_data r) = (msgs, None) ->
    Delivered h method msgs (m, t ++ fetched ty r msgs) s1 (Some e) ->
    BlockRun ((ty, h, method) :: table) (m, t) s1
      (Some (Errorf "failed to handle message: %v" e)).
End BlockVocabulary.

(* ===================================================================== *)
(** * Properties *)
(* ===================================================================== *)

(** ** Go arithmetic *)

Lemma wrap_int64_id z : GoInt.is_int64 z -> GoInt.wrap_int64 z = z.
Proof.
  unfold GoInt.is_int64, GoInt.min_int64, GoInt.max_int64, GoInt.wrap_int64.
  intros Hz. rewrite Z.mod_small; lia.
Qed.

Lemma wrap_uint64_id z : GoInt.is_uint64 z -> GoInt.wrap_uint64 z = z.
Proof.
  unfold GoInt.is_uint64, GoInt.max_uint64, GoInt.wrap_uint64.
  intros Hz. rewrite Z.mod_small; lia.
Qed.

Lemma wrap_int64_range z : GoInt.is_int64 (GoInt.wrap_int64 z).
Proof.
  unfold GoInt.is_int64, GoInt.min_int64, GoInt.max_int64, GoInt.wrap_int64.
  pose proof (Z.mod_pos_bound (z + 2 ^ 63) (2 ^ 64)). lia.
Qed.

(** The remainder of an [int64] by a non-zero [int64] is an [int64]. *)
Lemma rem_int64_exact x y :
  GoInt.is_int64 x -> y <> 0 -> GoInt.rem_int64 x y = Z.rem x y.
Proof.
  intros Hx Hy. unfold GoInt.rem_int64. apply wrap_int64_id.
  pose proof (Z.rem_bound_pos_pos x y) as Hpp.
  unfold GoInt.is_int64, GoInt.min_int64, GoInt.max_int64 in *.
  destruct (Z_le_gt_dec 0 x) as [Hx0 | Hx0].
  - pose proof (Z.rem_nonneg x y Hy Hx0).
    pose proof (Z.rem_le x (Z.abs y) Hx0 ltac:(lia)) as Hle.
    rewrite Z.rem_abs_r in Hle by lia. lia.
  - pose proof (Z.rem_nonpos x y Hy ltac:(lia)).
    pose proof (Z.rem_opp_l x y) as Hopp.
    pose proof (Z.rem_le (- x) (Z.abs y) ltac:(lia) ltac:(lia)) as Hle.
    rewrite Z.rem_abs_r, Z.rem_opp_l in Hle by lia. lia.
Qed.

Lemma rem_zero_iff_mod x y : y <> 0 -> Z.rem x y = 0 <-> x `mod` y = 0.
Proof.
  intros Hy. rewrite Z.rem_divide by done. by rewrite Z.mod_divide.
Qed.

(** ** The monad *)

Section GoLemmas.
Context {S : Type}.

Lemma bind_Return {A B} (c : Go S A) (k : A -> Go S B) s a s' :
  c s = (Return a, s') -> bind c k s = k a s'.
Proof. intros Hc. unfold bind. by rewrite Hc. Qed.

Lemma bind_Panic {A B} (c : Go S A) (k : A -> Go S B) s info s' :
  c s = (Panic info, s') -> bind c k s = (Panic info, s').
Proof. intros Hc. unfold bind. by rewrite Hc. Qed.

Lemma bind_inv {A B} (c : Go S A) (k : A -> Go S B) s b s2 :
  bind c k s = (Return b, s2) ->
  exists a s1, c s = (Return a, s1) /\ k a s1 = (Return b, s2).
Proof.
  unfold bind. destruct (c s) as [[a | info] s1]; [eauto | discriminate].
Qed.
End GoLemmas.

(** One step of a computation: the first action of a [bind] returns. *)
Ltac go_step tac := erewrite bind_Return by tac; cbn beta iota; cbn [fst snd].

(** ** Off-chain coordinator: steps *)

Section OffChainSteps.
Context {D : Type} `{Dealer D}.
Variable MsgQueueSize : nat.

Implicit Types (m : @OffChain.OffChainDKG D) (w : @OffChain.World D).

Local Abbreviation quiet := (quiet (D := D)).

Lemma logged_nil w : logged [] w = w.
Proof. destruct w. unfold logged, OffChain.set_trace. simpl. by rewrite app_nil_r. Qed.

Lemma logged_logged a b w : logged b (logged a w) = logged (a ++ b) w.
Proof. unfold logged, OffChain.set_trace. simpl. by rewrite app_assoc. Qed.

Lemma heap_logged a w : OffChain.heap (logged a w) = OffChain.heap w.
Proof. done. Qed.

Lemma emit_ok a m w :
  OffChain.emit a (m, w) = (Return tt, (m, logged [a] w)).
Proof. done. Qed.

Lemma logAt_ok lvl text kv m w lg :
  OffChain.Logger m = Some lg ->
  OffChain.logAt lvl text kv (m, w)
  = (Return tt, (m, logged [OffChain.ALog lvl text kv] w)).
Proof.
  intros Hlg. unfold OffChain.logAt, bind, OffChain.self. simpl.
  by rewrite Hlg.
Qed.

Lemma logAt_nil lvl text kv m w :
  OffChain.Logger m = None ->
  OffChain.logAt lvl text kv (m, w) = (Panic nilDereference, (m, w)).
Proof.
  intros Hlg. unfold OffChain.logAt, bind, OffChain.self. simpl.
  by rewrite Hlg.
Qed.

Lemma readDealer_ok {A} (f : D -> A) ref d m w :
  OffChain.heap w !! ref = Some d ->
  OffChain.readDealer ref f (m, w) = (Return (f d), (m, w)).
Proof. intros Hd. unfold OffChain.readDealer. simpl. by rewrite Hd. Qed.

Lemma slashLosers_ok losers m w lg :
  OffChain.Logger m = Some lg ->
  OffChain.slashLosers losers (m, w)
  = (Return tt, (m, logged (slashLines losers) w)).
Proof.
  intros Hlg. revert w. induction losers as [| loser rest IH]; intros w.
  - simpl. by rewrite logged_nil.
  - simpl. erewrite bind_Return by (by eapply logAt_ok).
    rewrite IH, logged_logged. done.
Qed.

(** *** The sink leaves the struct and the dealers alone *)

Lemma quiet_ret {A} (a : A) : quiet (ret a).
Proof. intros m w o m' w' [= _ <- <-]. done. Qed.

Lemma quiet_panic {A} info : quiet (panic (A := A) info).
Proof. intros m w o m' w' [= _ <- <-]. done. Qed.

Lemma quiet_bind {A B} (c : Go OffChain.St A) (k : A -> Go OffChain.St B) :
  quiet c -> (forall a, quiet (k a)) -> quiet (bind c k).
Proof.
  intros Hc Hk m w o m' w'. unfold bind.
  destruct (c (m, w)) as [[a | info] [m1 w1]] eqn:Ec.
  - apply Hc in Ec as [-> <-]. apply Hk.
  - apply Hc in Ec as [-> <-]. by intros [= _ <- <-].
Qed.

Lemma quiet_emit a : quiet (OffChain.emit a).
Proof. intros m w o m' w' [= _ <- <-]. done. Qed.

Lemma quiet_self : quiet OffChain.self.
Proof. intros m w o m' w' [= _ <- <-]. done. Qed.

Lemma quiet_get : quiet get.
Proof. intros m w o m' w' [= _ <- <-]. done. Qed.

Lemma quiet_logAt lvl text kv : quiet (OffChain.logAt lvl text kv).
Proof.
  apply quiet_bind; [apply quiet_self |].
  intros m. destruct (OffChain.Logger m); [apply quiet_emit | apply quiet_panic].
Qed.

Lemma quiet_Sign data : quiet (OffChain.Sign data).
Proof.
  apply quiet_bind; [apply quiet_self |].
  intros m. destruct (OffChain.privValidator m) as [pv |]; [| apply quiet_panic].
  destruct (SignData pv (OffChain.chainID m) data) as [data' [err |]];
    apply quiet_ret.
Qed.

Lemma quiet_sendDKGMessage msg :
  quiet (OffChain.sendDKGMessage MsgQueueSize msg).
Proof.
  apply quiet_bind; [apply quiet_emit |]. intros _.
  apply quiet_bind; [apply quiet_get |]. intros s.
  destruct (decide _).
  - by intros m w o m' w' [= _ <- <-].
  - apply quiet_bind; [apply quiet_logAt |]. intros _.
    by intros m w o m' w' [= _ <- <-].
Qed.

Lemma quiet_sendSignedMessage data :
  quiet (OffChain.sendSignedMessage MsgQueueSize data).
Proof.
  apply quiet_bind; [apply quiet_Sign |].
  intros [data' [err |]]; [apply quiet_ret |].
  apply quiet_bind; [apply quiet_logAt |]. intros _.
  apply quiet_bind; [apply quiet_sendDKGMessage |]. intros _.
  apply quiet_ret.
Qed.

(** By induction on what the dealer does with its sink. *)
Lemma quiet_runSink {A} (p : SinkM A) :
  quiet (runSink (OffChain.sendSignedMessage MsgQueueSize) p).
Proof.
  induction p as [a | data k IH]; simpl.
  - apply quiet_ret.
  - apply quiet_bind; [apply quiet_sendSignedMessage | apply IH].
Qed.

(** *** A dealer call changes that dealer only *)

Lemma callDealer_inv ref f m w err m' w' :
  OffChain.callDealer MsgQueueSize ref f (m, w) = (Return err, (m', w')) ->
  m' = m /\
  exists d d', OffChain.heap w !! ref = Some d /\
               OffChain.heap w' = <[ref := d']> (OffChain.heap w).
Proof.
  unfold OffChain.callDealer. intros Hc.
  apply bind_inv in Hc as (s & s1 & [= <- <-] & Hc). simpl in Hc.
  destruct (OffChain.heap w !! ref) as [d |] eqn:Hd; [| discriminate].
  apply bind_inv in Hc as ([d' e] & [m1 w1] & Hrun & Hc).
  apply quiet_runSink in Hrun as [-> Hheap].
  apply bind_inv in Hc as ([] & s2 & [= <-] & [= _ <- <-]).
  split; [done |]. exists d, d'. simpl. by rewrite Hheap.
Qed.

Lemma callHandler_inv ref h msg m w err m' w' :
  OffChain.callHandler MsgQueueSize ref h msg (m, w) = (Return err, (m', w')) ->
  m' = m /\
  exists d d', OffChain.heap w !! ref = Some d /\
               OffChain.heap w' = <[ref := d']> (OffChain.heap w).
Proof.
  unfold OffChain.callHandler. intros Hc.
  apply bind_inv in Hc as (e & [m1 w1] & Hcall & Hc).
  apply callDealer_inv in Hcall as (-> & d & d' & Hd & Hheap).
  apply bind_inv in Hc as ([] & s2 & [= <-] & [= _ <- <-]).
  split; [done |]. by exists d, d'.
Qed.

Lemma dispatch_inv ref msg m w err m' w' d :
  OffChain.heap w !! ref = Some d ->
  OffChain.dispatch MsgQueueSize ref msg (m, w) = (Return err, (m', w')) ->
  m' = m /\ exists d', OffChain.heap w' !! ref = Some d'.
Proof.
  intros Hd. unfold OffChain.dispatch.
  destruct (handlerOf _) as [h |].
  - intros Hc. apply bind_inv in Hc as ([] & [m1 w1] & Hlog & Hc).
    apply quiet_logAt in Hlog as [-> Hheap].
    apply callHandler_inv in Hc as (-> & d0 & d' & Hd0 & ->).
    split; [done |]. exists d'. apply list_lookup_insert_eq.
    by eapply lookup_lt_Some.
  - intros [= _ <- <-]. eauto.
Qed.

(** *** Obtaining the dealer *)

Lemma obtainDealer_found msg validators m w dealer :
  OffChain.dkgRoundToDealer m !! RoundID msg = Some dealer ->
  OffChain.obtainDealer MsgQueueSize msg validators (m, w)
  = (Return dealer, (m, w)).
Proof.
  intros Hreg. unfold OffChain.obtainDealer, bind, OffChain.self. simpl.
  by rewrite Hreg.
Qed.
End OffChainSteps.

(** ** Off-chain coordinator: [HandleOffChainShare] *)

Section HandleOffChainShare.
Context {D : Type} `{Dealer D}.
Variable MsgQueueSize : nat.

Implicit Types (m : @OffChain.OffChainDKG D) (w : @OffChain.World D).

Local Abbreviation HandleOffChainShare :=
  (OffChain.HandleOffChainShare MsgQueueSize).
Local Abbreviation obtainDealer := (OffChain.obtainDealer MsgQueueSize).
Local Abbreviation dispatch := (OffChain.dispatch MsgQueueSize).

(** C9.  A message whose round has a live dealer that rejects it in
    [VerifyMessage] makes [HandleOffChainShare] return false; the struct
    (verifiers, change height, registry, round id and the rest), the
    dealers and the queue are as before, and two lines were logged. *)
Theorem verify_failure_changes_nothing
  dkgMsg height validators pubKey m w lg ref d e :
  OffChain.Logger m = Some lg ->
  OffChain.dkgRoundToDealer m !! RoundID (Data dkgMsg) = Some (Some ref) ->
  OffChain.heap w !! ref = Some d ->
  VerifyMessage dkgMsg d = Some e ->
  HandleOffChainShare dkgMsg height validators pubKey (m, w)
  = (Return false,
     (m, logged
           [OffChain.ALog LInfo "dkgState: received message with signature:"
              [VStr "signature"; VHex (Signature (Data dkgMsg))];
            OffChain.ALog LInfo "DKG: can't verify message:"
              [VStr "error"; VErr e]] w)).
Proof.
  intros Hlg Hreg Hheap Hver. unfold OffChain.HandleOffChainShare.
  go_step ltac:(by apply obtainDealer_found).
  go_step ltac:(by eapply logAt_ok).
  go_step ltac:(by apply readDealer_ok).
  rewrite Hver.
  go_step ltac:(by eapply logAt_ok).
  by rewrite logged_logged.
Qed.

Lemma failRound_ok ref msg m w lg d :
  OffChain.Logger m = Some lg ->
  OffChain.heap w !! ref = Some d ->
  OffChain.failRound ref msg (m, w)
  = (Return tt, (tombstone (RoundID msg) m, logged (slashLines (GetLosers d)) w)).
Proof.
  intros Hlg Hd. unfold OffChain.failRound.
  go_step ltac:(by apply readDealer_ok).
  go_step ltac:(by eapply slashLosers_ok).
  done.
Qed.

(** The whole of [HandleOffChainShare] once its dealer is there, the
    message verified and the handler back. *)
Lemma handle_share_dispatched
  dkgMsg height validators pubKey m w m0 w0 lg ref d err m1 w1 :
  obtainDealer (Data dkgMsg) validators (m, w) = (Return (Some ref), (m0, w0)) ->
  OffChain.Logger m0 = Some lg ->
  OffChain.heap w0 !! ref = Some d ->
  VerifyMessage dkgMsg d = None ->
  dispatch ref (Data dkgMsg) (m0, logged (verifiedLines (Data dkgMsg)) w0)
  = (Return err, (m1, w1)) ->
  m1 = m0 /\
  exists d1,
    OffChain.heap w1 !! ref = Some d1 /\
    HandleOffChainShare dkgMsg height validators pubKey (m, w)
    = afterDispatch (Data dkgMsg) height err d1 m0 w1.
Proof.
  intros Hobtain Hlg Hd Hver Hdisp.
  pose proof Hdisp as Hinv.
  eapply dispatch_inv in Hinv as (-> & d1 & Hd1); [| by rewrite heap_logged].
  split; [done |]. exists d1. split; [done |].
  unfold OffChain.HandleOffChainShare.
  go_step ltac:(exact Hobtain).
  go_step ltac:(by eapply logAt_ok).
  go_step ltac:(by apply readDealer_ok).
  rewrite Hver.
  go_step ltac:(by eapply logAt_ok).
  rewrite logged_logged.
  go_step ltac:(exact Hdisp).
  unfold afterDispatch. destruct err as [e |].
  - go_step ltac:(by eapply logAt_ok).
    go_step ltac:(by eapply failRound_ok).
    by rewrite logged_logged.
  - go_step ltac:(by apply readDealer_ok).
    destruct (GetVerifier d1) as [verifier [e |]].
    + destruct (decide (e = ErrVerifierNotReady)) as [-> | Hne].
      * go_step ltac:(by eapply logAt_ok). done.
      * go_step ltac:(by eapply logAt_ok).
        go_step ltac:(by eapply failRound_ok).
        by rewrite logged_logged.
    + go_step ltac:(by eapply logAt_ok).
      do 5 go_step ltac:(reflexivity).
      unfold ret, staged, logged, OffChain.set_trace. simpl.
      by rewrite <- app_assoc.
Qed.

(** After the dispatch to the phase handler, for any dealer: a handler
    error logs the failure, slashes the dealer's losers, tombstones the
    round and returns false; no handler error and the package's own
    [ErrVerifierNotReady] from [GetVerifier] returns false with the struct
    as it was; any other error from [GetVerifier], the library's
    [types.ErrDKGVerifierNotReady] among them, slashes the losers,
    tombstones the round and returns true. *)
Lemma handler_and_verifier_errors
  dkgMsg height validators pubKey m w m0 w0 lg ref d err m1 w1 :
  obtainDealer (Data dkgMsg) validators (m, w) = (Return (Some ref), (m0, w0)) ->
  OffChain.Logger m0 = Some lg ->
  OffChain.heap w0 !! ref = Some d ->
  VerifyMessage dkgMsg d = None ->
  dispatch ref (Data dkgMsg) (m0, logged (verifiedLines (Data dkgMsg)) w0)
  = (Return err, (m1, w1)) ->
  m1 = m0 /\
  exists d1,
    OffChain.heap w1 !! ref = Some d1 /\
    let run := HandleOffChainShare dkgMsg height validators pubKey (m, w) in
    (forall e, err = Some e ->
       run = (Return false,
              (tombstone (RoundID (Data dkgMsg)) m0,
               logged
                 (OffChain.ALog LError "dkgState: failed to handle message"
                    [VStr "error"; VErr e; VStr "type";
                     VInt (Type_ (Data dkgMsg))]
                  :: slashLines (GetLosers d1)) w1))) /\
    (err = None -> snd (GetVerifier d1) = Some ErrVerifierNotReady ->
       run = (Return false,
              (m0, logged [OffChain.ALog LDebug
                             "dkgState: verifier not ready" []] w1))) /\
    (forall e, err = None -> snd (GetVerifier d1) = Some e ->
       e <> ErrVerifierNotReady ->
       run = (Return true,
              (tombstone (RoundID (Data dkgMsg)) m0,
               logged
                 (OffChain.ALog LError
                    "dkgState: verifier should be ready, but it's not ready:"
                    [VErr e]
                  :: slashLines (GetLosers d1)) w1))).
Proof.
  intros Hobtain Hlg Hd Hver Hdisp.
  destruct (handle_share_dispatched dkgMsg height validators pubKey
              _ _ _ _ _ _ _ _ _ _ Hobtain Hlg Hd Hver Hdisp)
    as (-> & d1 & Hd1 & Hrun).
  split; [done |]. exists d1. split; [done |].
  cbn zeta. rewrite Hrun. unfold afterDispatch. repeat split.
  - by intros e ->.
  - intros -> Hv. destruct (GetVerifier d1) as [v oe]. simpl in Hv. subst oe.
    by rewrite decide_True.
  - intros e -> Hv Hne. destruct (GetVerifier d1) as [v oe]. simpl in Hv.
    subst oe. by rewrite decide_False.
Qed.

(** A message for a tombstoned round is dropped: false is returned, one
    line is logged, no dealer is created and none is called. *)
Lemma tombstoned_round_dropped dkgMsg height validators pubKey m w lg :
  OffChain.Logger m = Some lg ->
  OffChain.dkgRoundToDealer m !! RoundID (Data dkgMsg) = Some None ->
  HandleOffChainShare dkgMsg height validators pubKey (m, w)
  = (Return false,
     (m, logged [OffChain.ALog LInfo
                   "dkgState: received message for inactive round:"
                   [VStr "round"; VInt (RoundID (Data dkgMsg))]] w)).
Proof.
  intros Hlg Hreg. unfold OffChain.HandleOffChainShare.
  go_step ltac:(by apply obtainDealer_found).
  go_step ltac:(by eapply logAt_ok).
  done.
Qed.
End HandleOffChainShare.

(** ** The retirement loop *)

Section RetireLoop.
Implicit Types (reg : gmap Z (option nat)) (keys : list Z).

(** The loop writes at the message's round and nowhere else. *)
Lemma retireLoop_other keys msgRound reg k :
  k <> msgRound ->
  OffChain.retireLoop keys msgRound reg !! k = reg !! k.
Proof.
  intros Hk. unfold OffChain.retireLoop. revert reg.
  induction keys as [| roundID keys IH]; intros reg; [done |].
  simpl. rewrite IH. unfold OffChain.retireStep.
  destruct (decide (roundID < msgRound)); [| done].
  by rewrite lookup_insert_ne.
Qed.

(** Whatever the order of the keys: nil at the message's round when some
    key is below it, and no change otherwise. *)
Lemma retireLoop_spec keys msgRound reg :
  OffChain.retireLoop keys msgRound reg
  = if decide (Exists (fun roundID => roundID < msgRound) keys)
    then <[msgRound := None]> reg else reg.
Proof.
  unfold OffChain.retireLoop. revert reg.
  induction keys as [| roundID keys IH]; intros reg; cbn [foldl].
  - case_decide as Hex; [by apply Exists_nil in Hex | done].
  - rewrite IH. unfold OffChain.retireStep.
    destruct (decide (roundID < msgRound)) as [Hlt | Hge];
      destruct (decide (Exists _ keys)) as [Hex | Hnex];
      case_decide as Hall; try done.
    + by rewrite insert_insert_eq.
    + exfalso. apply Hall. by left.
    + exfalso. apply Hall. by left.
    + exfalso. apply Hall. by right.
    + apply Exists_cons in Hall as [? | ?]; done.
Qed.

Lemma retireLoop_order keys keys' msgRound reg :
  keys ≡ₚ keys' ->
  OffChain.retireLoop keys msgRound reg = OffChain.retireLoop keys' msgRound reg.
Proof.
  intros Hperm. rewrite !retireLoop_spec.
  repeat case_decide; try done.
  - exfalso. by rewrite <- Hperm in *.
  - exfalso. by rewrite Hperm in *.
Qed.

Lemma elem_of_rangeKeys reg k :
  k ∈ OffChain.rangeKeys reg <-> is_Some (reg !! k).
Proof.
  unfold OffChain.rangeKeys. rewrite list_elem_of_fmap. split.
  - intros ([k' v] & -> & Hin). apply elem_of_map_to_list in Hin. eauto.
  - intros [v Hv]. exists (k, v). split; [done |].
    by apply elem_of_map_to_list.
Qed.
End RetireLoop.

(** ** The change height *)

Section ChangeHeight.

(** On every argument the result is five times the truncated quotient of
    the wrapped sum. *)
Lemma nextChangeHeight_quot h :
  OffChain.nextChangeHeight h = 5 * (GoInt.wrap_int64 (h + 20) ÷ 5).
Proof.
  unfold OffChain.nextChangeHeight, GoInt.add_int64, OffChain.BlocksAhead.
  pose proof (wrap_int64_range (h + 20)) as Hx.
  set (x := GoInt.wrap_int64 (h + 20)) in *.
  rewrite rem_int64_exact by done.
  unfold GoInt.sub_int64.
  pose proof (Z.quot_rem' x 5) as Hqr.
  replace (x - Z.rem x 5) with (5 * (x ÷ 5)) by lia.
  apply wrap_int64_id.
  unfold GoInt.is_int64, GoInt.min_int64, GoInt.max_int64 in *.
  destruct (Z_le_gt_dec 0 x) as [Hx0 | Hx0].
  - pose proof (Z.mul_quot_le x 5 Hx0 ltac:(lia)).
    pose proof (Z.quot_pos x 5 Hx0 ltac:(lia)). lia.
  - pose proof (Z.mul_quot_ge x 5 ltac:(lia) ltac:(lia)).
    pose proof (Z.quot_opp_l x 5 ltac:(lia)) as Hopp.
    pose proof (Z.quot_pos (- x) 5 ltac:(lia) ltac:(lia)). lia.
Qed.

Lemma nextChangeHeight_divisible h : (5 | OffChain.nextChangeHeight h).
Proof. rewrite nextChangeHeight_quot. apply Z.divide_factor_l. Qed.

(** Without overflow of [h + 20] the result is the sum less its Go
    remainder by five, and at least [h + 16]. *)
Lemma nextChangeHeight_exact h :
  GoInt.is_int64 h -> h + 20 <= GoInt.max_int64 ->
  OffChain.nextChangeHeight h = (h + 20) - Z.rem (h + 20) 5 /\
  h + 16 <= OffChain.nextChangeHeight h.
Proof.
  intros Hh Hsum. rewrite nextChangeHeight_quot.
  rewrite wrap_int64_id
    by (unfold GoInt.is_int64, GoInt.min_int64, GoInt.max_int64 in *; lia).
  pose proof (Z.quot_rem' (h + 20) 5) as Hqr.
  split; [lia |].
  destruct (Z_le_gt_dec 0 (h + 20)) as [Hx0 | Hx0].
  - pose proof (Z.rem_bound_pos (h + 20) 5 Hx0 ltac:(lia)). lia.
  - pose proof (Z.rem_nonpos (h + 20) 5 ltac:(lia) ltac:(lia)). lia.
Qed.

(** From height [-20] on, Go's remainder is the mathematical [mod]. *)
Lemma nextChangeHeight_mod h :
  -20 <= h -> h + 20 <= GoInt.max_int64 ->
  OffChain.nextChangeHeight h = (h + 20) - (h + 20) `mod` 5.
Proof.
  intros Hlo Hhi.
  destruct (nextChangeHeight_exact h) as [-> _].
  - unfold GoInt.is_int64, GoInt.min_int64, GoInt.max_int64 in *. lia.
  - done.
  - by rewrite Z.rem_mod_nonneg by lia.
Qed.
End ChangeHeight.

(** ** Completion of a round *)

Section Completion.
Context {D : Type} `{Dealer D}.
Variable MsgQueueSize : nat.

Implicit Types (m : @OffChain.OffChainDKG D) (w : @OffChain.World D).

Local Abbreviation HandleOffChainShare :=
  (OffChain.HandleOffChainShare MsgQueueSize).
Local Abbreviation obtainDealer := (OffChain.obtainDealer MsgQueueSize).
Local Abbreviation dispatch := (OffChain.dispatch MsgQueueSize).

(** When the dealer has a verifier after the handler, the call returns
    false in the staged state. *)
Lemma handle_share_completes
  dkgMsg height validators pubKey m w m0 w0 lg ref d m1 w1 d1 verifier :
  obtainDealer (Data dkgMsg) validators (m, w) = (Return (Some ref), (m0, w0)) ->
  OffChain.Logger m0 = Some lg ->
  OffChain.heap w0 !! ref = Some d ->
  VerifyMessage dkgMsg d = None ->
  dispatch ref (Data dkgMsg) (m0, logged (verifiedLines (Data dkgMsg)) w0)
  = (Return None, (m1, w1)) ->
  OffChain.heap w1 !! ref = Some d1 ->
  GetVerifier d1 = (verifier, None) ->
  HandleOffChainShare dkgMsg height validators pubKey (m, w)
  = (Return false,
     (staged (Data dkgMsg) height verifier m0,
      logged [OffChain.ALog LInfo
                "dkgState: verifier is ready, killing older rounds" [];
              OffChain.AFireEvent
                (OffChain.EventDKGSuccessful
                   (OffChain.nextChangeHeight height))] w1)).
Proof.
  intros Hobtain Hlg Hd Hver Hdisp Hd1 Hv.
  destruct (handle_share_dispatched MsgQueueSize dkgMsg height validators
              pubKey _ _ _ _ _ _ _ _ _ _ Hobtain Hlg Hd Hver Hdisp)
    as (-> & d1' & Hd1' & ->).
  assert (d1' = d1) as -> by congruence.
  unfold afterDispatch. by rewrite Hv.
Qed.

(** On completion every entry other than the message's own is as it was:
    an older round with a live dealer keeps it.  The message's own entry
    is the one written, with nil, when an older key exists. *)
Lemma completion_registry msg height verifier m :
  let reg := OffChain.dkgRoundToDealer m in
  let reg' := OffChain.dkgRoundToDealer (staged msg height verifier m) in
  (forall k, k <> RoundID msg -> reg' !! k = reg !! k) /\
  ((exists k, k < RoundID msg /\ is_Some (reg !! k)) ->
   reg' !! RoundID msg = Some None).
Proof.
  cbn zeta. unfold staged. simpl. split.
  - intros k Hk. by apply retireLoop_other.
  - intros (k & Hlt & Hin). rewrite retireLoop_spec.
    rewrite decide_True; [apply lookup_insert_eq |].
    apply Exists_exists. exists k. split; [| done].
    by apply elem_of_rangeKeys.
Qed.

(** C2, as amended.  When [HandleOffChainShare] obtains a verifier at
    height [h], the staged change height is the [int64] value of
    [(h + 20) - ((h + 20) % 5)], a multiple of five for every [h]; when
    [h + 20] does not overflow it is [(h + 20)] less its remainder by
    five and at least [h + 16], from [h = -20] on with the mathematical
    [mod]; at height 77 it is 95. *)
Theorem change_height_staged
  dkgMsg height validators pubKey m w m0 w0 lg ref d m1 w1 d1 verifier :
  obtainDealer (Data dkgMsg) validators (m, w) = (Return (Some ref), (m0, w0)) ->
  OffChain.Logger m0 = Some lg ->
  OffChain.heap w0 !! ref = Some d ->
  VerifyMessage dkgMsg d = None ->
  dispatch ref (Data dkgMsg) (m0, logged (verifiedLines (Data dkgMsg)) w0)
  = (Return None, (m1, w1)) ->
  OffChain.heap w1 !! ref = Some d1 ->
  GetVerifier d1 = (verifier, None) ->
  let change :=
    OffChain.changeHeight
      (fst (snd (HandleOffChainShare dkgMsg height validators pubKey (m, w)))) in
  change = OffChain.nextChangeHeight height /\
  (5 | change) /\
  (GoInt.is_int64 height -> height + 20 <= GoInt.max_int64 ->
   change = (height + 20) - Z.rem (height + 20) 5 /\ height + 16 <= change) /\
  (-20 <= height -> height + 20 <= GoInt.max_int64 ->
   change = (height + 20) - (height + 20) `mod` 5) /\
  (height = 77 -> change = 95).
Proof.
  intros Hobtain Hlg Hd Hver Hdisp Hd1 Hv.
  rewrite (handle_share_completes dkgMsg height validators pubKey
             _ _ _ _ _ _ _ _ _ _ _ Hobtain Hlg Hd Hver Hdisp Hd1 Hv).
  cbn zeta. simpl. repeat split.
  - apply nextChangeHeight_divisible.
  - by apply nextChangeHeight_exact.
  - by apply nextChangeHeight_exact.
  - by apply nextChangeHeight_mod.
  - by intros ->.
Qed.
End Completion.

(** ** The height scheduler and construction *)

Section Scheduler.
Context {D : Type} `{Dealer D}.
Variable MsgQueueSize : nat.

Implicit Types (m : @OffChain.OffChainDKG D) (w : @OffChain.World D).

Local Abbreviation keepsStruct := (keepsStruct (D := D)).
Local Abbreviation quiet := (quiet (D := D)).
Local Abbreviation startRound := (OffChain.startRound MsgQueueSize).
Local Abbreviation startRoundOrPanic :=
  (OffChain.startRoundOrPanic MsgQueueSize).
Local Abbreviation CheckDKGTime := (OffChain.CheckDKGTime MsgQueueSize).

Lemma keeps_quiet {A} (c : Go OffChain.St A) : quiet c -> keepsStruct c.
Proof. intros Hq m w o m' w' Hc. by apply Hq in Hc as [-> _]. Qed.

Lemma keeps_bind {A B} (c : Go OffChain.St A) (k : A -> Go OffChain.St B) :
  keepsStruct c -> (forall a, keepsStruct (k a)) -> keepsStruct (bind c k).
Proof.
  intros Hc Hk m w o m' w'. unfold bind.
  destruct (c (m, w)) as [[a | info] [m1 w1]] eqn:Ec.
  - apply Hc in Ec as ->. apply Hk.
  - apply Hc in Ec as ->. by intros [= _ <- _].
Qed.

Lemma keeps_callDealer ref f :
  keepsStruct (OffChain.callDealer MsgQueueSize ref f).
Proof.
  apply keeps_bind; [apply keeps_quiet, quiet_get |]. intros s.
  destruct (OffChain.heap s.2 !! ref); [| apply keeps_quiet, quiet_panic].
  apply keeps_bind; [apply keeps_quiet, quiet_runSink |]. intros r.
  apply keeps_bind; [by intros m w o m' w' [= _ <- _] |]. intros _.
  apply keeps_quiet, quiet_ret.
Qed.

Lemma keeps_startDealer ref :
  keepsStruct (OffChain.startDealer MsgQueueSize ref).
Proof.
  apply keeps_bind; [apply keeps_callDealer |]. intros err.
  apply keeps_quiet, quiet_bind; [apply quiet_emit |]. intros _.
  apply quiet_ret.
Qed.

(** However it ends, [startRound] leaves a struct that differs from the
    one it found in the round id, incremented, and the registry. *)
Lemma startRound_struct validators m w :
  exists reg,
    fst (snd (startRound validators (m, w)))
    = OffChain.set_dkgRoundToDealer reg
        (OffChain.set_dkgRoundID (GoInt.add_int64 (OffChain.dkgRoundID m) 1) m).
Proof.
  unfold OffChain.startRound.
  go_step ltac:(reflexivity). go_step ltac:(reflexivity).
  set (m1 := OffChain.set_dkgRoundID (GoInt.add_int64 (OffChain.dkgRoundID m) 1) m).
  destruct (OffChain.Logger m1) as [lg |] eqn:Hlg.
  - go_step ltac:(by eapply logAt_ok).
    destruct (OffChain.dkgRoundToDealer m1 !! OffChain.dkgRoundID m1).
    + exists (OffChain.dkgRoundToDealer m1). by destruct m.
    + do 3 go_step ltac:(reflexivity).
      match goal with
      | |- context [OffChain.startDealer _ ?ref ?s] =>
          destruct (OffChain.startDealer MsgQueueSize ref s)
            as [o [m' w']] eqn:Hstart
      end.
      apply keeps_startDealer in Hstart as ->. eexists. by destruct m.
  - erewrite bind_Panic by (by apply logAt_nil).
    exists (OffChain.dkgRoundToDealer m1). by destruct m.
Qed.

Lemma startRoundOrPanic_struct validators m w :
  exists reg,
    fst (snd (startRoundOrPanic validators (m, w)))
    = OffChain.set_dkgRoundToDealer reg
        (OffChain.set_dkgRoundID (GoInt.add_int64 (OffChain.dkgRoundID m) 1) m).
Proof.
  destruct (startRound_struct validators m w) as [reg Hreg]. exists reg.
  unfold OffChain.startRoundOrPanic, bind.
  destruct (startRound validators (m, w)) as [[[e |] | info] s1]; done.
Qed.

(** *** Traces only grow *)

Local Abbreviation grows := (grows (D := D)).

Lemma grows_ret {A} (a : A) : grows (ret a).
Proof. by intros s o s' [= _ <-]. Qed.

Lemma grows_panic {A} info : grows (panic (A := A) info).
Proof. by intros s o s' [= _ <-]. Qed.

Lemma grows_bind {A B} (c : Go OffChain.St A) (k : A -> Go OffChain.St B) :
  grows c -> (forall a, grows (k a)) -> grows (bind c k).
Proof.
  intros Hc Hk s o s'. unfold bind.
  destruct (c s) as [[a | info] s1] eqn:Ec.
  - intros Ek. etrans; [by eapply Hc | by eapply Hk].
  - intros [= _ <-]. by eapply Hc.
Qed.

Lemma grows_self : grows OffChain.self.
Proof. by intros s o s' [= _ <-]. Qed.

Lemma grows_get : grows get.
Proof. by intros s o s' [= _ <-]. Qed.

Lemma grows_update f : grows (OffChain.update f).
Proof. by intros s o s' [= _ <-]. Qed.

Lemma grows_emit a : grows (OffChain.emit a).
Proof. intros s o s' [= _ <-]. apply prefix_app_r. done. Qed.

Lemma grows_logAt lvl text kv : grows (OffChain.logAt lvl text kv).
Proof.
  apply grows_bind; [apply grows_self |]. intros m0.
  destruct (OffChain.Logger m0); [apply grows_emit | apply grows_panic].
Qed.

Lemma grows_sendSignedMessage data :
  grows (OffChain.sendSignedMessage MsgQueueSize data).
Proof.
  apply grows_bind.
  - apply grows_bind; [apply grows_self |]. intros m0.
    destruct (OffChain.privValidator m0) as [pv |]; [| apply grows_panic].
    destruct (SignData pv (OffChain.chainID m0) data) as [data' [err |]];
      apply grows_ret.
  - intros [data' [err |]]; [apply grows_ret |].
    apply grows_bind; [apply grows_logAt |]. intros _.
    apply grows_bind; [| intros _; apply grows_ret].
    apply grows_bind; [apply grows_emit |]. intros _.
    apply grows_bind; [apply grows_get |]. intros s0.
    destruct (decide _).
    + by intros s o s' [= _ <-].
    + apply grows_bind; [apply grows_logAt |]. intros _.
      by intros s o s' [= _ <-].
Qed.

Lemma grows_runSink {A} (p : SinkM A) :
  grows (runSink (OffChain.sendSignedMessage MsgQueueSize) p).
Proof.
  induction p as [a | data k IH]; simpl.
  - apply grows_ret.
  - apply grows_bind; [apply grows_sendSignedMessage | apply IH].
Qed.

Lemma grows_startDealer ref : grows (OffChain.startDealer MsgQueueSize ref).
Proof.
  apply grows_bind.
  - apply grows_bind; [apply grows_get |]. intros s0.
    destruct (OffChain.heap s0.2 !! ref); [| apply grows_panic].
    apply grows_bind; [apply grows_runSink |]. intros r.
    apply grows_bind; [by intros s o s' [= _ <-] |]. intros _.
    apply grows_ret.
  - intros err. apply grows_bind; [apply grows_emit |]. intros _.
    apply grows_ret.
Qed.

Lemma grows_startRoundOrPanic validators :
  grows (startRoundOrPanic validators).
Proof.
  apply grows_bind.
  - apply grows_bind; [apply grows_update |]. intros _.
    apply grows_bind; [apply grows_self |]. intros m0.
    apply grows_bind; [apply grows_logAt |]. intros _.
    destruct (_ !! _); [apply grows_ret |].
    apply grows_bind; [by intros s o s' [= _ <-] |]. intros dealer.
    apply grows_bind; [apply grows_update |]. intros _.
    apply grows_bind; [apply grows_emit |]. intros _.
    apply grows_startDealer.
  - intros [e |]; [| apply grows_ret].
    apply grows_bind; [apply grows_self |]. intros m0. apply grows_panic.
Qed.

(** C7.  At the stored change height [CheckDKGTime] leaves the staged
    verifier as the current one, none staged and change height 0, and has
    fired [EventDKGKeyChange] with the height; at any other height these
    three fields are as they were.  It runs [startRound], from the state
    [swapped] it has reached by then, exactly when the height is above 1
    and a multiple of the number of blocks: the round id is then
    incremented, and is as it was otherwise; in particular no round is
    started at heights 0 and 1. *)
Theorem check_dkg_time height validators m w lg :
  OffChain.Logger m = Some lg ->
  OffChain.dkgNumBlocks m <> 0 ->
  GoInt.is_int64 height ->
  let s1 := swapped height (m, w) in
  let run := CheckDKGTime height validators (m, w) in
  let final := snd run in
  let due := height > 1 /\ height `mod` OffChain.dkgNumBlocks m = 0 in
  (OffChain.changeHeight m = height ->
     OffChain.verifier (fst final) = OffChain.nextVerifier m /\
     OffChain.nextVerifier (fst final) = None /\
     OffChain.changeHeight (fst final) = 0 /\
     (OffChain.trace w
      ++ [OffChain.ALog LInfo "dkgState: time to update verifier"
            [VInt (OffChain.changeHeight m); VInt height];
          OffChain.AFireEvent (OffChain.EventDKGKeyChange height)])
     `prefix_of` OffChain.trace (snd final)) /\
  (OffChain.changeHeight m <> height ->
     OffChain.verifier (fst final) = OffChain.verifier m /\
     OffChain.nextVerifier (fst final) = OffChain.nextVerifier m /\
     OffChain.changeHeight (fst final) = OffChain.changeHeight m) /\
  (due ->
     run = startRoundOrPanic validators s1 /\
     OffChain.dkgRoundID (fst final)
     = GoInt.add_int64 (OffChain.dkgRoundID m) 1) /\
  (~ due ->
     run = (Return tt, s1) /\
     OffChain.dkgRoundID (fst final) = OffChain.dkgRoundID m) /\
  (height = 0 \/ height = 1 -> run = (Return tt, s1)).
Proof.
  intros Hlg Hn Hh. cbn zeta.
  assert (Hswap :
    (if decide (OffChain.changeHeight m = height)
     then OffChain.logAt LInfo "dkgState: time to update verifier"
            [VInt (OffChain.changeHeight m); VInt height] ;;;
          OffChain.update (fun m =>
            OffChain.set_nextVerifier None
              (OffChain.set_verifier (OffChain.nextVerifier m) m)) ;;;
          OffChain.update (OffChain.set_changeHeight 0) ;;;
          OffChain.FireEvent (OffChain.EventDKGKeyChange height)
     else ret tt) (m, w) = (Return tt, swapped height (m, w))).
  { unfold swapped. simpl fst.
    destruct (decide (OffChain.changeHeight m = height)) as [Heq | Hne].
    - go_step ltac:(by eapply logAt_ok).
      do 2 go_step ltac:(reflexivity).
      unfold OffChain.FireEvent. rewrite emit_ok. by rewrite logged_logged.
    - done. }
  assert (Hnum : OffChain.dkgNumBlocks (fst (swapped height (m, w)))
                 = OffChain.dkgNumBlocks m).
  { unfold swapped. simpl. by destruct (decide _). }
  assert (Hrun :
    CheckDKGTime height validators (m, w)
    = if decide (height > 1 /\ height `mod` OffChain.dkgNumBlocks m = 0)
      then startRoundOrPanic validators (swapped height (m, w))
      else (Return tt, swapped height (m, w))).
  { unfold OffChain.CheckDKGTime.
    go_step ltac:(reflexivity).
    go_step ltac:(exact Hswap).
    destruct (swapped height (m, w)) as [m1 w1] eqn:Es1. simpl in Hnum.
    go_step ltac:(reflexivity). rewrite Hnum.
    destruct (decide (height > 1)) as [Hgt | Hle].
    - rewrite decide_False by done.
      rewrite rem_int64_exact by done.
      destruct (decide (Z.rem height (OffChain.dkgNumBlocks m) = 0))
        as [Hrem | Hrem].
      + rewrite decide_True; [done |].
        split; [done |]. by apply rem_zero_iff_mod.
      + rewrite decide_False; [done |].
        intros [_ Hmod]. by apply Hrem, rem_zero_iff_mod.
    - rewrite decide_False; [done |]. by intros [? _]. }
  (* The struct and the trace at the end, from those of [swapped]. *)
  assert (Hfinal :
    exists reg id,
      fst (snd (CheckDKGTime height validators (m, w)))
      = OffChain.set_dkgRoundToDealer reg
          (OffChain.set_dkgRoundID id (fst (swapped height (m, w)))) /\
      OffChain.trace (snd (swapped height (m, w)))
      `prefix_of` OffChain.trace (snd (snd (CheckDKGTime height validators (m, w))))).
  { rewrite Hrun. destruct (swapped height (m, w)) as [m1 w1] eqn:Es1.
    case_decide.
    - destruct (startRoundOrPanic_struct validators m1 w1) as [reg Hreg].
      exists reg, (GoInt.add_int64 (OffChain.dkgRoundID m1) 1).
      split; [exact Hreg |].
      destruct (startRoundOrPanic validators (m1, w1)) as [o s'] eqn:Es.
      by apply grows_startRoundOrPanic in Es.
    - exists (OffChain.dkgRoundToDealer m1), (OffChain.dkgRoundID m1).
      split; [by destruct m1 | done]. }
  destruct Hfinal as (reg & id & Hstruct & Htrace).
  split; [| split; [| split; [| split]]].
  - intros Heq. rewrite Hstruct. revert Htrace.
    unfold swapped. simpl. rewrite decide_True by done. simpl.
    by intros Htrace.
  - intros Hne. rewrite Hstruct.
    unfold swapped. simpl. by rewrite decide_False.
  - intros Hdue. rewrite Hrun, decide_True by done. split; [done |].
    destruct (swapped height (m, w)) as [m1 w1] eqn:Es1.
    destruct (startRoundOrPanic_struct validators m1 w1) as [reg' ->].
    simpl. f_equal. unfold swapped in Es1. simpl in Es1.
    destruct (decide _); by injection Es1 as <- _.
  - intros Hnot. rewrite Hrun, decide_False by done. split; [done |].
    unfold swapped. simpl. by destruct (decide _).
  - intros Hsmall. rewrite Hrun, decide_False; [done |]. lia.
Qed.
End Scheduler.

Section Construction.
Context {D : Type}.
Variable NewDKGDealer : @OffChain.DKGDealerConstructor D.

Local Abbreviation keepsNumBlocks := (keepsNumBlocks (D := D)).
Local Abbreviation NewOffChainDKG := (OffChain.NewOffChainDKG NewDKGDealer).

(** The options other than [WithDKGNumBlocks] keep the number of blocks. *)
Lemma other_options_keep_num_blocks :
  (forall v, keepsNumBlocks (OffChain.WithVerifier v)) /\
  (forall l, keepsNumBlocks (OffChain.WithLogger l)) /\
  (forall pv, keepsNumBlocks (OffChain.WithPVKey pv)) /\
  (forall c, keepsNumBlocks (OffChain.WithDKGDealerConstructor c)).
Proof.
  repeat split; try done. intros [c |] d; done.
Qed.

Lemma options_keep (options : list (@OffChain.DKGOption D)) dkg :
  Forall keepsNumBlocks options ->
  OffChain.dkgNumBlocks (foldl (fun dkg option => option dkg) dkg options)
  = OffChain.dkgNumBlocks dkg.
Proof.
  intros Hall. revert dkg.
  induction Hall as [| option options Hkeep _ IH]; intros dkg; [done |].
  simpl. by rewrite IH, Hkeep.
Qed.

(** Whatever the options, a new coordinator has a non-zero number of
    blocks. *)
Lemma num_blocks_never_zero evsw chainID options :
  OffChain.dkgNumBlocks (NewOffChainDKG evsw chainID options) <> 0.
Proof.
  unfold OffChain.NewOffChainDKG. cbn zeta.
  destruct (decide _) as [Hz | Hnz]; [done | exact Hnz].
Qed.

(** Without [WithDKGNumBlocks] the number of blocks is the default. *)
Lemma num_blocks_unconfigured evsw chainID options :
  Forall keepsNumBlocks options ->
  OffChain.dkgNumBlocks (NewOffChainDKG evsw chainID options) = 100.
Proof.
  intros Hall. unfold OffChain.NewOffChainDKG. cbn zeta.
  destruct (decide _) as [Hz | Hnz]; [done |].
  by rewrite options_keep.
Qed.

(** C8.  When the number of blocks is configured as [n] (by
    [WithDKGNumBlocks n], whatever options go before it, and with after
    it only options that do not set the number of blocks), the new
    coordinator has 100 blocks for [n = 0] and [n] blocks otherwise. *)
Theorem num_blocks_zero_is_default evsw chainID before n after :
  Forall keepsNumBlocks after ->
  let dkg :=
    NewOffChainDKG evsw chainID
      (before ++ OffChain.WithDKGNumBlocks n :: after) in
  (n = 0 -> OffChain.dkgNumBlocks dkg = 100) /\
  (n <> 0 -> OffChain.dkgNumBlocks dkg = n).
Proof.
  intros Hall. cbn zeta. unfold OffChain.NewOffChainDKG. cbn zeta.
  rewrite foldl_app. cbn [foldl].
  match goal with
  | |- context [decide (OffChain.dkgNumBlocks ?x = 0)] =>
      assert (OffChain.dkgNumBlocks x = n) as Hn
        by (by rewrite options_keep)
  end.
  destruct (decide _) as [Hz | Hnz]; rewrite Hn in *.
  - split; [done | by intros ?].
  - split; [by intros ? | done].
Qed.
End Construction.

(** ** Runs of the off-chain coordinator *)

(** C1, on the code.  Rounds 1 and 2 have live dealers and a message of
    round 2 completes that round.  The specification asks that the entry of
    round 1 be nil afterwards and a later message of round 1 be dropped
    before any handler.  The loop writes nil at the completed round
    instead: the entry of round 1 still holds its dealer, the entry of
    round 2 is the tombstone, and the later message of round 1 is handed
    to the dealer of round 1. *)
Theorem older_round_survives_completion :
  OffChain.dkgRoundToDealer (fst Scenario.twoRounds) !! 1 = Some (Some 0%nat) /\
  OffChain.dkgRoundToDealer (fst Scenario.twoRounds) !! 2 = Some (Some 1%nat) /\
  Scenario.outcome
    (OffChain.HandleOffChainShare Scenario.MsgQueueSize
       (Mock.message DKGPubKey 2) 277 [] Scenario.pubKey) Scenario.twoRounds
  = Return false /\
  OffChain.nextVerifier (fst Scenario.roundTwoDone) = Some (VerifierHandle 22) /\
  OffChain.dkgRoundToDealer (fst Scenario.roundTwoDone) !! 1
  = Some (Some 0%nat) /\
  OffChain.dkgRoundToDealer (fst Scenario.roundTwoDone) !! 2 = Some None /\
  Scenario.outcome
    (OffChain.HandleOffChainShare Scenario.MsgQueueSize Scenario.lateMessage
       278 [] Scenario.pubKey) Scenario.roundTwoDone
  = Return false /\
  Mock.handled <$> OffChain.heap (snd Scenario.afterLate) !! 0%nat
  = Some [(HDeal, Data Scenario.lateMessage)].
Proof. vm_compute. repeat split; reflexivity. Qed.

(** C4, on the code.  A dealer of the library that has not yet produced
    its verifier answers [GetVerifier] with [types.ErrDKGVerifierNotReady],
    the value the on-chain coordinator compares with.  The specification
    asks that the off-chain coordinator then return false and change
    nothing.  [HandleOffChainShare] compares the error with
    [ErrVerifierNotReady], which its own package declares and which is
    another value.  So the first message of round 1 is verified and
    handled, the dealer is merely not ready, and yet the error is logged
    as a failure, the round is tombstoned and true is returned; the next
    message of the round is dropped before any handler.  With a dealer
    that answers [ErrVerifierNotReady] the same call returns false and
    leaves the struct as it was. *)
Theorem not_ready_round_is_tombstoned :
  let s := Scenario.oneRound (Mock.honest 3 1 ErrDKGVerifierNotReady) in
  let run :=
    OffChain.HandleOffChainShare Scenario.MsgQueueSize
      (Mock.message DKGDeal 1) 50 [] Scenario.pubKey s in
  let next :=
    OffChain.HandleOffChainShare Scenario.MsgQueueSize
      (Mock.message DKGResponse 1) 51 [] Scenario.pubKey (snd run) in
  let s0 := Scenario.oneRound (Mock.honest 3 1 ErrVerifierNotReady) in
  let run0 :=
    OffChain.HandleOffChainShare Scenario.MsgQueueSize
      (Mock.message DKGDeal 1) 50 [] Scenario.pubKey s0 in
  OffChain.dkgRoundToDealer (fst s) !! 1 = Some (Some 0%nat) /\
  Mock.handled <$> OffChain.heap (snd (snd run)) !! 0%nat
  = Some [(HDeal, Data (Mock.message DKGDeal 1))] /\
  GetVerifier <$> OffChain.heap (snd (snd run)) !! 0%nat
  = Some (None, Some ErrDKGVerifierNotReady) /\
  fst run = Return true /\
  OffChain.dkgRoundToDealer (fst (snd run)) !! 1 = Some None /\
  last (OffChain.trace (snd (snd run)))
  = Some (OffChain.ALog LError
            "dkgState: verifier should be ready, but it's not ready:"
            [VErr ErrDKGVerifierNotReady]) /\
  fst next = Return false /\
  Mock.handled <$> OffChain.heap (snd (snd next)) !! 0%nat
  = Some [(HDeal, Data (Mock.message DKGDeal 1))] /\
  fst run0 = Return false /\
  fst (snd run0) = fst s0.
Proof. vm_compute. repeat split; reflexivity. Qed.

(** C2 fails as stated.  At height 2^63 - 20 the sum with 20 overflows
    [int64]: the round completes, and the staged change height is
    -2^63 + 3, which is below the height plus 16 and is not the sum less
    its remainder.  (With the mathematical [mod] the formula also fails
    below height -20, where Go's remainder is negative: at height -23 the
    staged change height is 0, not -5.) *)
Lemma change_height_overflow :
  let h := 9223372036854775788 in
  let s := Scenario.after
             (OffChain.HandleOffChainShare Scenario.MsgQueueSize
                (Mock.message DKGPubKey 2) h [] Scenario.pubKey)
             Scenario.twoRounds in
  let s' := Scenario.after
              (OffChain.HandleOffChainShare Scenario.MsgQueueSize
                 (Mock.message DKGPubKey 2) (-23) [] Scenario.pubKey)
              Scenario.twoRounds in
  GoInt.is_int64 h /\
  OffChain.nextVerifier (fst s) = Some (VerifierHandle 22) /\
  OffChain.changeHeight (fst s) = -9223372036854775805 /\
  ~ (h + 16 <= OffChain.changeHeight (fst s)) /\
  OffChain.changeHeight (fst s) <> (h + 20) - (h + 20) `mod` 5 /\
  OffChain.changeHeight (fst s') = 0 /\
  (-23 + 20) - (-23 + 20) `mod` 5 = -5.
Proof.
  cbn zeta.
  assert (OffChain.changeHeight
            (fst (Scenario.after
                    (OffChain.HandleOffChainShare Scenario.MsgQueueSize
                       (Mock.message DKGPubKey 2) 9223372036854775788 []
                       Scenario.pubKey) Scenario.twoRounds))
          = -9223372036854775805) as Hch by (by vm_compute).
  rewrite Hch. repeat split; first [lia | by vm_compute].
Qed.

(** The amended C2 at height 77, for a message of a round the coordinator
    has not seen: the dealer is created and started, handles the message
    and has its verifier; the staged change height is 95. *)
Lemma change_height_staged_at_77 :
  OffChain.dkgRoundToDealer (fst Scenario.boot) !! 2 = None /\
  OffChain.changeHeight
    (fst (snd (OffChain.HandleOffChainShare Scenario.MsgQueueSize
                 (Mock.message DKGPubKey 2) 77 [] Scenario.pubKey
                 (fst Scenario.boot, snd Scenario.boot))))
  = 95.
Proof.
  split; [by vm_compute |].
  edestruct (change_height_staged Scenario.MsgQueueSize
               (Mock.message DKGPubKey 2) 77 [] Scenario.pubKey
               (fst Scenario.boot) (snd Scenario.boot))
    as (_ & _ & _ & _ & H77);
    [vm_compute; reflexivity .. |].
  by apply H77.
Defined.

(** A dealer that refuses the message: the round is tombstoned, the loser
    is slashed and false is returned. *)
Lemma handler_error_run :
  let s := Scenario.oneRound Scenario.refusing in
  let run := OffChain.HandleOffChainShare Scenario.MsgQueueSize
               (Mock.message DKGDeal 1) 50 [] Scenario.pubKey (fst s, snd s) in
  fst run = Return false /\
  OffChain.dkgRoundToDealer (fst (snd run)) !! 1 = Some None /\
  last (OffChain.trace (snd (snd run)))
  = Some (OffChain.ALog LInfo "Slashing validator" [VAddr [Byte.x07]]).
Proof.
  cbn zeta.
  edestruct (handler_and_verifier_errors Scenario.MsgQueueSize
               (Mock.message DKGDeal 1) 50 [] Scenario.pubKey
               (fst (Scenario.oneRound Scenario.refusing))
               (snd (Scenario.oneRound Scenario.refusing)))
    as (_ & d1 & Hd1 & Hrun & _ & _);
    [vm_compute; reflexivity .. |].
  rewrite (Hrun _ eq_refl).
  injection Hd1 as <-. by vm_compute.
Defined.

(** C9 at a dealer that verifies no message. *)
Lemma verify_failure_run :
  let s := Scenario.oneRound Scenario.distrustful in
  OffChain.HandleOffChainShare Scenario.MsgQueueSize
    (Mock.message DKGDeal 1) 50 [] Scenario.pubKey (fst s, snd s)
  = (Return false,
     (fst s,
      logged
        [OffChain.ALog LInfo "dkgState: received message with signature:"
           [VStr "signature"; VHex []];
         OffChain.ALog LInfo "DKG: can't verify message:"
           [VStr "error"; VErr (ErrOther "bad signature")]] (snd s))).
Proof.
  cbn zeta.
  apply (verify_failure_changes_nothing Scenario.MsgQueueSize
           (Mock.message DKGDeal 1) 50 [] Scenario.pubKey
           (fst (Scenario.oneRound Scenario.distrustful))
           (snd (Scenario.oneRound Scenario.distrustful))
           (OffChain.LoggerHandle "dkg") 0%nat Scenario.distrustful
           (ErrOther "bad signature"));
    vm_compute; reflexivity.
Defined.

(** C7 at boot, at height 100: a round is due and is started. *)
Lemma check_dkg_time_at_100 :
  OffChain.dkgRoundID
    (fst (snd (OffChain.CheckDKGTime Scenario.MsgQueueSize 100 []
                 (fst Scenario.boot, snd Scenario.boot))))
  = 1.
Proof.
  edestruct (check_dkg_time Scenario.MsgQueueSize 100 []
               (fst Scenario.boot) (snd Scenario.boot)
               (OffChain.LoggerHandle "dkg"))
    as (_ & _ & Hdue & _ & _);
    [by vm_compute | by vm_compute | by vm_compute |].
  destruct Hdue as [_ ->]; by vm_compute.
Defined.

(** C8 at a coordinator configured with zero blocks between two other
    options. *)
Lemma num_blocks_zero_run :
  OffChain.dkgNumBlocks
    (OffChain.NewOffChainDKG Scenario.newDealer
       (OffChain.EventSwitchHandle "evsw") "rchain"
       ([OffChain.WithLogger (Some (OffChain.LoggerHandle "dkg"))]
        ++ OffChain.WithDKGNumBlocks 0
           :: [OffChain.WithPVKey (Some Mock.pv)]))
  = 100.
Proof.
  apply (num_blocks_zero_is_default Scenario.newDealer
           (OffChain.EventSwitchHandle "evsw") "rchain"
           [OffChain.WithLogger (Some (OffChain.LoggerHandle "dkg"))] 0
           [OffChain.WithPVKey (Some Mock.pv)]).
  - repeat constructor.
  - reflexivity.
Defined.

(** ** The tx helpers *)

(** The helpers reach the world through [perform] alone: a property of
    computations that holds of every helper call and is kept by [ret] and
    [bind] holds of each helper. *)
Section HelpersClosure.
Context {S Msg : Type}.
Variable perform : Utils.Call -> Go S Utils.Reply.
Variable deps : Utils.Deps Msg.
Variable P : forall A, Go S A -> Prop.
Hypothesis P_ret : forall A (a : A), P A (ret a).
Hypothesis P_bind :
  forall A B (c : Go S A) (k : A -> Go S B),
    P A c -> (forall a, P B (k a)) -> P B (bind c k).
Hypothesis P_perform :
  forall c, isHelperCall c = true -> P Utils.Reply (perform c).

Ltac closed :=
  repeat match goal with
    | |- P _ (ret _) => apply P_ret
    | |- P _ (perform _) => apply P_perform; reflexivity
    | |- P _ (bind _ _) => apply P_bind; [| intros ?]
    | |- P _ (match ?x with _ => _ end) => destruct x
    | |- P _ (let _ := _ in _) => cbn zeta
    end.

Lemma closed_CalculateGas txBytes adjustment :
  P _ (Utils.CalculateGas perform deps txBytes adjustment).
Proof. unfold Utils.CalculateGas. closed. Qed.

Lemma closed_simulateMsgs txBldr msgs :
  P _ (Utils.simulateMsgs perform deps txBldr msgs).
Proof.
  unfold Utils.simulateMsgs. closed. apply closed_CalculateGas.
Qed.

Lemma closed_EnrichWithGas txBldr msgs :
  P _ (Utils.EnrichWithGas perform deps txBldr msgs).
Proof.
  unfold Utils.EnrichWithGas. apply P_bind; [apply closed_simulateMsgs |].
  intros ?. closed.
Qed.

Lemma closed_PrepareTxBuilder txBldr cliCtx :
  P _ (Utils.PrepareTxBuilder perform txBldr cliCtx).
Proof. unfold Utils.PrepareTxBuilder. closed. Qed.

Lemma closed_buildUnsignedStdTxOffline txBldr cliCtx msgs :
  P _ (Utils.buildUnsignedStdTxOffline perform deps txBldr cliCtx msgs).
Proof.
  unfold Utils.buildUnsignedStdTxOffline. apply P_bind.
  - destruct (Utils.simulateAndExecute txBldr); [| apply P_ret].
    apply P_bind; [apply closed_EnrichWithGas |]. intros ?. closed.
  - intros ?. closed.
Qed.

Lemma closed_buildUnsignedStdTx txBldr cliCtx msgs :
  P _ (Utils.buildUnsignedStdTx perform deps txBldr cliCtx msgs).
Proof.
  unfold Utils.buildUnsignedStdTx.
  apply P_bind; [apply closed_PrepareTxBuilder |]. intros [b [e |]].
  - apply P_ret.
  - apply closed_buildUnsignedStdTxOffline.
Qed.

Lemma closed_PrintUnsignedStdTx txBldr cliCtx msgs offline :
  P _ (Utils.PrintUnsignedStdTx perform deps txBldr cliCtx msgs offline).
Proof.
  unfold Utils.PrintUnsignedStdTx. apply P_bind.
  - destruct offline;
      [apply closed_buildUnsignedStdTxOffline | apply closed_buildUnsignedStdTx].
  - intros ?. closed.
Qed.

Lemma closed_CompleteAndBroadcastTxCLI txBldr cliCtx msgs :
  P _ (Utils.CompleteAndBroadcastTxCLI perform deps txBldr cliCtx msgs).
Proof.
  unfold Utils.CompleteAndBroadcastTxCLI.
  apply P_bind; [apply closed_PrepareTxBuilder |]. intros [b [e |]].
  - apply P_ret.
  - cbn zeta. apply P_bind.
    + destruct (_ || _); [| apply P_ret].
      apply P_bind; [apply closed_EnrichWithGas |]. intros ?. closed.
    + intros ?. closed.
Qed.

Lemma closed_GenerateOrBroadcastMsgs cliCtx txBldr msgs offline :
  P _ (Utils.GenerateOrBroadcastMsgs perform deps cliCtx txBldr msgs offline).
Proof.
  unfold Utils.GenerateOrBroadcastMsgs.
  destruct (Utils.GenerateOnly cliCtx);
    [apply closed_PrintUnsignedStdTx | apply closed_CompleteAndBroadcastTxCLI].
Qed.
End HelpersClosure.

(** ** On-chain coordinator *)

Section OnChainProperties.
Context {D : Type} `{Dealer D}.
Variable node : list OnChain.Action -> Utils.Call -> Utils.Reply.
Variable ValidateBasic : OnChain.MsgSendDKGData -> option error.
Variable gobDecode : bytes -> list OnChain.MsgSendDKGData * option error.
Variable deps : Utils.Deps OnChain.MsgSendDKGData.

Implicit Types (m : @OnChain.OnChainDKG D) (t : list OnChain.Action).

Local Abbreviation tidy := (tidy (D := D)).
Local Abbreviation calm := (calm (D := D)).
Local Abbreviation perform := (OnChain.perform (D := D) node).
Local Abbreviation sendMsg := (OnChain.sendMsg node ValidateBasic deps).
Local Abbreviation callHandler :=
  (OnChain.callHandler node ValidateBasic deps).
Local Abbreviation getDKGMessages :=
  (OnChain.getDKGMessages (D := D) node gobDecode).
Local Abbreviation dispatchAll :=
  (OnChain.dispatchAll node ValidateBasic deps).
Local Abbreviation processBucket :=
  (OnChain.processBucket node ValidateBasic gobDecode deps).
Local Abbreviation ProcessBlock :=
  (OnChain.ProcessBlock node ValidateBasic gobDecode deps).
Local Abbreviation BucketRun := (BucketRun gobDecode).

Lemma steps_app t1 t2 : steps (t1 ++ t2) = steps t1 ++ steps t2.
Proof. apply List.filter_app. Qed.

(** *** The helpers are tidy *)

Lemma tidy_ret {A} (a : A) : tidy (ret a).
Proof. intros m t. exists a, []. by rewrite app_nil_r. Qed.

Lemma tidy_bind {A B} (c : Go OnChain.St A) (k : A -> Go OnChain.St B) :
  tidy c -> (forall a, tidy (k a)) -> tidy (bind c k).
Proof.
  intros Hc Hk m t.
  destruct (Hc m t) as (a & new1 & Ec & Hs1).
  destruct (Hk a m (t ++ new1)) as (b & new2 & Ek & Hs2).
  exists b, (new1 ++ new2). split.
  - unfold bind. rewrite Ec, Ek. by rewrite app_assoc.
  - by rewrite steps_app, Hs1, Hs2.
Qed.

Lemma tidy_perform c : isHelperCall c = true -> tidy (perform c).
Proof.
  intros Hc m t. exists (node t c), [OnChain.ACall c (node t c)].
  split; [done |]. by destruct c.
Qed.

Lemma tidy_GenerateOrBroadcastMsgs cliCtx txBldr msgs offline :
  tidy (Utils.GenerateOrBroadcastMsgs perform deps cliCtx txBldr msgs offline).
Proof.
  apply (closed_GenerateOrBroadcastMsgs perform deps
           (fun A (c : Go OnChain.St A) => tidy c)).
  - intros A a. apply tidy_ret.
  - intros A B c k. apply tidy_bind.
  - apply tidy_perform.
Qed.

(** *** [sendMsg] *)

Lemma sendMsg_invalid data m t e :
  ValidateBasic
    (OnChain.NewMsgSendDKGData data (Utils.FromAddress (OnChain.cli m)))
  = Some e ->
  sendMsg data (m, t)
  = (Return (Some (Errorf "failed to validate basic: %v" e)), (m, t)).
Proof.
  intros Hv. unfold OnChain.sendMsg.
  go_step ltac:(reflexivity). by rewrite Hv.
Qed.

(** C10.  When [ValidateBasic] rejects the message built from the data
    and the sender's address, [sendMsg] returns that error wrapped; the
    coordinator, with its builder and so the sequence number, and the
    trace are as before: nothing was broadcast, nothing was called. *)
Theorem invalid_message_is_not_sent data m t e :
  ValidateBasic
    (OnChain.NewMsgSendDKGData data (Utils.FromAddress (OnChain.cli m)))
  = Some e ->
  sendMsg data (m, t)
  = (Return (Some (Errorf "failed to validate basic: %v" e)), (m, t)).
Proof. apply sendMsg_invalid. Qed.

(** What [sendMsg] does with a valid message. *)
Lemma sendMsg_valid data m t :
  ValidateBasic
    (OnChain.NewMsgSendDKGData data (Utils.FromAddress (OnChain.cli m)))
  = None ->
  exists err new,
    Utils.GenerateOrBroadcastMsgs perform deps (OnChain.cli m)
      (OnChain.txBldr m)
      [OnChain.NewMsgSendDKGData data (Utils.FromAddress (OnChain.cli m))]
      false (m, t)
    = (Return err, (m, t ++ new)) /\
    steps new = [] /\
    sendMsg data (m, t)
    = (Return (Errorf "failed to broadcast msg: %v" <$> err),
       (bumped m, t ++ new)).
Proof.
  intros Hv.
  destruct (tidy_GenerateOrBroadcastMsgs (OnChain.cli m) (OnChain.txBldr m)
              [OnChain.NewMsgSendDKGData data
                 (Utils.FromAddress (OnChain.cli m))] false m t)
    as (err & new & Eg & Hs).
  exists err, new. split; [done |]. split; [done |].
  unfold OnChain.sendMsg.
  go_step ltac:(reflexivity). rewrite Hv.
  go_step ltac:(exact Eg).
  go_step ltac:(reflexivity).
  by destruct err.
Qed.

(** C3, as amended.  A call of [sendMsg] whose message passes
    [ValidateBasic] runs the broadcast and, whether that succeeds or
    fails, leaves a builder that differs in its sequence number only,
    which is the old one plus one reduced to [uint64]: plus one exactly
    below 2^64 - 1.  The call fails exactly when the broadcast does. *)
Theorem valid_message_bumps_sequence data m t :
  ValidateBasic
    (OnChain.NewMsgSendDKGData data (Utils.FromAddress (OnChain.cli m)))
  = None ->
  exists err new,
    Utils.GenerateOrBroadcastMsgs perform deps (OnChain.cli m)
      (OnChain.txBldr m)
      [OnChain.NewMsgSendDKGData data (Utils.FromAddress (OnChain.cli m))]
      false (m, t)
    = (Return err, (m, t ++ new)) /\
    let run := sendMsg data (m, t) in
    let seq := Utils.sequence (OnChain.txBldr m) in
    let seq' := Utils.sequence (OnChain.txBldr (fst (snd run))) in
    run = (Return (Errorf "failed to broadcast msg: %v" <$> err),
           (bumped m, t ++ new)) /\
    seq' = (seq + 1) `mod` 2 ^ 64 /\
    (0 <= seq < 2 ^ 64 - 1 -> seq' = seq + 1) /\
    (seq = 2 ^ 64 - 1 -> seq' = 0).
Proof.
  intros Hv. destruct (sendMsg_valid data m t Hv) as (err & new & Eg & _ & Es).
  exists err, new. split; [done |]. cbn zeta. rewrite Es. simpl.
  split; [done |]. split; [done |].
  unfold GoInt.add_uint64, GoInt.wrap_uint64. split.
  - intros Hseq. rewrite Z.mod_small; lia.
  - intros ->. done.
Qed.

(** *** The sink is calm *)

Lemma calm_tidy {A} (c : Go OnChain.St A) : tidy c -> calm c.
Proof.
  intros Hc m t. destruct (Hc m t) as (a & new & Ec & Hs).
  by exists a, m, new.
Qed.

Lemma calm_ret {A} (a : A) : calm (ret a).
Proof. apply calm_tidy, tidy_ret. Qed.

Lemma calm_bind {A B} (c : Go OnChain.St A) (k : A -> Go OnChain.St B) :
  calm c -> (forall a, calm (k a)) -> calm (bind c k).
Proof.
  intros Hc Hk m t.
  destruct (Hc m t) as (a & m1 & new1 & Ec & Hd1 & Hs1).
  destruct (Hk a m1 (t ++ new1)) as (b & m2 & new2 & Ek & Hd2 & Hs2).
  exists b, m2, (new1 ++ new2). split; [| split].
  - unfold bind. rewrite Ec, Ek. by rewrite app_assoc.
  - congruence.
  - by rewrite steps_app, Hs1, Hs2.
Qed.

Lemma calm_sendMsg data : calm (sendMsg data).
Proof.
  intros m t.
  destruct (ValidateBasic
              (OnChain.NewMsgSendDKGData data
                 (Utils.FromAddress (OnChain.cli m)))) as [e |] eqn:Hv.
  - exists (Some (Errorf "failed to validate basic: %v" e)), m, [].
    rewrite app_nil_r. split; [| done].
    by apply sendMsg_invalid.
  - destruct (sendMsg_valid data m t Hv) as (err & new & _ & Hs & Es).
    by exists (Errorf "failed to broadcast msg: %v" <$> err), (bumped m), new.
Qed.

(** By induction on what the dealer does with its sink. *)
Lemma calm_runSink {A} (p : SinkM A) :
  calm (runSink (OnChain.sink node ValidateBasic deps) p).
Proof.
  induction p as [a | data k IH]; simpl.
  - apply calm_ret.
  - apply calm_bind; [| apply IH].
    unfold OnChain.sink. apply calm_bind; [apply calm_sendMsg |].
    intros err. apply calm_ret.
Qed.

(** *** One handler call *)

Lemma callHandler_step h data m t d :
  OnChain.dealer m = Some d ->
  exists err m' new,
    callHandler h data (m, t) = (Return err, (m', t ++ new)) /\
    is_Some (OnChain.dealer m') /\
    steps new = [OnChain.ADealerHandle h data err].
Proof.
  intros Hd.
  destruct (calm_runSink (handlerMethod h data d) m t)
    as ([d' err] & m1 & new & Erun & _ & Hs).
  exists err, (OnChain.set_dealer (Some d') m1),
    (new ++ [OnChain.ADealerHandle h data err]).
  split; [| split].
  - unfold OnChain.callHandler, OnChain.callDealer.
    go_step ltac:(go_step ltac:(reflexivity); rewrite Hd;
                  go_step ltac:(exact Erun);
                  go_step ltac:(reflexivity); reflexivity).
    go_step ltac:(reflexivity).
    unfold ret. simpl. by rewrite app_assoc.
  - by eexists.
  - by rewrite steps_app, Hs.
Qed.

(** *** One bucket *)

Lemma getDKGMessages_step dataType m t :
  let r := node t (Utils.CQueryWithData (OnChain.dkgDataPath dataType) []) in
  exists res new,
    getDKGMessages dataType (m, t) = (Return res, (m, t ++ new)) /\
    steps new = [queried dataType r] /\
    res = match Utils.r_err r with
          | Some err =>
              ([], Some (Errorf "failed to query for DKG data: %v" err))
          | None =>
              match gobDecode (Utils.r_data r) with
              | (_, Some err) =>
                  ([], Some (Errorf "failed to decode DKG data: %v" err))
              | (data, None) => (data, None)
              end
          end.
Proof.
  cbn zeta. unfold OnChain.getDKGMessages.
  set (r := node t (Utils.CQueryWithData (OnChain.dkgDataPath dataType) [])).
  go_step ltac:(reflexivity). fold r.
  destruct (Utils.r_err r) as [err |].
  - by exists ([], Some (Errorf "failed to query for DKG data: %v" err)),
      [queried dataType r].
  - destruct (gobDecode (Utils.r_data r)) as [data [err |]].
    + by exists ([], Some (Errorf "failed to decode DKG data: %v" err)),
        [queried dataType r].
    + destruct (decide (dataType = 0)).
      * exists (data, None),
          [queried dataType r;
           OnChain.ALog LInfo "DKG DATA"
             [VStr "data"; VStr "dataLen"; VInt (Z.of_nat (length data))]].
        split; [| done].
        go_step ltac:(reflexivity). unfold ret. simpl.
        by rewrite <- app_assoc.
      * exists (data, None), [queried dataType r]. split; [| done].
        go_step ltac:(reflexivity). done.
Qed.

(** The messages of a bucket: all handled, or handled up to the first
    that its handler refuses. *)
Lemma dispatchAll_steps h messages m t d :
  OnChain.dealer m = Some d ->
  exists res m' new,
    dispatchAll (Some h) messages (m, t) = (Return res, (m', t ++ new)) /\
    is_Some (OnChain.dealer m') /\
    ((res = None /\ steps new = map (handledOk h) messages) \/
     (exists before msg rest e,
        messages = before ++ msg :: rest /\
        res = Some (Errorf "failed to handle message: %v" e) /\
        steps new
        = map (handledOk h) before
          ++ [OnChain.ADealerHandle h (OnChain.Data msg) (Some e)])).
Proof.
  revert m t d. induction messages as [| msg messages IH]; intros m t d Hd.
  - exists None, m, []. rewrite app_nil_r. split; [done |].
    split; [by eexists |]. by left.
  - destruct (callHandler_step h (OnChain.Data msg) m t d Hd)
      as (err & m1 & new1 & Ecall & [d1 Hd1] & Hs1).
    unfold OnChain.dispatchAll. cbn [forEach].
    destruct err as [e |].
    + exists (Some (Errorf "failed to handle message: %v" e)), m1, new1.
      split; [| split; [by eexists |]].
      * go_step ltac:(go_step ltac:(exact Ecall); reflexivity). done.
      * right. by exists [], msg, messages, e.
    + destruct (IH m1 (t ++ new1) d1 Hd1)
        as (res & m2 & new2 & Erest & Hd2 & Hcases).
      exists res, m2, (new1 ++ new2). split; [| split; [done |]].
      * go_step ltac:(go_step ltac:(exact Ecall); reflexivity).
        fold (dispatchAll (Some h) messages). rewrite Erest.
        by rewrite app_assoc.
      * rewrite steps_app, Hs1.
        destruct Hcases as [[-> Hs2] | (before & bad & rest & e & -> & -> & Hs2)].
        -- left. split; [done |]. by rewrite Hs2.
        -- right. exists (msg :: before), bad, rest, e.
           split; [done |]. split; [done |]. by rewrite Hs2.
Qed.

Lemma processBucket_steps ty tys h m t d :
  handlerOf ty = Some h ->
  OnChain.dealer m = Some d ->
  exists res m' new,
    processBucket ty (m, t) = (Return res, (m', t ++ new)) /\
    is_Some (OnChain.dealer m') /\
    match res with
    | None =>
        exists r msgs,
          Utils.r_err r = None /\
          gobDecode (Utils.r_data r) = (msgs, None) /\
          steps new = queried ty r :: map (handledOk h) msgs
    | Some e => BucketRun (ty :: tys) (steps new) (Some e)
    end.
Proof.
  intros Hh Hd.
  destruct (getDKGMessages_step ty m t) as (got & new0 & Eget & Hs0 & Hgot).
  set (r := node t (Utils.CQueryWithData (OnChain.dkgDataPath ty) [])) in *.
  unfold OnChain.processBucket.
  destruct (Utils.r_err r) as [e |] eqn:Herr.
  { subst got. exists (Some (Errorf "failed to getDKGMessages: %v"
                        (Errorf "failed to query for DKG data: %v" e))), m, new0.
    split; [by go_step ltac:(exact Eget) |]. split; [by eexists |].
    rewrite Hs0. by apply run_query_failed. }
  destruct (gobDecode (Utils.r_data r)) as [msgs [e |]] eqn:Hdec.
  { subst got. exists (Some (Errorf "failed to getDKGMessages: %v"
                        (Errorf "failed to decode DKG data: %v" e))), m, new0.
    split; [by go_step ltac:(exact Eget) |]. split; [by eexists |].
    rewrite Hs0. by eapply run_decode_failed. }
  subst got.
  destruct (dispatchAll_steps h msgs m (t ++ new0) d Hd)
    as (res & m1 & new1 & Edisp & Hd1 & Hcases).
  exists res, m1, (new0 ++ new1). split; [| split; [done |]].
  - go_step ltac:(exact Eget).
    go_step ltac:(unfold OnChain.bindHandler; rewrite Hh;
                  go_step ltac:(reflexivity); by rewrite Hd).
    rewrite Edisp. by rewrite app_assoc.
  - rewrite steps_app, Hs0.
    destruct Hcases as [[-> Hs1] | (before & bad & rest & e & -> & -> & Hs1)].
    + exists r, msgs. by rewrite Hs1.
    + rewrite Hs1. by eapply run_handler_failed.
Qed.

(** The loop over any list of types that all have a handler. *)
Lemma buckets_run tys m t d :
  Forall (fun ty => is_Some (handlerOf ty)) tys ->
  OnChain.dealer m = Some d ->
  exists res m' new,
    forEach processBucket tys (m, t) = (Return res, (m', t ++ new)) /\
    is_Some (OnChain.dealer m') /\
    BucketRun tys (steps new) res.
Proof.
  intros Hall. revert m t d.
  induction Hall as [| ty tys [h Hh] _ IH]; intros m t d Hd.
  - exists None, m, []. rewrite app_nil_r. split; [done |].
    split; [by eexists |]. apply run_done.
  - destruct (processBucket_steps ty tys h m t d Hh Hd)
      as (res & m1 & new1 & Ebucket & [d1 Hd1] & Hres).
    cbn [forEach]. destruct res as [e |].
    + exists (Some e), m1, new1. split; [| split; [by eexists | done]].
      by go_step ltac:(exact Ebucket).
    + destruct Hres as (r & msgs & Herr & Hdec & Hs1).
      destruct (IH m1 (t ++ new1) d1 Hd1)
        as (res & m2 & new2 & Erest & Hd2 & Hrun).
      exists res, m2, (new1 ++ new2). split; [| split; [done |]].
      * go_step ltac:(exact Ebucket). rewrite Erest. by rewrite app_assoc.
      * rewrite steps_app, Hs1. cbn [app].
        by apply run_bucket.
Qed.

Lemma dataTypes_have_handlers :
  Forall (fun ty => is_Some (handlerOf ty)) OnChain.dataTypes.
Proof. repeat constructor; by eexists. Qed.

(** Without a dealer the loop does not get past the first bucket. *)
Lemma buckets_need_dealer m t s1 :
  OnChain.dealer m = None ->
  forEach processBucket OnChain.dataTypes (m, t) <> (Return None, s1).
Proof.
  intros Hd. unfold OnChain.dataTypes. cbn [forEach].
  assert ((exists e s, processBucket DKGPubKey (m, t) = (Return (Some e), s))
          \/ (exists info s, processBucket DKGPubKey (m, t) = (Panic info, s)))
    as [(e & s & Eb) | (info & s & Eb)].
  { destruct (getDKGMessages_step DKGPubKey m t)
      as (got & new0 & Eget & _ & _).
    unfold OnChain.processBucket. go_step ltac:(exact Eget).
    destruct got as [msgs [e |]]; [left; by eauto | right].
    eexists _, _. apply bind_Panic.
    unfold OnChain.bindHandler.
    change (handlerOf DKGPubKey) with (Some HPubKey). cbn iota.
    go_step ltac:(reflexivity). by rewrite Hd. }
  - erewrite bind_Return by exact Eb. done.
  - erewrite bind_Panic by exact Eb. done.
Qed.

(** *** The block, call by call *)

(** A handler call, from what the method does against the sink. *)
Lemma callHandler_run h data m t d d' err m1 t1 :
  OnChain.dealer m = Some d ->
  runSink (OnChain.sink node ValidateBasic deps) (handlerMethod h data d) (m, t)
  = (Return (d', err), (m1, t1)) ->
  callHandler h data (m, t)
  = (Return err,
     (OnChain.set_dealer (Some d') m1,
      t1 ++ [OnChain.ADealerHandle h data err])).
Proof.
  intros Hd Hrun. unfold OnChain.callHandler, OnChain.callDealer.
  go_step ltac:(go_step ltac:(reflexivity); rewrite Hd;
                go_step ltac:(exact Hrun);
                go_step ltac:(reflexivity); reflexivity).
  go_step ltac:(reflexivity). done.
Qed.

Lemma getDKGMessages_run dataType m t :
  let r := node t (Utils.CQueryWithData (OnChain.dkgDataPath dataType) []) in
  getDKGMessages dataType (m, t)
  = match Utils.r_err r with
    | Some err =>
        (Return ([], Some (Errorf "failed to query for DKG data: %v" err)),
         (m, t ++ [queried dataType r]))
    | None =>
        match gobDecode (Utils.r_data r) with
        | (_, Some err) =>
            (Return ([], Some (Errorf "failed to decode DKG data: %v" err)),
             (m, t ++ [queried dataType r]))
        | (data, None) =>
            (Return (data, None), (m, t ++ fetched dataType r data))
        end
    end.
Proof.
  cbn zeta. unfold OnChain.getDKGMessages.
  set (r := node t (Utils.CQueryWithData (OnChain.dkgDataPath dataType) [])).
  go_step ltac:(reflexivity). fold r.
  destruct (Utils.r_err r) as [err |]; [done |].
  destruct (gobDecode (Utils.r_data r)) as [data [err |]]; [done |].
  unfold fetched. destruct (decide (dataType = 0)).
  - go_step ltac:(reflexivity). unfold ret. simpl. by rewrite <- app_assoc.
  - go_step ltac:(reflexivity). done.
Qed.

(** The messages of a bucket are delivered to the method behind the
    handler's name. *)
Lemma dispatchAll_delivered h method messages m t d :
  (forall data d, handlerMethod h data d = method data d) ->
  OnChain.dealer m = Some d ->
  exists res s',
    dispatchAll (Some h) messages (m, t)
    = (Return (Errorf "failed to handle message: %v" <$> res), s') /\
    is_Some (OnChain.dealer (fst s')) /\
    Delivered node ValidateBasic deps h method messages (m, t) s' res.
Proof.
  intros Hmethod. revert m t d.
  induction messages as [| msg messages IH]; intros m t d Hd.
  - exists None, (m, t). split; [done |]. split; [by eexists |].
    apply delivered_all.
  - destruct (calm_runSink (handlerMethod h (OnChain.Data msg) d) m t)
      as ([d' err] & m1 & new & Erun & _ & _).
    pose proof (callHandler_run h (OnChain.Data msg) m t d d' err m1
                  (t ++ new) Hd Erun) as Ecall.
    rewrite Hmethod in Erun.
    unfold OnChain.dispatchAll. cbn [forEach].
    destruct err as [e |].
    + exists (Some e), (OnChain.set_dealer (Some d') m1,
                        (t ++ new)
                        ++ [OnChain.ADealerHandle h (OnChain.Data msg)
                              (Some e)]).
      split; [| split; [by eexists |]].
      * go_step ltac:(go_step ltac:(exact Ecall); reflexivity). done.
      * by eapply delivered_refused.
    + destruct (IH (OnChain.set_dealer (Some d') m1)
                  ((t ++ new)
                   ++ [OnChain.ADealerHandle h (OnChain.Data msg) None]) d'
                  eq_refl)
        as (res & s' & Erest & Hd' & Hdel).
      exists res, s'. split; [| split; [done |]].
      * go_step ltac:(go_step ltac:(exact Ecall); reflexivity).
        exact Erest.
      * by eapply delivered_one.
Qed.

(** The loop over the buckets of any table whose types have the cases
    that the table names. *)
Lemma table_run
  (table : list (DKGDataType * Handler * Method)) m t d :
  Forall (fun entry =>
            handlerOf entry.1.1 = Some entry.1.2 /\
            forall data d, handlerMethod entry.1.2 data d = entry.2 data d)
    table ->
  OnChain.dealer m = Some d ->
  exists res s',
    forEach processBucket ((fun entry => entry.1.1) <$> table) (m, t)
    = (Return res, s') /\
    is_Some (OnChain.dealer (fst s')) /\
    BlockRun node ValidateBasic gobDecode deps table (m, t) s' res.
Proof.
  intros Hall. revert m t d.
  induction Hall as [| [[ty h] method] table [Hh Hmethod] _ IH];
    intros m t d Hd.
  - exists None, (m, t). split; [done |]. split; [by eexists |].
    apply block_done.
  - cbn [fst snd] in Hh, Hmethod. cbn [fmap list_fmap forEach fst snd].
    pose proof (getDKGMessages_run ty m t) as Eget. cbn zeta in Eget.
    set (r := node t (Utils.CQueryWithData (OnChain.dkgDataPath ty) []))
      in *.
    unfold OnChain.processBucket at 1.
    destruct (Utils.r_err r) as [e |] eqn:Herr.
    { eexists _, _. split; [| split].
      - go_step ltac:(go_step ltac:(exact Eget); reflexivity). reflexivity.
      - by eexists.
      - by eapply block_query_failed. }
    destruct (gobDecode (Utils.r_data r)) as [msgs [e |]] eqn:Hdec.
    { eexists _, _. split; [| split].
      - go_step ltac:(go_step ltac:(exact Eget); reflexivity). reflexivity.
      - by eexists.
      - by eapply block_decode_failed. }
    destruct (dispatchAll_delivered h method msgs m (t ++ fetched ty r msgs)
                d Hmethod Hd)
      as (res & [m1 t1] & Edisp & [d1 Hd1] & Hdel).
    assert (Ebucket :
      (r0 <- getDKGMessages ty ;;
       match r0 with
       | (_, Some err) =>
           ret (Some (Errorf "failed to getDKGMessages: %v" err))
       | (messages, None) =>
           handler <- OnChain.bindHandler ty ;;
           dispatchAll handler messages
       end) (m, t)
      = (Return (Errorf "failed to handle message: %v" <$> res), (m1, t1))).
    { go_step ltac:(exact Eget).
      go_step ltac:(unfold OnChain.bindHandler; rewrite Hh;
                    go_step ltac:(reflexivity); by rewrite Hd).
      exact Edisp. }
    destruct res as [e |].
    + exists (Some (Errorf "failed to handle message: %v" e)), (m1, t1).
      split; [| split].
      * go_step ltac:(exact Ebucket). reflexivity.
      * by eexists.
      * by eapply block_handler_failed.
    + destruct (IH m1 t1 d1 Hd1) as (res & s' & Erest & Hd' & Hrun).
      exists res, s'. split; [| split; [done |]].
      * go_step ltac:(exact Ebucket). exact Erest.
      * by eapply block_bucket.
Qed.

(** C5.  With a dealer in place the loop of [ProcessBlock] returns, and
    it has processed the block over the seven buckets in the order
    PubKey, Deal, Response, Justification, Commits, Complaint,
    ReconstructCommit, each with its own handler: each bucket is queried
    and every message fetched is handed, in order, to [HandleDKGPubKey],
    [HandleDKGDeal], [HandleDKGResponse], [HandleDKGJustification],
    [HandleDKGCommit], [HandleDKGComplaint] or [HandleDKGReconstructCommit]
    of the dealer as the call before left it.  The first query, decoding
    or handler error ends the block: nothing is queried or handed to a
    handler after it, and [ProcessBlock] returns that error, wrapped, and
    false, in the state the error left. *)
Theorem process_block_order m t d :
  OnChain.dealer m = Some d ->
  exists res s',
    forEach processBucket
      [DKGPubKey; DKGDeal; DKGResponse; DKGJustification; DKGCommits;
       DKGComplaint; DKGReconstructCommit] (m, t)
    = (Return res, s') /\
    BlockRun node ValidateBasic gobDecode deps
      [(DKGPubKey, HPubKey, HandleDKGPubKey);
       (DKGDeal, HDeal, HandleDKGDeal);
       (DKGResponse, HResponse, HandleDKGResponse);
       (DKGJustification, HJustification, HandleDKGJustification);
       (DKGCommits, HCommit, HandleDKGCommit);
       (DKGComplaint, HComplaint, HandleDKGComplaint);
       (DKGReconstructCommit, HReconstructCommit, HandleDKGReconstructCommit)]
      (m, t) s' res /\
    (forall e, res = Some e ->
       ProcessBlock (m, t) = (Return (Some e, false), s')).
Proof.
  intros Hd.
  destruct (table_run
              [(DKGPubKey, HPubKey, HandleDKGPubKey);
               (DKGDeal, HDeal, HandleDKGDeal);
               (DKGResponse, HResponse, HandleDKGResponse);
               (DKGJustification, HJustification, HandleDKGJustification);
               (DKGCommits, HCommit, HandleDKGCommit);
               (DKGComplaint, HComplaint, HandleDKGComplaint);
               (DKGReconstructCommit, HReconstructCommit,
                HandleDKGReconstructCommit)] m t d)
    as (res & s' & Eloop & _ & Hrun); [| exact Hd |].
  { repeat constructor. }
  exists res, s'. split; [exact Eloop |]. split; [exact Hrun |].
  intros e ->. unfold OnChain.ProcessBlock.
  by go_step ltac:(exact Eloop).
Qed.

(** C6.  When the loop over the seven buckets has returned without an
    error, [ProcessBlock] asks the dealer for its verifier: on
    [ErrDKGVerifierNotReady] it logs and returns (nil, false); on any
    other error it returns that error, wrapped, and false; with a
    verifier it returns (nil, true). *)
Theorem process_block_verifier m t m1 t1 :
  forEach processBucket OnChain.dataTypes (m, t) = (Return None, (m1, t1)) ->
  exists d,
    OnChain.dealer m1 = Some d /\
    ProcessBlock (m, t)
    = match snd (GetVerifier d) with
      | Some err =>
          if decide (err = ErrDKGVerifierNotReady)
          then (Return (None, false),
                (m1, t1 ++ [OnChain.ALog LInfo "Verifier Not ready" []]))
          else (Return (Some (Errorf "DKG round failed: %v" err), false),
                (m1, t1))
      | None => (Return (None, true), (m1, t1))
      end.
Proof.
  intros Eloop.
  destruct (OnChain.dealer m) as [d0 |] eqn:Hd0;
    [| by apply buckets_need_dealer in Eloop].
  destruct (buckets_run OnChain.dataTypes m t d0 dataTypes_have_handlers Hd0)
    as (res & m' & new & Eloop' & [d Hd] & _).
  rewrite Eloop in Eloop'. injection Eloop' as <- <- ->.
  exists d. split; [done |].
  unfold OnChain.ProcessBlock.
  go_step ltac:(exact Eloop).
  go_step ltac:(unfold OnChain.readDealer; go_step ltac:(reflexivity);
                by rewrite Hd).
  destruct (GetVerifier d) as [v [err |]]; simpl; [| done].
  destruct (decide (err = ErrDKGVerifierNotReady)); done.
Qed.
End OnChainProperties.

(** ** Runs of the on-chain coordinator *)

(** C3 fails as stated.  A call of [sendMsg] with a message that
    [ValidateBasic] rejects (here: no sender address) returns before the
    broadcast and leaves the sequence number, 9, as it is; and at the
    largest [uint64] a call that reaches the broadcast leaves the sequence
    number 0. *)
Lemma sequence_not_always_bumped :
  let s := ChainScenario.started [] 9 ChainScenario.talkative in
  let run := ChainScenario.sendMsg (Scenario.hello 0) s in
  let s' := ChainScenario.started [Byte.x01] 18446744073709551615
              ChainScenario.talkative in
  let run' := ChainScenario.sendMsg (Scenario.hello 0) s' in
  fst run
  = Return (Some (Errorf "failed to validate basic: %v"
                    (ErrOther "empty owner"))) /\
  Utils.sequence (OnChain.txBldr (fst s)) = 9 /\
  Utils.sequence (OnChain.txBldr (fst (snd run))) = 9 /\
  Utils.sequence (OnChain.txBldr (fst (snd run))) <> 9 + 1 /\
  fst run' = Return None /\
  Utils.sequence (OnChain.txBldr (fst (snd run'))) = 0.
Proof. cbn zeta. repeat split; by vm_compute. Qed.

(** The amended C3 at a broadcast that the node refuses: the call fails
    with the broadcast error and the sequence number goes from 9 to 10. *)
Lemma refused_broadcast_bumps_sequence :
  let m := fst (ChainScenario.started [Byte.x01] 9 ChainScenario.talkative) in
  let t := replicate 8 (OnChain.ALog LInfo "tick" []) in
  let run := ChainScenario.sendMsg (Scenario.hello 0) (m, t) in
  fst run
  = Return (Some (Errorf "failed to broadcast msg: %v"
                    (ErrOther "mempool is full"))) /\
  Utils.sequence (OnChain.txBldr (fst (snd run))) = 10.
Proof.
  cbn zeta.
  pose proof (valid_message_bumps_sequence ChainScenario.node
                ChainScenario.ValidateBasic ChainScenario.deps
                (Scenario.hello 0)
                (fst (ChainScenario.started [Byte.x01] 9
                        ChainScenario.talkative))
                (replicate 8 (OnChain.ALog LInfo "tick" []))
                eq_refl)
    as (err & new & Eg & Hrest).
  cbn zeta in Hrest. destruct Hrest as (Hrun & _ & Hinc & _).
  split.
  - by vm_compute.
  - apply Hinc. by vm_compute.
Defined.

(** C10 at a message without a sender address. *)
Lemma invalid_message_run :
  let s := ChainScenario.started [] 9 ChainScenario.talkative in
  ChainScenario.sendMsg (Scenario.hello 0) (fst s, snd s)
  = (Return (Some (Errorf "failed to validate basic: %v"
                     (ErrOther "empty owner"))),
     (fst s, snd s)).
Proof.
  cbn zeta.
  apply (invalid_message_is_not_sent ChainScenario.node
           ChainScenario.ValidateBasic ChainScenario.deps).
  reflexivity.
Defined.

(** C5 at the scripted node, with a dealer that sends a message from
    every handler: the two messages of the first bucket have gone to
    [HandleDKGPubKey] and the one of the second to [HandleDKGDeal], in
    that order, and the three messages the dealer sent from its handlers
    have moved the sequence number from 9 to 12. *)
Lemma process_block_order_run :
  let s := ChainScenario.started [Byte.x01] 9 ChainScenario.talkative in
  let run :=
    forEach
      (OnChain.processBucket ChainScenario.node ChainScenario.ValidateBasic
         ChainScenario.gobDecode ChainScenario.deps)
      [DKGPubKey; DKGDeal; DKGResponse; DKGJustification; DKGCommits;
       DKGComplaint; DKGReconstructCommit] (fst s, snd s) in
  fst run = Return None /\
  BlockRun ChainScenario.node ChainScenario.ValidateBasic
    ChainScenario.gobDecode ChainScenario.deps
    [(DKGPubKey, HPubKey, HandleDKGPubKey);
     (DKGDeal, HDeal, HandleDKGDeal);
     (DKGResponse, HResponse, HandleDKGResponse);
     (DKGJustification, HJustification, HandleDKGJustification);
     (DKGCommits, HCommit, HandleDKGCommit);
     (DKGComplaint, HComplaint, HandleDKGComplaint);
     (DKGReconstructCommit, HReconstructCommit, HandleDKGReconstructCommit)]
    (fst s, snd s) (snd run) None /\
  Mock.handled <$> OnChain.dealer (fst (snd run))
  = Some [(HPubKey, mkDKGData DKGPubKey [Byte.x0a] 0 [] []);
          (HPubKey, mkDKGData DKGPubKey [Byte.x0b] 0 [] []);
          (HDeal, mkDKGData DKGPubKey [Byte.x0c] 0 [] [])] /\
  Utils.sequence (OnChain.txBldr (fst (snd run))) = 12.
Proof.
  cbn zeta.
  destruct (process_block_order ChainScenario.node ChainScenario.ValidateBasic
              ChainScenario.gobDecode ChainScenario.deps
              (fst (ChainScenario.started [Byte.x01] 9 ChainScenario.talkative))
              (snd (ChainScenario.started [Byte.x01] 9 ChainScenario.talkative))
              ChainScenario.talkative eq_refl)
    as (res & s' & Erun & Hblock & _).
  rewrite Erun. cbn [fst snd].
  vm_compute in Erun. injection Erun as <- <-.
  split; [reflexivity |]. split; [exact Hblock |].
  split; by vm_compute.
Defined.

(** C6 at the same block: the dealer has handled three messages and its
    verifier is ready. *)
Lemma process_block_verifier_run :
  let s := ChainScenario.started [Byte.x01] 9 ChainScenario.talkative in
  let s1 :=
    snd (forEach
           (OnChain.processBucket ChainScenario.node
              ChainScenario.ValidateBasic ChainScenario.gobDecode
              ChainScenario.deps)
           OnChain.dataTypes s) in
  ChainScenario.ProcessBlock (fst s, snd s)
  = (Return (None, true), (fst s1, snd s1)).
Proof.
  cbn zeta.
  edestruct (process_block_verifier ChainScenario.node
               ChainScenario.ValidateBasic ChainScenario.gobDecode
               ChainScenario.deps
               (fst (ChainScenario.started [Byte.x01] 9 ChainScenario.talkative))
               (snd (ChainScenario.started [Byte.x01] 9 ChainScenario.talkative)))
    as (d & Hd & Hrun); [by vm_compute |].
  unfold ChainScenario.ProcessBlock. rewrite Hrun.
  vm_compute in Hd. injection Hd as <-. by vm_compute.
Defined.


(* ===================================================================== *)
(** * Further properties *)
(* ===================================================================== *)

(** ** Off-chain coordinator: rounds and the registry *)

Section Rounds.
Context {D : Type} `{Dealer D}.
Variable MsgQueueSize : nat.

Implicit Types (m : @OffChain.OffChainDKG D) (w : @OffChain.World D).

Local Abbreviation HandleOffChainShare :=
  (OffChain.HandleOffChainShare MsgQueueSize).
Local Abbreviation obtainDealer := (OffChain.obtainDealer MsgQueueSize).
Local Abbreviation dispatch := (OffChain.dispatch MsgQueueSize).
Local Abbreviation startRound := (OffChain.startRound MsgQueueSize).
Local Abbreviation sendSignedMessage :=
  (OffChain.sendSignedMessage MsgQueueSize).

(** A dealer call, from what the dealer's method does against the sink. *)
Lemma startDealer_run ref d d' err m w m2 w2 :
  OffChain.heap w !! ref = Some d ->
  runSink sendSignedMessage (Start d) (m, w) = (Return (d', err), (m2, w2)) ->
  OffChain.startDealer MsgQueueSize ref (m, w)
  = (Return err, (m, dealerStarted ref d' err w2)).
Proof.
  intros Hd Hrun. pose proof Hrun as Hq.
  apply quiet_runSink in Hq as [-> _].
  unfold OffChain.startDealer, OffChain.callDealer.
  go_step ltac:(go_step ltac:(reflexivity); rewrite Hd;
                go_step ltac:(exact Hrun);
                go_step ltac:(reflexivity); reflexivity).
  go_step ltac:(reflexivity). done.
Qed.

(** X1.  A message of a round without an entry makes the coordinator log,
    construct a dealer for the message's round with its own validators and
    key, enter it in the registry under that round, and start it.  When
    [Start] fails the call panics, with the coordinator's round id in the
    message; otherwise the new dealer is the result. *)
Lemma unknown_round_creates_dealer msg validators m w lg d' err m2 w2 :
  OffChain.Logger m = Some lg ->
  OffChain.dkgRoundToDealer m !! RoundID msg = None ->
  let ref := length (OffChain.heap w) in
  let d := OffChain.newDKGDealer m validators (OffChain.privValidator m)
             (RoundID msg) in
  let m1 := OffChain.set_dkgRoundToDealer
              (<[RoundID msg := Some ref]> (OffChain.dkgRoundToDealer m)) m in
  let w1 := withNewDealer
              (OffChain.ALog LInfo
                 "dkgState: dealer not found, creating a new dealer"
                 [VStr "round_id"; VInt (RoundID msg)]) d [] w in
  runSink sendSignedMessage (Start d) (m1, w1) = (Return (d', err), (m2, w2)) ->
  OffChain.heap (dealerStarted ref d' err w2) !! ref = Some d' /\
  obtainDealer msg validators (m, w)
  = match err with
    | Some e =>
        (Panic (mkPanic "failed to start a dealer (round %d): %v"
                  [VInt (OffChain.dkgRoundID m); VErr e]),
         (m1, dealerStarted ref d' err w2))
    | None => (Return (Some ref), (m1, dealerStarted ref d' err w2))
    end.
Proof.
  intros Hlg Hreg. cbn zeta. intros Hrun.
  set (d := OffChain.newDKGDealer m validators (OffChain.privValidator m)
              (RoundID msg)) in *.
  assert (Hd : OffChain.heap
                 (withNewDealer
                    (OffChain.ALog LInfo
                       "dkgState: dealer not found, creating a new dealer"
                       [VStr "round_id"; VInt (RoundID msg)]) d [] w)
               !! length (OffChain.heap w) = Some d).
  { unfold withNewDealer. simpl. by rewrite lookup_app_r, Nat.sub_diag. }
  split.
  - pose proof Hrun as Hq. apply quiet_runSink in Hq as [_ Hheap].
    unfold dealerStarted. simpl. apply list_lookup_insert_eq.
    rewrite Hheap. by eapply lookup_lt_Some.
  - unfold OffChain.obtainDealer.
    go_step ltac:(reflexivity). rewrite Hreg.
    go_step ltac:(by eapply logAt_ok).
    go_step ltac:(reflexivity).
    go_step ltac:(reflexivity).
    pose proof (startDealer_run _ _ _ _ _ _ _ _ Hd Hrun) as Hstart.
    unfold withNewDealer in Hstart. rewrite logged_nil in Hstart.
    destruct err as [e |].
    + go_step ltac:(exact Hstart). done.
    + go_step ltac:(exact Hstart). done.
Qed.

(** X2.  [startRound] when the next round id already has an entry (a
    message of that round came first, or the round is tombstoned): the
    round id is incremented and the start is logged, and that is all: no
    dealer is constructed, [EventDKGStart] is not fired, nil is returned. *)
Lemma startRound_known_round validators m w lg entry :
  OffChain.Logger m = Some lg ->
  OffChain.dkgRoundToDealer m !! GoInt.add_int64 (OffChain.dkgRoundID m) 1
  = Some entry ->
  startRound validators (m, w)
  = (Return None,
     (OffChain.set_dkgRoundID (GoInt.add_int64 (OffChain.dkgRoundID m) 1) m,
      logged [OffChain.ALog LInfo "dkgState: starting round"
                [VStr "round_id";
                 VInt (GoInt.add_int64 (OffChain.dkgRoundID m) 1)]] w)).
Proof.
  intros Hlg Hreg. unfold OffChain.startRound.
  go_step ltac:(reflexivity). go_step ltac:(reflexivity).
  go_step ltac:(by eapply logAt_ok).
  simpl. by rewrite Hreg.
Qed.

(** X3.  [startRound] when the next round id has no entry: a dealer is
    constructed for the incremented round id and entered under it,
    [EventDKGStart] is fired with that id before the dealer is started,
    and the result is what the dealer's [Start] returns. *)
Lemma startRound_new_round validators m w lg d' err m2 w2 :
  OffChain.Logger m = Some lg ->
  let id := GoInt.add_int64 (OffChain.dkgRoundID m) 1 in
  OffChain.dkgRoundToDealer m !! id = None ->
  let ref := length (OffChain.heap w) in
  let d := OffChain.newDKGDealer m validators (OffChain.privValidator m) id in
  let m1 := OffChain.set_dkgRoundToDealer
              (<[id := Some ref]> (OffChain.dkgRoundToDealer m))
              (OffChain.set_dkgRoundID id m) in
  let w1 := withNewDealer
              (OffChain.ALog LInfo "dkgState: starting round"
                 [VStr "round_id"; VInt id]) d
              [OffChain.AFireEvent (OffChain.EventDKGStart id)] w in
  runSink sendSignedMessage (Start d) (m1, w1) = (Return (d', err), (m2, w2)) ->
  startRound validators (m, w)
  = (Return err, (m1, dealerStarted ref d' err w2)).
Proof.
  intros Hlg. cbn zeta. intros Hreg Hrun.
  unfold OffChain.startRound.
  go_step ltac:(reflexivity). go_step ltac:(reflexivity).
  go_step ltac:(by eapply logAt_ok).
  cbn [OffChain.dkgRoundToDealer OffChain.dkgRoundID OffChain.set_dkgRoundID].
  rewrite Hreg.
  do 3 go_step ltac:(reflexivity).
  eapply startDealer_run; [| exact Hrun].
  unfold withNewDealer. simpl. by rewrite lookup_app_r, Nat.sub_diag.
Qed.

(** X4.  Go ranges over a map in an order it does not fix.  The loop that
    a completion runs over the registry gives the same registry for every
    order in which the keys may come: the one the model takes is as good
    as any. *)
Lemma retire_order_irrelevant keys msgRound (reg : gmap Z (option nat)) :
  keys ≡ₚ OffChain.rangeKeys reg ->
  OffChain.retireLoop keys msgRound reg
  = OffChain.retireLoop (OffChain.rangeKeys reg) msgRound reg.
Proof.
  intros Hperm. rewrite !retireLoop_spec.
  repeat case_decide; try done.
  - exfalso. by rewrite <- Hperm in *.
  - exfalso. by rewrite Hperm in *.
Qed.

(** X5.  When no round below the message's has an entry, the completion of
    the message's round leaves the registry as it is: the completed round
    keeps its dealer. *)
Lemma completion_without_older_rounds
  dkgMsg height validators pubKey m w m0 w0 lg ref d m1 w1 d1 verifier :
  obtainDealer (Data dkgMsg) validators (m, w) = (Return (Some ref), (m0, w0)) ->
  OffChain.Logger m0 = Some lg ->
  OffChain.heap w0 !! ref = Some d ->
  VerifyMessage dkgMsg d = None ->
  dispatch ref (Data dkgMsg) (m0, logged (verifiedLines (Data dkgMsg)) w0)
  = (Return None, (m1, w1)) ->
  OffChain.heap w1 !! ref = Some d1 ->
  GetVerifier d1 = (verifier, None) ->
  (forall k, is_Some (OffChain.dkgRoundToDealer m0 !! k) ->
             RoundID (Data dkgMsg) <= k) ->
  OffChain.dkgRoundToDealer
    (fst (snd (HandleOffChainShare dkgMsg height validators pubKey (m, w))))
  = OffChain.dkgRoundToDealer m0.
Proof.
  intros Hobtain Hlg Hd Hver Hdisp Hd1 Hv Hlow.
  rewrite (handle_share_completes MsgQueueSize dkgMsg height validators pubKey
             _ _ _ _ _ _ _ _ _ _ _ Hobtain Hlg Hd Hver Hdisp Hd1 Hv).
  simpl. rewrite retireLoop_spec. case_decide as Hex; [| done].
  apply Exists_exists in Hex as (k & Hin & Hlt).
  apply elem_of_rangeKeys, Hlow in Hin. lia.
Qed.

(** X6.  After a handler error the round is closed: every later message
    of that round is dropped with one log line, the struct and the dealers
    untouched, no dealer called. *)
Lemma failed_round_is_closed
  dkgMsg height validators pubKey m w m0 w0 lg ref d e m1 w1
  dkgMsg' height' validators' pubKey' :
  obtainDealer (Data dkgMsg) validators (m, w) = (Return (Some ref), (m0, w0)) ->
  OffChain.Logger m0 = Some lg ->
  OffChain.heap w0 !! ref = Some d ->
  VerifyMessage dkgMsg d = None ->
  dispatch ref (Data dkgMsg) (m0, logged (verifiedLines (Data dkgMsg)) w0)
  = (Return (Some e), (m1, w1)) ->
  RoundID (Data dkgMsg') = RoundID (Data dkgMsg) ->
  let s1 := snd (HandleOffChainShare dkgMsg height validators pubKey (m, w)) in
  HandleOffChainShare dkgMsg' height' validators' pubKey' s1
  = (Return false,
     (fst s1,
      logged [OffChain.ALog LInfo
                "dkgState: received message for inactive round:"
                [VStr "round"; VInt (RoundID (Data dkgMsg'))]] (snd s1))).
Proof.
  intros Hobtain Hlg Hd Hver Hdisp Hround. cbn zeta.
  destruct (handle_share_dispatched MsgQueueSize dkgMsg height validators
              pubKey _ _ _ _ _ _ _ _ _ _ Hobtain Hlg Hd Hver Hdisp)
    as (-> & d1 & Hd1 & ->).
  unfold afterDispatch. cbn [snd fst].
  eapply tombstoned_round_dropped.
  - exact Hlg.
  - rewrite Hround. unfold tombstone. simpl. apply lookup_insert_eq.
Qed.

(** A type that is none of the seven has no case in the switch: the
    dispatch returns nil and leaves everything as it is. *)
Lemma dispatch_unknown_type ref msg (s : @OffChain.St D) :
  ~ (0 <= Type_ msg <= 6) ->
  dispatch ref msg s = (Return None, s).
Proof.
  intros Hty. unfold OffChain.dispatch.
  assert (handlerOf (Type_ msg) = None) as ->; [| done].
  unfold handlerOf, DKGPubKey, DKGDeal, DKGResponse, DKGJustification,
    DKGCommits, DKGComplaint, DKGReconstructCommit.
  repeat case_decide; first [done | lia].
Qed.

(** X7.  A verified message whose type is none of the seven is not
    refused: no handler is called and no line is logged for it, and
    [HandleOffChainShare] goes on to the dealer's verifier as after a
    handler that returned nil, with the dealer as it was. *)
Lemma unknown_type_skips_the_handlers
  dkgMsg height validators pubKey m w m0 w0 lg ref d :
  obtainDealer (Data dkgMsg) validators (m, w) = (Return (Some ref), (m0, w0)) ->
  OffChain.Logger m0 = Some lg ->
  OffChain.heap w0 !! ref = Some d ->
  VerifyMessage dkgMsg d = None ->
  ~ (0 <= Type_ (Data dkgMsg) <= 6) ->
  HandleOffChainShare dkgMsg height validators pubKey (m, w)
  = afterDispatch (Data dkgMsg) height None d m0
      (logged (verifiedLines (Data dkgMsg)) w0).
Proof.
  intros Hobtain Hlg Hd Hver Hty.
  destruct (handle_share_dispatched MsgQueueSize dkgMsg height validators
              pubKey _ _ _ _ _ _ _ _ _ _ Hobtain Hlg Hd Hver
              (dispatch_unknown_type ref (Data dkgMsg) _ Hty))
    as (_ & d1 & Hd1 & ->).
  rewrite heap_logged, Hd in Hd1. by injection Hd1 as <-.
Qed.
End Rounds.

(** ** Off-chain coordinator: the sink *)

Section Sink.
Context {D : Type} `{Dealer D}.
Variable MsgQueueSize : nat.

Implicit Types (m : @OffChain.OffChainDKG D) (w : @OffChain.World D).

Local Abbreviation sendSignedMessage :=
  (OffChain.sendSignedMessage (D := D) MsgQueueSize).

(** X8.  When the validator's key fails to sign, [sendSignedMessage]
    returns the error, wrapped, and nothing else happens: no event, no
    message queued, no log line. *)
Lemma unsigned_message_is_not_sent data m w pv data' e :
  OffChain.privValidator m = Some pv ->
  SignData pv (OffChain.chainID m) data = (data', Some e) ->
  sendSignedMessage data (m, w)
  = (Return (data', Some (Errorf "failed to sign data: %v" e)), (m, w)).
Proof.
  intros Hpv Hsign. unfold OffChain.sendSignedMessage, OffChain.Sign.
  go_step ltac:(go_step ltac:(reflexivity); by rewrite Hpv, Hsign).
  done.
Qed.

(** X9.  A signed message is announced and kept: [EventDKGData] is fired
    with the message as signed, and one copy goes to the queue when it has
    room and to a new goroutine, with a log line, when it is full.  No
    copy is dropped and the call does not wait. *)
Lemma signed_message_is_queued data m w pv lg data' :
  OffChain.privValidator m = Some pv ->
  OffChain.Logger m = Some lg ->
  SignData pv (OffChain.chainID m) data = (data', None) ->
  let mi := mkDKGDataMessage data' in
  let sent :=
    [OffChain.ALog LInfo "DKG: msg signed with signature"
       [VStr "signature"; VHex (Signature data')];
     OffChain.AFireEvent (OffChain.EventDKGData data')] in
  let w' := snd (snd (sendSignedMessage data (m, w))) in
  sendSignedMessage data (m, w) = (Return (data', None), (m, w')) /\
  OffChain.heap w' = OffChain.heap w /\
  (length (OffChain.dkgMsgQueue w) < MsgQueueSize ->
     w' = OffChain.set_dkgMsgQueue (OffChain.dkgMsgQueue w ++ [mi])
            (logged sent w))%nat /\
  (MsgQueueSize <= length (OffChain.dkgMsgQueue w) ->
     w' = OffChain.set_goroutines (OffChain.goroutines w ++ [mi])
            (logged
               (sent ++ [OffChain.ALog LInfo
                           "dkgMsgQueue is full. Using a go-routine" []])
               w))%nat /\
  (length (OffChain.dkgMsgQueue w') + length (OffChain.goroutines w')
   = S (length (OffChain.dkgMsgQueue w) + length (OffChain.goroutines w)))%nat.
Proof.
  intros Hpv Hlg Hsign. cbn zeta.
  assert (Hrun :
    sendSignedMessage data (m, w)
    = (Return (data', None),
       (m,
        if decide (length (OffChain.dkgMsgQueue w) < MsgQueueSize)%nat
        then OffChain.set_dkgMsgQueue
               (OffChain.dkgMsgQueue w ++ [mkDKGDataMessage data'])
               (logged
                  [OffChain.ALog LInfo "DKG: msg signed with signature"
                     [VStr "signature"; VHex (Signature data')];
                   OffChain.AFireEvent (OffChain.EventDKGData data')] w)
        else OffChain.set_goroutines
               (OffChain.goroutines w ++ [mkDKGDataMessage data'])
               (logged
                  [OffChain.ALog LInfo "DKG: msg signed with signature"
                     [VStr "signature"; VHex (Signature data')];
                   OffChain.AFireEvent (OffChain.EventDKGData data');
                   OffChain.ALog LInfo
                     "dkgMsgQueue is full. Using a go-routine" []] w)))).
  { unfold OffChain.sendSignedMessage, OffChain.Sign.
    go_step ltac:(go_step ltac:(reflexivity); by rewrite Hpv, Hsign).
    go_step ltac:(by eapply logAt_ok).
    unfold OffChain.sendDKGMessage, OffChain.FireEvent.
    destruct (decide (length (OffChain.dkgMsgQueue w) < MsgQueueSize)%nat)
      as [Hroom | Hfull].
    - go_step ltac:(go_step ltac:(apply emit_ok);
                    go_step ltac:(reflexivity);
                    rewrite decide_True by exact Hroom; reflexivity).
      unfold ret. simpl. by rewrite logged_logged.
    - go_step ltac:(go_step ltac:(apply emit_ok);
                    go_step ltac:(reflexivity);
                    rewrite decide_False by exact Hfull;
                    go_step ltac:(by eapply logAt_ok); reflexivity).
      unfold ret. simpl. by rewrite !logged_logged. }
  rewrite Hrun. simpl. split; [done |].
  destruct (decide (length (OffChain.dkgMsgQueue w) < MsgQueueSize)%nat)
    as [Hroom | Hfull]; simpl.
  - split; [done |]. split; [by intros _ |]. split; [intros ?; lia |].
    rewrite length_app. simpl. lia.
  - split; [done |]. split; [intros ?; lia |]. split; [by intros _ |].
    rewrite length_app. simpl. lia.
Qed.
End Sink.

(** ** Off-chain coordinator: what the calls leave alone *)

Section Orderly.
Context {D : Type} `{Dealer D}.
Variable MsgQueueSize : nat.

Implicit Types (m : @OffChain.OffChainDKG D) (w : @OffChain.World D).

Lemma sameSettings_refl m : sameSettings m m.
Proof. by repeat split. Qed.

Lemma sameSettings_trans m1 m2 m3 :
  sameSettings m1 m2 -> sameSettings m2 m3 -> sameSettings m1 m3.
Proof. unfold sameSettings. intros ? ?. intuition congruence. Qed.

Lemma sameKey_refl m : sameKey m m.
Proof. split; [apply sameSettings_refl | done]. Qed.

Lemma sameKey_trans m1 m2 m3 : sameKey m1 m2 -> sameKey m2 m3 -> sameKey m1 m3.
Proof.
  intros [Hs1 [? ?]] [Hs2 [? ?]].
  split; [by eapply sameSettings_trans | split; congruence].
Qed.

(** The lemmas below hold for any relation that is reflexive, transitive
    and keeps the number of blocks. *)
Variable R : @OffChain.OffChainDKG D -> @OffChain.OffChainDKG D -> Prop.
Hypothesis R_refl : forall m, R m m.
Hypothesis R_trans : forall m1 m2 m3, R m1 m2 -> R m2 m3 -> R m1 m3.
Hypothesis R_blocks :
  forall m m', R m m' -> OffChain.dkgNumBlocks m' = OffChain.dkgNumBlocks m.

Local Abbreviation orderly := (orderly (D := D) R).

Lemma ord_ret {A} (a : A) : orderly (ret a).
Proof. intros m w o m' w' [= <- <- _]. by split. Qed.

Lemma ord_panic {A} info : info <> divideByZero -> orderly (panic (A := A) info).
Proof.
  intros Hi m w o m' w' [= <- <- _]. split; [done |].
  intros _ [= ?]. by apply Hi.
Qed.

Lemma ord_bind {A B} (c : Go OffChain.St A) (k : A -> Go OffChain.St B) :
  orderly c -> (forall a, orderly (k a)) -> orderly (bind c k).
Proof.
  intros Hc Hk m w o m' w'. unfold bind.
  destruct (c (m, w)) as [[a | info] [m1 w1]] eqn:Ec.
  - intros Ek. apply Hc in Ec as [HR1 _]. apply Hk in Ek as [HR2 Hp].
    split; [by eapply R_trans |]. intros Hn. apply Hp.
    by rewrite (R_blocks _ _ HR1).
  - intros [= <- <- <-]. apply Hc in Ec as [HR1 Hp]. split; [done |].
    intros Hn [= ->]. by apply (Hp Hn).
Qed.

(** A step that returns and leaves the struct as it is. *)
Lemma ord_step {A} (c : Go OffChain.St A) :
  (forall m w, exists a w', c (m, w) = (Return a, (m, w'))) -> orderly c.
Proof.
  intros Hc m w o m' w' Ec. destruct (Hc m w) as (a & w1 & Ec').
  rewrite Ec' in Ec. injection Ec as <- <- _. by split.
Qed.

Lemma ord_update f : (forall m, R m (f m)) -> orderly (OffChain.update f).
Proof. intros Hf m w o m' w' [= <- <- _]. by split. Qed.

Lemma ord_self : orderly OffChain.self.
Proof. apply ord_step; intros; by eexists _, _. Qed.

Lemma ord_get : orderly get.
Proof. apply ord_step; intros; by eexists _, _. Qed.

Lemma ord_emit a : orderly (OffChain.emit a).
Proof. apply ord_step; intros; by eexists _, _. Qed.

Lemma ord_allocDealer d : orderly (OffChain.allocDealer d).
Proof. apply ord_step; intros; by eexists _, _. Qed.

Lemma ord_logAt lvl text kv : orderly (OffChain.logAt lvl text kv).
Proof.
  apply ord_bind; [apply ord_self |]. intros m0.
  destruct (OffChain.Logger m0); [apply ord_emit | by apply ord_panic].
Qed.

Lemma ord_readDealer {A} ref (f : D -> A) : orderly (OffChain.readDealer ref f).
Proof.
  intros m w o m' w'. unfold OffChain.readDealer. simpl.
  destruct (OffChain.heap w !! ref); intros [= <- <- _]; by split.
Qed.

Lemma ord_sendSignedMessage data :
  orderly (OffChain.sendSignedMessage MsgQueueSize data).
Proof.
  apply ord_bind.
  - apply ord_bind; [apply ord_self |]. intros m0.
    destruct (OffChain.privValidator m0) as [pv |]; [| by apply ord_panic].
    destruct (SignData pv (OffChain.chainID m0) data) as [data' [err |]];
      apply ord_ret.
  - intros [data' [err |]]; [apply ord_ret |].
    apply ord_bind; [apply ord_logAt |]. intros _.
    apply ord_bind; [| intros _; apply ord_ret].
    apply ord_bind; [apply ord_emit |]. intros _.
    apply ord_bind; [apply ord_get |]. intros s0.
    destruct (decide _).
    + apply ord_step; intros; by eexists _, _.
    + apply ord_bind; [apply ord_logAt |]. intros _.
      apply ord_step; intros; by eexists _, _.
Qed.

Lemma ord_runSink {A} (p : SinkM A) :
  orderly (runSink (OffChain.sendSignedMessage MsgQueueSize) p).
Proof.
  induction p as [a | data k IH]; simpl.
  - apply ord_ret.
  - apply ord_bind; [apply ord_sendSignedMessage | apply IH].
Qed.

Lemma ord_callDealer ref f : orderly (OffChain.callDealer MsgQueueSize ref f).
Proof.
  apply ord_bind; [apply ord_get |]. intros s0.
  destruct (OffChain.heap s0.2 !! ref); [| by apply ord_panic].
  apply ord_bind; [apply ord_runSink |]. intros r.
  apply ord_bind; [| intros _; apply ord_ret].
  apply ord_step; intros; by eexists _, _.
Qed.

Lemma ord_startDealer ref : orderly (OffChain.startDealer MsgQueueSize ref).
Proof.
  apply ord_bind; [apply ord_callDealer |]. intros err.
  apply ord_bind; [apply ord_emit |]. intros _. apply ord_ret.
Qed.

Lemma ord_callHandler ref h msg :
  orderly (OffChain.callHandler MsgQueueSize ref h msg).
Proof.
  apply ord_bind; [apply ord_callDealer |]. intros err.
  apply ord_bind; [apply ord_emit |]. intros _. apply ord_ret.
Qed.

Lemma ord_slashLosers losers : orderly (OffChain.slashLosers losers).
Proof.
  induction losers as [| loser rest IH]; simpl.
  - apply ord_ret.
  - apply ord_bind; [apply ord_logAt |]. by intros _.
Qed.

(** [HandleOffChainShare] writes the registry, the staged verifier and the
    change height, and nothing else. *)
Hypothesis R_registry : forall m reg, R m (OffChain.set_dkgRoundToDealer reg m).
Hypothesis R_staged : forall m v, R m (OffChain.set_nextVerifier v m).
Hypothesis R_change : forall m h, R m (OffChain.set_changeHeight h m).

Lemma ord_setRound round dealer : orderly (OffChain.setRound round dealer).
Proof. apply ord_update. intros m. apply R_registry. Qed.

Lemma ord_failRound ref msg : orderly (OffChain.failRound ref msg).
Proof.
  apply ord_bind; [apply ord_readDealer |]. intros losers.
  apply ord_bind; [apply ord_slashLosers |]. intros _. apply ord_setRound.
Qed.

Lemma ord_obtainDealer msg validators :
  orderly (OffChain.obtainDealer MsgQueueSize msg validators).
Proof.
  apply ord_bind; [apply ord_self |]. intros m0.
  destruct (_ !! _); [apply ord_ret |].
  apply ord_bind; [apply ord_logAt |]. intros _.
  apply ord_bind; [apply ord_allocDealer |]. intros ref.
  apply ord_bind; [apply ord_setRound |]. intros _.
  apply ord_bind; [apply ord_startDealer |]. intros [e |].
  - by apply ord_panic.
  - apply ord_ret.
Qed.

Lemma ord_dispatch ref msg : orderly (OffChain.dispatch MsgQueueSize ref msg).
Proof.
  unfold OffChain.dispatch. destruct (handlerOf _); [| apply ord_ret].
  apply ord_bind; [apply ord_logAt |]. intros _. apply ord_callHandler.
Qed.

Lemma ord_HandleOffChainShare dkgMsg height validators pubKey :
  orderly (OffChain.HandleOffChainShare MsgQueueSize dkgMsg height validators
             pubKey).
Proof.
  unfold OffChain.HandleOffChainShare. cbn zeta.
  apply ord_bind; [apply ord_obtainDealer |]. intros [ref |].
  2: { apply ord_bind; [apply ord_logAt |]. intros _. apply ord_ret. }
  apply ord_bind; [apply ord_logAt |]. intros _.
  apply ord_bind; [apply ord_readDealer |]. intros [e |].
  { apply ord_bind; [apply ord_logAt |]. intros _. apply ord_ret. }
  apply ord_bind; [apply ord_logAt |]. intros _.
  apply ord_bind; [apply ord_dispatch |]. intros [e |].
  { apply ord_bind; [apply ord_logAt |]. intros _.
    apply ord_bind; [apply ord_failRound |]. intros _. apply ord_ret. }
  apply ord_bind; [apply ord_readDealer |]. intros [verifier [e |]].
  - destruct (decide _).
    + apply ord_bind; [apply ord_logAt |]. intros _. apply ord_ret.
    + apply ord_bind; [apply ord_logAt |]. intros _.
      apply ord_bind; [apply ord_failRound |]. intros _. apply ord_ret.
  - apply ord_bind; [apply ord_logAt |]. intros _.
    apply ord_bind; [apply ord_update; intros; apply R_registry |]. intros _.
    apply ord_bind; [apply ord_update; intros; apply R_staged |]. intros _.
    apply ord_bind; [apply ord_update; intros; apply R_change |]. intros _.
    apply ord_bind; [apply ord_self |]. intros m0.
    apply ord_bind; [apply ord_emit |]. intros _. apply ord_ret.
Qed.

(** [CheckDKGTime] also writes the current verifier and the round id. *)
Hypothesis R_verifier : forall m v, R m (OffChain.set_verifier v m).
Hypothesis R_round : forall m id, R m (OffChain.set_dkgRoundID id m).

Lemma ord_startRound validators :
  orderly (OffChain.startRound MsgQueueSize validators).
Proof.
  apply ord_bind; [apply ord_update; intros; apply R_round |]. intros _.
  apply ord_bind; [apply ord_self |]. intros m0.
  apply ord_bind; [apply ord_logAt |]. intros _.
  destruct (_ !! _); [apply ord_ret |].
  apply ord_bind; [apply ord_allocDealer |]. intros dealer.
  apply ord_bind; [apply ord_setRound |]. intros _.
  apply ord_bind; [apply ord_emit |]. intros _.
  apply ord_startDealer.
Qed.

Lemma ord_CheckDKGTime height validators :
  orderly (OffChain.CheckDKGTime MsgQueueSize height validators).
Proof.
  intros m w o m' w' Ec.
  (* the division is guarded by the number of blocks of the struct at hand *)
  revert Ec. unfold OffChain.CheckDKGTime.
  set (swap := fun m0 : @OffChain.OffChainDKG D =>
         if decide (OffChain.changeHeight m0 = height)
         then OffChain.logAt LInfo "dkgState: time to update verifier"
                [VInt (OffChain.changeHeight m0); VInt height] ;;;
              OffChain.update (fun m =>
                OffChain.set_nextVerifier None
                  (OffChain.set_verifier (OffChain.nextVerifier m) m)) ;;;
              OffChain.update (OffChain.set_changeHeight 0) ;;;
              OffChain.FireEvent (OffChain.EventDKGKeyChange height)
         else ret tt).
  assert (Hswap : forall m0, orderly (swap m0)).
  { intros m0. unfold swap. destruct (decide _); [| apply ord_ret].
    apply ord_bind; [apply ord_logAt |]. intros _.
    apply ord_bind.
    { apply ord_update. intros m1.
      eapply R_trans; [apply R_verifier | apply R_staged]. }
    intros _. apply ord_bind; [apply ord_update; intros; apply R_change |].
    intros _. apply ord_emit. }
  go_step ltac:(reflexivity). fold (swap m).
  unfold bind at 1.
  destruct (swap m (m, w)) as [[[] | info] [m1 w1]] eqn:Es.
  2: { intros [= <- <- <-]. apply Hswap in Es as [HR Hp]. split; [done |].
       intros Hn [= ->]. by apply (Hp Hn). }
  apply Hswap in Es as [HR1 _].
  go_step ltac:(reflexivity).
  destruct (decide (height > 1)); [| intros [= <- <- _]; by split].
  destruct (decide (OffChain.dkgNumBlocks m1 = 0)) as [Hz | Hnz].
  { intros [= <- <- _]. split; [done |].
    intros Hn. by rewrite <- (R_blocks _ _ HR1) in Hn. }
  destruct (decide _); [| intros [= <- <- _]; by split].
  intros Estart.
  assert (Hord : orderly (OffChain.startRoundOrPanic MsgQueueSize validators)).
  { apply ord_bind; [apply ord_startRound |].
    intros [failure |]; [| apply ord_ret].
    apply ord_bind; [apply ord_self |]. intros m0. by apply ord_panic. }
  apply Hord in Estart as [HR2 Hp]. split; [by eapply R_trans |].
  intros _. by apply Hp.
Qed.

Lemma ord_runOps ops : orderly (runOps MsgQueueSize ops).
Proof.
  induction ops as [| op ops IH]; simpl.
  - apply ord_ret.
  - apply ord_bind; [| by intros _]. destruct op; simpl.
    + apply ord_bind; [apply ord_HandleOffChainShare |]. intros _.
      apply ord_ret.
    + apply ord_CheckDKGTime.
Qed.
End Orderly.

Section Kept.
Context {D : Type} `{Dealer D}.
Variable MsgQueueSize : nat.

Implicit Types (m : @OffChain.OffChainDKG D) (w : @OffChain.World D).

(** X10.  However it ends, [HandleOffChainShare] leaves the current
    verifier, the round id and the settings (number of blocks, dealer
    constructor, key, logger, event switch, chain id) as they are. *)
Lemma share_keeps_current_verifier dkgMsg height validators pubKey m w :
  let m' := fst (snd (OffChain.HandleOffChainShare MsgQueueSize dkgMsg height
                        validators pubKey (m, w))) in
  OffChain.verifier m' = OffChain.verifier m /\
  OffChain.dkgRoundID m' = OffChain.dkgRoundID m /\
  sameSettings m m'.
Proof.
  cbn zeta.
  destruct (OffChain.HandleOffChainShare MsgQueueSize dkgMsg height validators
              pubKey (m, w)) as [o [m' w']] eqn:Erun.
  assert (Hord : orderly sameKey
            (OffChain.HandleOffChainShare MsgQueueSize dkgMsg height
               validators pubKey)).
  { apply ord_HandleOffChainShare.
    - apply sameKey_refl.
    - apply sameKey_trans.
    - by intros ? ? [[? _] _].
    - by intros [].
    - by intros [].
    - by intros []. }
  by apply Hord in Erun as [(Hs & Hv & Hid) _].
Qed.

(** X11.  A coordinator built by [NewOffChainDKG], with any options, keeps
    its settings over any sequence of calls of [HandleOffChainShare] and
    [CheckDKGTime]; its number of blocks is never zero, and no call ends
    in a division by zero. *)
Lemma no_division_by_zero NewDKGDealer evsw chainID options ops w :
  let m := OffChain.NewOffChainDKG NewDKGDealer evsw chainID options in
  let run := runOps MsgQueueSize ops (m, w) in
  sameSettings m (fst (snd run)) /\
  OffChain.dkgNumBlocks (fst (snd run)) <> 0 /\
  fst run <> Panic divideByZero.
Proof.
  cbn zeta.
  pose proof (num_blocks_never_zero NewDKGDealer evsw chainID options) as Hnz.
  destruct (runOps MsgQueueSize ops
              (OffChain.NewOffChainDKG NewDKGDealer evsw chainID options, w))
    as [o [m' w']] eqn:Erun.
  assert (Hord : orderly sameSettings (runOps MsgQueueSize ops)).
  { apply ord_runOps.
    - apply sameSettings_refl.
    - apply sameSettings_trans.
    - by intros ? ? [? _].
    - by intros [].
    - by intros [].
    - by intros [].
    - by intros [].
    - by intros []. }
  apply Hord in Erun as [Hs Hp]. simpl.
  split; [done |]. split; [| by apply Hp].
  destruct Hs as [-> _]. done.
Qed.
End Kept.

(** ** Off-chain coordinator: from completion to the change of key *)

Section Promotion.
Context {D : Type} `{Dealer D}.
Variable MsgQueueSize : nat.

Implicit Types (m : @OffChain.OffChainDKG D) (w : @OffChain.World D).

Local Abbreviation HandleOffChainShare :=
  (OffChain.HandleOffChainShare MsgQueueSize).
Local Abbreviation obtainDealer := (OffChain.obtainDealer MsgQueueSize).
Local Abbreviation dispatch := (OffChain.dispatch MsgQueueSize).
Local Abbreviation CheckDKGTime := (OffChain.CheckDKGTime MsgQueueSize).

(** However [CheckDKGTime] ends, the struct it leaves is that of the state
    [swapped] up to the round id and the registry. *)
Lemma CheckDKGTime_struct height validators m w lg :
  OffChain.Logger m = Some lg ->
  exists reg id,
    fst (snd (CheckDKGTime height validators (m, w)))
    = OffChain.set_dkgRoundToDealer reg
        (OffChain.set_dkgRoundID id (fst (swapped height (m, w)))).
Proof.
  intros Hlg. unfold OffChain.CheckDKGTime.
  go_step ltac:(reflexivity).
  assert (Hswap :
    (if decide (OffChain.changeHeight m = height)
     then OffChain.logAt LInfo "dkgState: time to update verifier"
            [VInt (OffChain.changeHeight m); VInt height] ;;;
          OffChain.update (fun m =>
            OffChain.set_nextVerifier None
              (OffChain.set_verifier (OffChain.nextVerifier m) m)) ;;;
          OffChain.update (OffChain.set_changeHeight 0) ;;;
          OffChain.FireEvent (OffChain.EventDKGKeyChange height)
     else ret tt) (m, w) = (Return tt, swapped height (m, w))).
  { unfold swapped. simpl fst.
    destruct (decide (OffChain.changeHeight m = height)) as [Heq | Hne].
    - go_step ltac:(by eapply logAt_ok).
      do 2 go_step ltac:(reflexivity).
      unfold OffChain.FireEvent. rewrite emit_ok. by rewrite logged_logged.
    - done. }
  go_step ltac:(exact Hswap).
  destruct (swapped height (m, w)) as [m1 w1].
  go_step ltac:(reflexivity).
  assert (Hsame : exists reg id,
            m1 = OffChain.set_dkgRoundToDealer reg
                   (OffChain.set_dkgRoundID id m1)).
  { exists (OffChain.dkgRoundToDealer m1), (OffChain.dkgRoundID m1).
    by destruct m1. }
  destruct (decide (height > 1)); [| exact Hsame].
  destruct (decide (OffChain.dkgNumBlocks m1 = 0)); [exact Hsame |].
  destruct (decide (GoInt.rem_int64 height (OffChain.dkgNumBlocks m1) = 0));
    [| exact Hsame].
  destruct (startRoundOrPanic_struct MsgQueueSize validators m1 w1)
    as [reg Hreg].
  by eexists _, _.
Qed.

(** X12.  The verifier that a completion stages becomes the current one
    at the change height it staged: after [HandleOffChainShare] has
    obtained a verifier at some height, [CheckDKGTime] at the change
    height computed for that height leaves it as the current verifier,
    with nothing staged and the change height back at 0. *)
Lemma staged_verifier_is_promoted
  dkgMsg height validators pubKey m w m0 w0 lg ref d m1 w1 d1 verifier
  validators' :
  obtainDealer (Data dkgMsg) validators (m, w) = (Return (Some ref), (m0, w0)) ->
  OffChain.Logger m0 = Some lg ->
  OffChain.heap w0 !! ref = Some d ->
  VerifyMessage dkgMsg d = None ->
  dispatch ref (Data dkgMsg) (m0, logged (verifiedLines (Data dkgMsg)) w0)
  = (Return None, (m1, w1)) ->
  OffChain.heap w1 !! ref = Some d1 ->
  GetVerifier d1 = (verifier, None) ->
  let s1 := snd (HandleOffChainShare dkgMsg height validators pubKey (m, w)) in
  let m2 := fst (snd (CheckDKGTime (OffChain.nextChangeHeight height)
                        validators' (fst s1, snd s1))) in
  OffChain.verifier m2 = verifier /\
  OffChain.nextVerifier m2 = None /\
  OffChain.changeHeight m2 = 0.
Proof.
  intros Hobtain Hlg Hd Hver Hdisp Hd1 Hv. cbn zeta.
  rewrite (handle_share_completes MsgQueueSize dkgMsg height validators pubKey
             _ _ _ _ _ _ _ _ _ _ _ Hobtain Hlg Hd Hver Hdisp Hd1 Hv).
  cbn [fst snd].
  edestruct (CheckDKGTime_struct (OffChain.nextChangeHeight height) validators'
               (staged (Data dkgMsg) height verifier m0)) as (reg & id & ->);
    [exact Hlg |].
  unfold swapped. cbn [fst snd].
  rewrite decide_True by done. done.
Qed.
End Promotion.

(** ** The tx helpers: the builder *)

Section Builder.
Context {S Msg : Type}.
Variable perform : Utils.Call -> Go S Utils.Reply.
Variable deps : Utils.Deps Msg.

(** X13.  [PrepareTxBuilder] fills in what is missing and nothing else.
    It first checks that the sender's account exists, and with an error
    there it makes no other call.  When the account number or the
    sequence number of the builder is zero it then asks for the account's
    numbers, once, and on success a zero account number becomes the
    account number of that reply and a zero sequence number its sequence
    number; when neither is zero it makes no second call.  A non-zero
    account number and a non-zero sequence number are kept, gas and the
    other fields are always kept, and with an error the builder comes
    back as it was given. *)
Lemma PrepareTxBuilder_fills_zero_fields txBldr cliCtx s b err s' :
  Utils.PrepareTxBuilder perform txBldr cliCtx s = (Return (b, err), s') ->
  let from := Utils.FromAddress cliCtx in
  (Utils.gas b = Utils.gas txBldr /\
   Utils.gasAdjustment b = Utils.gasAdjustment txBldr /\
   Utils.simulateAndExecute b = Utils.simulateAndExecute txBldr /\
   Utils.txChainID b = Utils.txChainID txBldr /\
   Utils.memo b = Utils.memo txBldr) /\
  (Utils.accountNumber txBldr <> 0 ->
   Utils.accountNumber b = Utils.accountNumber txBldr) /\
  (Utils.sequence txBldr <> 0 -> Utils.sequence b = Utils.sequence txBldr) /\
  (err <> None -> b = txBldr) /\
  exists check s1,
    perform (Utils.CEnsureExists from) s = (Return check, s1) /\
    (Utils.r_err check <> None -> err = Utils.r_err check /\ s' = s1) /\
    (Utils.r_err check = None ->
     Utils.accountNumber txBldr <> 0 -> Utils.sequence txBldr <> 0 ->
     err = None /\ s' = s1) /\
    (Utils.r_err check = None ->
     Utils.accountNumber txBldr = 0 \/ Utils.sequence txBldr = 0 ->
     exists account,
       perform (Utils.CGetAccountNumberSequence from) s1
       = (Return account, s') /\
       err = Utils.r_err account /\
       (err = None ->
        (Utils.accountNumber txBldr = 0 ->
         Utils.accountNumber b = Utils.r_num account) /\
        (Utils.sequence txBldr = 0 ->
         Utils.sequence b = Utils.r_seq account))).
Proof.
  unfold Utils.PrepareTxBuilder. cbn zeta. intros Hrun.
  apply bind_inv in Hrun as (check & s1 & Echeck & Hrun).
  destruct (Utils.r_err check) as [e |] eqn:Hcheck.
  { injection Hrun as <- <- <-.
    split; [done |]. split; [done |]. split; [done |]. split; [done |].
    exists check, s1. rewrite Hcheck. split; [done |].
    split; [done |]. split; intros; done. }
  destruct (decide (Utils.accountNumber txBldr = 0
                    \/ Utils.sequence txBldr = 0)) as [Hzero | Hnz].
  - apply bind_inv in Hrun as (account & s2 & Eaccount & Hrun).
    destruct (Utils.r_err account) as [e |] eqn:Haccount.
    { injection Hrun as <- <- <-.
      split; [done |]. split; [done |]. split; [done |]. split; [done |].
      exists check, s1. rewrite Hcheck. split; [done |].
      split; [done |]. split; [intros _ Hn Hs; by destruct Hzero |].
      intros _ _. exists account. rewrite Haccount.
      split; [done |]. split; [done |]. intros; done. }
    injection Hrun as <- <- <-.
    split; [repeat case_decide; done |].
    split; [intros Hn; repeat case_decide; done |].
    split; [intros Hs; repeat case_decide; done |].
    split; [done |].
    exists check, s1. rewrite Hcheck. split; [done |].
    split; [done |]. split; [intros _ Hn Hs; by destruct Hzero |].
    intros _ _. exists account. rewrite Haccount.
    split; [done |]. split; [done |]. intros _.
    split; intros Hz; repeat case_decide; done.
  - injection Hrun as <- <- <-.
    split; [done |]. split; [done |]. split; [done |]. split; [done |].
    exists check, s1. rewrite Hcheck. split; [done |].
    split; [done |]. split; [done |].
    intros _ Hzero. by destruct Hnz.
Qed.

(** X14.  [EnrichWithGas] changes the gas and nothing else, and only when
    the simulation succeeds.  Then the transaction built for the
    simulation was queried at [/app/simulate], once, and the gas is
    [uint64(adjustment * float64(gasUsed))] for the gas that the node's
    reply reports and the builder's gas adjustment; with an error the
    builder comes back as it was given. *)
Lemma EnrichWithGas_sets_gas_only txBldr msgs s b err s' :
  Utils.EnrichWithGas perform deps txBldr msgs s = (Return (b, err), s') ->
  Utils.WithGas (Utils.gas txBldr) b = txBldr /\
  (err <> None -> b = txBldr) /\
  (err = None ->
   exists txBytes r gasUsed,
     Utils.BuildTxForSim deps txBldr msgs = (txBytes, None) /\
     perform (Utils.CQuery "/app/simulate" txBytes) s = (Return r, s') /\
     Utils.r_err r = None /\
     Utils.UnmarshalGasUsed deps (Utils.r_data r) = (gasUsed, None) /\
     Utils.gas b
     = Utils.uint64_of_float64 (Utils.unrepresentable deps)
         (Utils.float64_mul (Utils.gasAdjustment txBldr)
            (Utils.float64_of_uint64 gasUsed))).
Proof.
  unfold Utils.EnrichWithGas, Utils.simulateMsgs, Utils.CalculateGas,
    Utils.parseQueryResponse, Utils.adjustGasEstimate.
  intros Hrun. apply bind_inv in Hrun as ([[est adj] oe] & s1 & Hsim & Hrun).
  destruct oe as [e |]; injection Hrun as <- <- <-.
  { split; [by destruct txBldr |]. split; [done |]. by intros ?. }
  split; [by destruct txBldr |]. split; [by intros ? |]. intros _.
  destruct (Utils.BuildTxForSim deps txBldr msgs) as [txBytes [e |]] eqn:Hbuild;
    [discriminate |].
  apply bind_inv in Hsim as (r & s2 & Equery & Hsim).
  destruct (Utils.r_err r) eqn:Herr; [discriminate |].
  destruct (Utils.UnmarshalGasUsed deps (Utils.r_data r))
    as [gasUsed [e |]] eqn:Hparse; [discriminate |].
  injection Hsim as <- <- <-. by exists txBytes, r, gasUsed.
Qed.
End Builder.

(** ** The tx helpers: what stays off the air *)

(** The helpers that prepare, simulate and print keep any property that
    holds of their calls and is kept by [ret] and [bind]; so does the
    whole of [GenerateOrBroadcastMsgs] in a generate-only or a simulating
    context. *)
Section LocalHelpers.
Context {S Msg : Type}.
Variable perform : Utils.Call -> Go S Utils.Reply.
Variable deps : Utils.Deps Msg.
Variable P : forall A, Go S A -> Prop.
Hypothesis P_ret : forall A (a : A), P A (ret a).
Hypothesis P_bind :
  forall A B (c : Go S A) (k : A -> Go S B),
    P A c -> (forall a, P B (k a)) -> P B (bind c k).
Hypothesis P_perform :
  forall c, isLocalCall c = true -> P Utils.Reply (perform c).

Ltac local :=
  repeat match goal with
    | |- P _ (ret _) => apply P_ret
    | |- P _ (perform _) => apply P_perform; reflexivity
    | |- P _ (bind _ _) => apply P_bind; [| intros ?]
    | |- P _ (match ?x with _ => _ end) => destruct x
    | |- P _ (let _ := _ in _) => cbn zeta
    end.

Lemma local_PrepareTxBuilder txBldr cliCtx :
  P _ (Utils.PrepareTxBuilder perform txBldr cliCtx).
Proof. unfold Utils.PrepareTxBuilder. local. Qed.

Lemma local_EnrichWithGas txBldr msgs :
  P _ (Utils.EnrichWithGas perform deps txBldr msgs).
Proof.
  unfold Utils.EnrichWithGas, Utils.simulateMsgs, Utils.CalculateGas. local.
Qed.

Lemma local_buildUnsignedStdTxOffline txBldr cliCtx msgs :
  P _ (Utils.buildUnsignedStdTxOffline perform deps txBldr cliCtx msgs).
Proof.
  unfold Utils.buildUnsignedStdTxOffline. apply P_bind.
  - destruct (Utils.simulateAndExecute txBldr); [| apply P_ret].
    apply P_bind; [apply local_EnrichWithGas |]. intros ?. local.
  - intros ?. local.
Qed.

Lemma local_PrintUnsignedStdTx txBldr cliCtx msgs offline :
  P _ (Utils.PrintUnsignedStdTx perform deps txBldr cliCtx msgs offline).
Proof.
  unfold Utils.PrintUnsignedStdTx. apply P_bind.
  - destruct offline; [apply local_buildUnsignedStdTxOffline |].
    unfold Utils.buildUnsignedStdTx.
    apply P_bind; [apply local_PrepareTxBuilder |]. intros [b [e |]].
    + apply P_ret.
    + apply local_buildUnsignedStdTxOffline.
  - intros ?. local.
Qed.

Lemma local_simulation txBldr cliCtx msgs :
  Utils.Simulate cliCtx = true ->
  P _ (Utils.CompleteAndBroadcastTxCLI perform deps txBldr cliCtx msgs).
Proof.
  intros Hsim. unfold Utils.CompleteAndBroadcastTxCLI.
  apply P_bind; [apply local_PrepareTxBuilder |]. intros [b [e |]].
  - apply P_ret.
  - cbn zeta. rewrite Hsim, orb_true_r. apply P_bind.
    + apply P_bind; [apply local_EnrichWithGas |]. intros ?. local.
    + intros [b' [e |]]; apply P_ret.
Qed.

Lemma local_GenerateOrBroadcastMsgs cliCtx txBldr msgs offline :
  Utils.GenerateOnly cliCtx = true \/ Utils.Simulate cliCtx = true ->
  P _ (Utils.GenerateOrBroadcastMsgs perform deps cliCtx txBldr msgs offline).
Proof.
  intros Hmode. unfold Utils.GenerateOrBroadcastMsgs.
  destruct (Utils.GenerateOnly cliCtx) eqn:Hgen.
  - apply local_PrintUnsignedStdTx.
  - apply local_simulation. by destruct Hmode.
Qed.
End LocalHelpers.

(** ** On-chain coordinator: sending *)

Section Sending.
Context {D : Type} `{Dealer D}.
Variable node : list OnChain.Action -> Utils.Call -> Utils.Reply.
Variable ValidateBasic : OnChain.MsgSendDKGData -> option error.
Variable deps : Utils.Deps OnChain.MsgSendDKGData.

Implicit Types (m : @OnChain.OnChainDKG D) (t : list OnChain.Action).

Local Abbreviation offTheAir := (offTheAir (D := D)).
Local Abbreviation perform := (OnChain.perform (D := D) node).
Local Abbreviation sendMsg := (OnChain.sendMsg node ValidateBasic deps).

Lemma off_ret {A} (a : A) : offTheAir (ret a).
Proof. intros m t. exists a, []. by rewrite app_nil_r. Qed.

Lemma off_bind {A B} (c : Go OnChain.St A) (k : A -> Go OnChain.St B) :
  offTheAir c -> (forall a, offTheAir (k a)) -> offTheAir (bind c k).
Proof.
  intros Hc Hk m t.
  destruct (Hc m t) as (a & new1 & Ec & Hs1).
  destruct (Hk a m (t ++ new1)) as (b & new2 & Ek & Hs2).
  exists b, (new1 ++ new2). split.
  - unfold bind. rewrite Ec, Ek. by rewrite app_assoc.
  - by rewrite List.filter_app, Hs1, Hs2.
Qed.

Lemma off_perform c : isLocalCall c = true -> offTheAir (perform c).
Proof.
  intros Hc m t. exists (node t c), [OnChain.ACall c (node t c)].
  split; [done |]. by destruct c.
Qed.

(** Without a broadcast in [new], no member of it is one. *)
Lemma not_on_the_air new :
  List.filter isBroadcast new = [] ->
  forall a, a ∈ new -> forall txBytes r,
    a <> OnChain.ACall (Utils.CBroadcastTx txBytes) r.
Proof.
  intros Hnone a Hin txBytes r ->.
  assert (OnChain.ACall (Utils.CBroadcastTx txBytes) r
          ∈ List.filter isBroadcast new) as Hbad.
  { apply list_elem_of_In, List.filter_In. split; [| done].
    by apply list_elem_of_In. }
  rewrite Hnone in Hbad. by apply elem_of_nil in Hbad.
Qed.

Lemma off_GenerateOrBroadcastMsgs cliCtx txBldr msgs offline :
  Utils.GenerateOnly cliCtx = true \/ Utils.Simulate cliCtx = true ->
  offTheAir
    (Utils.GenerateOrBroadcastMsgs perform deps cliCtx txBldr msgs offline).
Proof.
  intros Hmode.
  apply (local_GenerateOrBroadcastMsgs perform deps
           (fun A (c : Go OnChain.St A) => offTheAir c)
           (fun A a => off_ret a) (fun A B c k => off_bind c k)
           off_perform cliCtx txBldr msgs offline Hmode).
Qed.

(** X15.  In a generate-only or a simulating context
    [GenerateOrBroadcastMsgs] never calls [BroadcastTx]: it returns, with
    the coordinator as it was, and no call it made is a broadcast. *)
Lemma no_broadcast_when_generating cliCtx txBldr msgs offline m t :
  Utils.GenerateOnly cliCtx = true \/ Utils.Simulate cliCtx = true ->
  exists err new,
    Utils.GenerateOrBroadcastMsgs perform deps cliCtx txBldr msgs offline
      (m, t)
    = (Return err, (m, t ++ new)) /\
    forall a, a ∈ new -> forall txBytes r,
      a <> OnChain.ACall (Utils.CBroadcastTx txBytes) r.
Proof.
  intros Hmode.
  destruct (off_GenerateOrBroadcastMsgs cliCtx txBldr msgs offline Hmode m t)
    as (err & new & Erun & Hnone).
  exists err, new. split; [done |]. by apply not_on_the_air.
Qed.

(** X16.  In a generate-only or a simulating context a call of [sendMsg]
    with a valid message still advances the sequence number, although
    nothing was broadcast. *)
Lemma sequence_advances_without_broadcast data m t :
  ValidateBasic
    (OnChain.NewMsgSendDKGData data (Utils.FromAddress (OnChain.cli m)))
  = None ->
  Utils.GenerateOnly (OnChain.cli m) = true
  \/ Utils.Simulate (OnChain.cli m) = true ->
  exists err new,
    sendMsg data (m, t)
    = (Return (Errorf "failed to broadcast msg: %v" <$> err),
       (bumped m, t ++ new)) /\
    (forall a, a ∈ new -> forall txBytes r,
       a <> OnChain.ACall (Utils.CBroadcastTx txBytes) r) /\
    Utils.sequence (OnChain.txBldr (bumped m))
    = GoInt.add_uint64 (Utils.sequence (OnChain.txBldr m)) 1.
Proof.
  intros Hv Hmode.
  destruct (off_GenerateOrBroadcastMsgs (OnChain.cli m) (OnChain.txBldr m)
              [OnChain.NewMsgSendDKGData data
                 (Utils.FromAddress (OnChain.cli m))] false Hmode m t)
    as (err & new & Eg & Hnone).
  exists err, new. split; [| split; [by apply not_on_the_air | done]].
  unfold OnChain.sendMsg.
  go_step ltac:(reflexivity). rewrite Hv.
  go_step ltac:(exact Eg).
  go_step ltac:(reflexivity).
  by destruct err.
Qed.

(** X17.  When the sender's account does not exist the broadcast is given
    up at once: the check is the only call made, [sendMsg] returns its
    error, wrapped, and the sequence number advances all the same. *)
Lemma missing_account_stops_broadcast data m t e :
  ValidateBasic
    (OnChain.NewMsgSendDKGData data (Utils.FromAddress (OnChain.cli m)))
  = None ->
  Utils.GenerateOnly (OnChain.cli m) = false ->
  let check := Utils.CEnsureExists (Utils.FromAddress (OnChain.cli m)) in
  Utils.r_err (node t check) = Some e ->
  sendMsg data (m, t)
  = (Return (Some (Errorf "failed to broadcast msg: %v" e)),
     (bumped m, t ++ [OnChain.ACall check (node t check)])).
Proof.
  intros Hv Hgen. cbn zeta. intros Hcheck.
  unfold OnChain.sendMsg.
  go_step ltac:(reflexivity). rewrite Hv.
  go_step ltac:(unfold Utils.GenerateOrBroadcastMsgs; rewrite Hgen;
                unfold Utils.CompleteAndBroadcastTxCLI;
                go_step ltac:(unfold Utils.PrepareTxBuilder; cbn zeta;
                              go_step ltac:(reflexivity);
                              rewrite Hcheck; reflexivity);
                reflexivity).
  go_step ltac:(reflexivity). done.
Qed.
End Sending.

(** ** On-chain coordinator: the round *)

Section Round.
Context {D : Type} `{Dealer D}.
Variable node : list OnChain.Action -> Utils.Call -> Utils.Reply.
Variable ValidateBasic : OnChain.MsgSendDKGData -> option error.
Variable gobDecode : bytes -> list OnChain.MsgSendDKGData * option error.
Variable NewDKGDealer : ValidatorSet -> option PrivValidator -> Z -> D.
Variable deps : Utils.Deps OnChain.MsgSendDKGData.

Implicit Types (m : @OnChain.OnChainDKG D) (t : list OnChain.Action).

Local Abbreviation processBucket :=
  (OnChain.processBucket node ValidateBasic gobDecode deps).
Local Abbreviation ProcessBlock :=
  (OnChain.ProcessBlock node ValidateBasic gobDecode deps).
Local Abbreviation StartRound :=
  (OnChain.StartRound node ValidateBasic NewDKGDealer deps).
Local Abbreviation BucketRun := (BucketRun gobDecode).

(** X18.  Distinct data types are queried at distinct paths: no bucket
    is read in place of another. *)
Lemma dkgDataPath_inj a b :
  a <> b -> OnChain.dkgDataPath a <> OnChain.dkgDataPath b.
Proof.
  unfold OnChain.dkgDataPath. intros Hab Hpath. apply Hab.
  apply (inj (String.append "custom/randapp/dkgData/")) in Hpath.
  by apply (inj pretty) in Hpath.
Qed.

(** X19.  [StartRound] always returns: it installs the dealer constructed
    for the given validators, key and round, starts it, and returns the
    error of [Start], wrapped; the dealer stays installed even then, and
    no bucket is queried and no handler called. *)
Lemma StartRound_installs_dealer validators pv round m t :
  exists d' err m' new,
    runSink (OnChain.sink node ValidateBasic deps)
      (Start (NewDKGDealer validators pv round))
      (OnChain.set_dealer (Some (NewDKGDealer validators pv round)) m, t)
    = (Return (d', err), (m', t ++ new)) /\
    steps new = [] /\
    StartRound validators pv round (m, t)
    = (Return (Errorf "failed to start dealer: %v" <$> err),
       (OnChain.set_dealer (Some d') m',
        t ++ new ++ [OnChain.ADealerStart err])).
Proof.
  destruct (calm_runSink node ValidateBasic deps
              (Start (NewDKGDealer validators pv round))
              (OnChain.set_dealer (Some (NewDKGDealer validators pv round)) m)
              t)
    as ([d' err] & m' & new & Erun & _ & Hs).
  exists d', err, m', new. split; [done |]. split; [done |].
  unfold OnChain.StartRound, OnChain.callDealer.
  go_step ltac:(reflexivity).
  go_step ltac:(go_step ltac:(reflexivity); cbn [OnChain.dealer OnChain.set_dealer];
                go_step ltac:(exact Erun);
                go_step ltac:(reflexivity); reflexivity).
  go_step ltac:(reflexivity).
  destruct err; unfold ret; simpl; by rewrite <- app_assoc.
Qed.

(** X20.  [ProcessBlock] before any round was started: when the query for
    the first bucket fails or does not decode it returns that error; when
    the bucket is fetched it panics on the nil dealer. *)
Lemma ProcessBlock_without_dealer m t :
  OnChain.dealer m = None ->
  let r := node t (Utils.CQueryWithData (OnChain.dkgDataPath DKGPubKey) []) in
  match Utils.r_err r with
  | Some e =>
      ProcessBlock (m, t)
      = (Return (Some (Errorf "failed to getDKGMessages: %v"
                         (Errorf "failed to query for DKG data: %v" e)),
                 false),
         (m, t ++ [queried DKGPubKey r]))
  | None =>
      match gobDecode (Utils.r_data r) with
      | (_, Some e) =>
          ProcessBlock (m, t)
          = (Return (Some (Errorf "failed to getDKGMessages: %v"
                             (Errorf "failed to decode DKG data: %v" e)),
                     false),
             (m, t ++ [queried DKGPubKey r]))
      | (_, None) => fst (ProcessBlock (m, t)) = Panic nilDereference
      end
  end.
Proof.
  intros Hd. cbn zeta.
  destruct (getDKGMessages_step node gobDecode DKGPubKey m t)
    as (got & new0 & Eget & _ & Hgot).
  set (r := node t (Utils.CQueryWithData (OnChain.dkgDataPath DKGPubKey) []))
    in *.
  assert (Hnew : Utils.r_err r <> None \/
                 snd (gobDecode (Utils.r_data r)) <> None ->
                 new0 = [queried DKGPubKey r]).
  { intros Hfail. unfold OnChain.getDKGMessages in Eget.
    apply bind_inv in Eget as (r' & s' & [= <- <-] & Eget). fold r in Eget.
    cbn [fst snd] in Eget.
    destruct (Utils.r_err r) as [e |].
    - injection Eget as _ Ht. by apply app_inv_head in Ht.
    - destruct (gobDecode (Utils.r_data r)) as [data [e |]].
      + injection Eget as _ Ht. by apply app_inv_head in Ht.
      + by destruct Hfail. }
  unfold OnChain.ProcessBlock, OnChain.dataTypes. cbn [forEach].
  destruct (Utils.r_err r) as [e |] eqn:Herr.
  { subst got. rewrite Hnew in Eget by (by left).
    go_step ltac:(go_step ltac:(unfold OnChain.processBucket;
                                go_step ltac:(exact Eget); reflexivity);
                  reflexivity).
    done. }
  destruct (gobDecode (Utils.r_data r)) as [data [e |]] eqn:Hdec.
  { subst got. rewrite Hnew in Eget by (by right).
    go_step ltac:(go_step ltac:(unfold OnChain.processBucket;
                                go_step ltac:(exact Eget); reflexivity);
                  reflexivity).
    done. }
  subst got.
  erewrite bind_Panic; [done |].
  eapply bind_Panic. unfold OnChain.processBucket.
  go_step ltac:(exact Eget).
  eapply bind_Panic. unfold OnChain.bindHandler.
  change (handlerOf DKGPubKey) with (Some HPubKey). cbn iota.
  go_step ltac:(reflexivity). by rewrite Hd.
Qed.

(** X21.  With a dealer in place [ProcessBlock] always returns, whatever
    the node replies and the dealer does: it does not panic, it only adds
    to the trace, and the coordinator still has a dealer afterwards. *)
Lemma ProcessBlock_returns m t d :
  OnChain.dealer m = Some d ->
  exists res m' new,
    ProcessBlock (m, t) = (Return res, (m', t ++ new)) /\
    is_Some (OnChain.dealer m').
Proof.
  intros Hd.
  destruct (buckets_run node ValidateBasic gobDecode deps OnChain.dataTypes
              m t d dataTypes_have_handlers Hd)
    as (res & m1 & new & Eloop & [d1 Hd1] & _).
  unfold OnChain.ProcessBlock. destruct res as [e |].
  { exists (Some e, false), m1, new. split; [| by eexists].
    by go_step ltac:(exact Eloop). }
  assert (Hread : OnChain.readDealer GetVerifier (m1, t ++ new)
                  = (Return (GetVerifier d1), (m1, t ++ new))).
  { unfold OnChain.readDealer. go_step ltac:(reflexivity). by rewrite Hd1. }
  destruct (snd (GetVerifier d1)) as [e |] eqn:Hv.
  - destruct (decide (e = ErrDKGVerifierNotReady)) as [He | He].
    + exists (None, false), m1,
        (new ++ [OnChain.ALog LInfo "Verifier Not ready" []]).
      split; [| by eexists].
      go_step ltac:(exact Eloop). go_step ltac:(exact Hread).
      rewrite Hv, decide_True by done.
      go_step ltac:(reflexivity). unfold ret. simpl. by rewrite <- app_assoc.
    + exists (Some (Errorf "DKG round failed: %v" e), false), m1, new.
      split; [| by eexists].
      go_step ltac:(exact Eloop). go_step ltac:(exact Hread).
      by rewrite Hv, decide_False.
  - exists (None, true), m1, new. split; [| by eexists].
    go_step ltac:(exact Eloop). go_step ltac:(exact Hread).
    by rewrite Hv.
Qed.

(** X22.  [ProcessBlock] reports the round done only with a nil error,
    only after the whole block was processed without an error (each of
    the seven buckets queried and decoded, and every message handed to
    the bucket's own handler of the dealer, which accepted it), and only
    when the dealer that these calls left has its verifier. *)
Lemma ProcessBlock_done m t err m' t' :
  ProcessBlock (m, t) = (Return (err, true), (m', t')) ->
  err = None /\
  BlockRun node ValidateBasic gobDecode deps
    [(DKGPubKey, HPubKey, HandleDKGPubKey);
     (DKGDeal, HDeal, HandleDKGDeal);
     (DKGResponse, HResponse, HandleDKGResponse);
     (DKGJustification, HJustification, HandleDKGJustification);
     (DKGCommits, HCommit, HandleDKGCommit);
     (DKGComplaint, HComplaint, HandleDKGComplaint);
     (DKGReconstructCommit, HReconstructCommit, HandleDKGReconstructCommit)]
    (m, t) (m', t') None /\
  exists d,
    OnChain.dealer m' = Some d /\
    snd (GetVerifier d) = None.
Proof.
  unfold OnChain.ProcessBlock. intros Hrun.
  apply bind_inv in Hrun as (lerr & [m1 t1] & Eloop & Hrun).
  destruct lerr as [e |]; [discriminate |].
  destruct (OnChain.dealer m) as [d0 |] eqn:Hd0;
    [| by apply buckets_need_dealer in Eloop].
  destruct (table_run node ValidateBasic gobDecode deps
              [(DKGPubKey, HPubKey, HandleDKGPubKey);
               (DKGDeal, HDeal, HandleDKGDeal);
               (DKGResponse, HResponse, HandleDKGResponse);
               (DKGJustification, HJustification, HandleDKGJustification);
               (DKGCommits, HCommit, HandleDKGCommit);
               (DKGComplaint, HComplaint, HandleDKGComplaint);
               (DKGReconstructCommit, HReconstructCommit,
                HandleDKGReconstructCommit)] m t d0)
    as (res & s' & Eloop' & [d Hd] & Hblock); [repeat constructor | done |].
  cbn [fmap list_fmap fst snd] in Eloop'.
  unfold OnChain.dataTypes in Eloop.
  rewrite Eloop in Eloop'. injection Eloop' as <- <-.
  cbn [fst] in Hd.
  apply bind_inv in Hrun as (r & s2 & Eread & Hrun).
  unfold OnChain.readDealer in Eread.
  apply bind_inv in Eread as (m3 & s3 & [= <- <-] & Eread).
  cbn [fst] in Eread. rewrite Hd in Eread. injection Eread as <- <-.
  destruct (snd (GetVerifier d)) as [e |] eqn:Hv.
  - destruct (decide _); discriminate.
  - injection Hrun as <- <- <-. split; [done |]. split; [done |].
    by exists d.
Qed.
End Round.

(** ** On-chain coordinator: the account *)

Section Account.
Context {D : Type} `{Dealer D}.
Variable node : list OnChain.Action -> Utils.Call -> Utils.Reply.
Variable ValidateBasic : OnChain.MsgSendDKGData -> option error.
Variable gobDecode : bytes -> list OnChain.MsgSendDKGData * option error.
Variable NewDKGDealer : ValidatorSet -> option PrivValidator -> Z -> D.
Variable deps : Utils.Deps OnChain.MsgSendDKGData.

Implicit Types (m : @OnChain.OnChainDKG D) (t : list OnChain.Action).

Local Abbreviation accountKept := (accountKept (D := D)).

Lemma sameAccount_refl m : sameAccount m m.
Proof. unfold sameAccount. by destruct (OnChain.txBldr m). Qed.

Lemma sameAccount_trans m1 m2 m3 :
  sameAccount m1 m2 -> sameAccount m2 m3 -> sameAccount m1 m3.
Proof.
  intros (Hc1 & Hl1 & Hg1 & Hb1) (Hc2 & Hl2 & Hg2 & Hb2).
  unfold sameAccount. split; [congruence |]. split; [congruence |].
  split; [congruence |].
  rewrite <- Hb1, <- Hb2. by destruct (OnChain.txBldr m3).
Qed.

Lemma sameAccount_dealer d m : sameAccount m (OnChain.set_dealer d m).
Proof. unfold sameAccount. simpl. by destruct (OnChain.txBldr m). Qed.

Lemma sameAccount_bumped m : sameAccount m (bumped m).
Proof. unfold sameAccount, bumped. simpl. by destruct (OnChain.txBldr m). Qed.

Lemma kept_ret {A} (a : A) : accountKept (ret a).
Proof. intros m t o m' t' [= <- <- <-]. apply sameAccount_refl. Qed.

Lemma kept_panic {A} info : accountKept (panic (A := A) info).
Proof. intros m t o m' t' [= <- <- <-]. apply sameAccount_refl. Qed.

Lemma kept_bind {A B} (c : Go OnChain.St A) (k : A -> Go OnChain.St B) :
  accountKept c -> (forall a, accountKept (k a)) -> accountKept (bind c k).
Proof.
  intros Hc Hk m t o m' t'. unfold bind.
  destruct (c (m, t)) as [[a | info] [m1 t1]] eqn:Ec.
  - intros Ek. eapply sameAccount_trans; [by eapply Hc | by eapply Hk].
  - intros [= <- <- <-]. by eapply Hc.
Qed.

Lemma kept_self : accountKept OnChain.self.
Proof. intros m t o m' t' [= <- <- <-]. apply sameAccount_refl. Qed.

Lemma kept_emit a : accountKept (OnChain.emit a).
Proof. intros m t o m' t' [= <- <- <-]. apply sameAccount_refl. Qed.

Lemma kept_set_dealer d : accountKept (OnChain.update (OnChain.set_dealer d)).
Proof. intros m t o m' t' [= <- <- <-]. apply sameAccount_dealer. Qed.

Lemma kept_calm_query c : accountKept (OnChain.perform node c).
Proof. intros m t o m' t' [= <- <- <-]. apply sameAccount_refl. Qed.

(** [sendMsg] hands the helpers copies of the context and of the builder:
    what they fill in is dropped, and the sequence alone moves. *)
Lemma kept_sendMsg data :
  accountKept (OnChain.sendMsg node ValidateBasic deps data).
Proof.
  intros m t o m' t' Es.
  destruct (ValidateBasic
              (OnChain.NewMsgSendDKGData data
                 (Utils.FromAddress (OnChain.cli m)))) as [e |] eqn:Hv.
  - rewrite (sendMsg_invalid node ValidateBasic deps data m t e Hv) in Es.
    injection Es as <- <- <-. apply sameAccount_refl.
  - destruct (sendMsg_valid node ValidateBasic deps data m t Hv)
      as (err & new & _ & _ & Es').
    rewrite Es' in Es. injection Es as <- <- <-. apply sameAccount_bumped.
Qed.

Lemma kept_runSink {A} (p : SinkM A) :
  accountKept (runSink (OnChain.sink node ValidateBasic deps) p).
Proof.
  induction p as [a | data k IH]; simpl.
  - apply kept_ret.
  - apply kept_bind; [| apply IH].
    unfold OnChain.sink. apply kept_bind; [apply kept_sendMsg |].
    intros err. apply kept_ret.
Qed.

Lemma kept_callDealer f :
  accountKept (OnChain.callDealer node ValidateBasic deps f).
Proof.
  unfold OnChain.callDealer. apply kept_bind; [apply kept_self |].
  intros m. destruct (OnChain.dealer m); [| apply kept_panic].
  apply kept_bind; [apply kept_runSink |]. intros r.
  apply kept_bind; [apply kept_set_dealer |]. intros _. apply kept_ret.
Qed.

Lemma kept_readDealer {A} (f : D -> A) : accountKept (OnChain.readDealer f).
Proof.
  unfold OnChain.readDealer. apply kept_bind; [apply kept_self |].
  intros m. destruct (OnChain.dealer m); [apply kept_ret | apply kept_panic].
Qed.

Lemma kept_callHandler h msg :
  accountKept (OnChain.callHandler node ValidateBasic deps h msg).
Proof.
  unfold OnChain.callHandler. apply kept_bind; [apply kept_callDealer |].
  intros err. apply kept_bind; [apply kept_emit |]. intros _. apply kept_ret.
Qed.

Lemma kept_getDKGMessages dataType :
  accountKept (OnChain.getDKGMessages node gobDecode dataType).
Proof.
  unfold OnChain.getDKGMessages. apply kept_bind; [apply kept_calm_query |].
  intros r. destruct (Utils.r_err r); [apply kept_ret |].
  destruct (gobDecode (Utils.r_data r)) as [data [e |]]; [apply kept_ret |].
  apply kept_bind; [| intros _; apply kept_ret].
  destruct (decide (dataType = 0)); [apply kept_emit | apply kept_ret].
Qed.

Lemma kept_bindHandler dataType :
  accountKept (OnChain.bindHandler (D := D) dataType).
Proof.
  unfold OnChain.bindHandler. destruct (handlerOf dataType); [| apply kept_ret].
  apply kept_bind; [apply kept_self |].
  intros m. destruct (OnChain.dealer m); [apply kept_ret | apply kept_panic].
Qed.

Lemma kept_forEach {X} (body : X -> Go OnChain.St (option error)) xs :
  (forall x, accountKept (body x)) -> accountKept (forEach body xs).
Proof.
  intros Hbody. induction xs as [| x xs IH]; cbn [forEach].
  - apply kept_ret.
  - apply kept_bind; [apply Hbody |].
    intros [e |]; [apply kept_ret | apply IH].
Qed.

Lemma kept_dispatchAll handler messages :
  accountKept (OnChain.dispatchAll node ValidateBasic deps handler messages).
Proof.
  unfold OnChain.dispatchAll. apply kept_forEach. intros msg.
  apply kept_bind.
  - destruct handler; [apply kept_callHandler | apply kept_panic].
  - intros [e |]; apply kept_ret.
Qed.

Lemma kept_processBucket dataType :
  accountKept (OnChain.processBucket node ValidateBasic gobDecode deps dataType).
Proof.
  unfold OnChain.processBucket. apply kept_bind; [apply kept_getDKGMessages |].
  intros [messages [e |]]; [apply kept_ret |].
  apply kept_bind; [apply kept_bindHandler |].
  intros handler. apply kept_dispatchAll.
Qed.

Lemma kept_ProcessBlock :
  accountKept (OnChain.ProcessBlock node ValidateBasic gobDecode deps).
Proof.
  unfold OnChain.ProcessBlock.
  apply kept_bind; [apply kept_forEach, kept_processBucket |].
  intros [e |]; [apply kept_ret |].
  apply kept_bind; [apply kept_readDealer |]. intros r.
  destruct (snd r) as [e |]; [| apply kept_ret].
  destruct (decide (e = ErrDKGVerifierNotReady)); [| apply kept_ret].
  apply kept_bind; [apply kept_emit |]. intros _. apply kept_ret.
Qed.

Lemma kept_StartRound validators pv round :
  accountKept
    (OnChain.StartRound node ValidateBasic NewDKGDealer deps validators pv
       round).
Proof.
  unfold OnChain.StartRound.
  apply kept_bind; [apply kept_set_dealer |]. intros _.
  apply kept_bind; [apply kept_callDealer |]. intros err.
  apply kept_bind; [apply kept_emit |]. intros _.
  destruct err; apply kept_ret.
Qed.

(** X23.  [StartRound] and [ProcessBlock], however they end and whatever
    the dealer sends, leave the client context, the list of types and the
    logger of the coordinator as they were, and in the builder they change
    the sequence number and nothing else: the account number and the gas
    that the helpers fill in stay in the copies the helpers were given. *)
Theorem round_keeps_the_account validators pv round m t :
  let started :=
    OnChain.StartRound node ValidateBasic NewDKGDealer deps validators pv
      round (m, t) in
  let processed :=
    OnChain.ProcessBlock node ValidateBasic gobDecode deps (m, t) in
  sameAccount m (fst (snd started)) /\ sameAccount m (fst (snd processed)).
Proof.
  cbn zeta. split.
  - destruct (OnChain.StartRound _ _ _ _ _ _ _ _) as [o [m1 t1]] eqn:Es.
    by eapply kept_StartRound.
  - destruct (OnChain.ProcessBlock _ _ _ _ _) as [o [m1 t1]] eqn:Es.
    by eapply kept_ProcessBlock.
Qed.
End Account.

(** ** Runs for the further properties *)

(** X4 at the registry of rounds 1 and 2, the keys taken from 1 up. *)
Lemma retire_order_run :
  let reg : gmap Z (option nat) := {[ 1 := Some 0%nat; 2 := Some 1%nat ]} in
  OffChain.retireLoop [1; 2] 2 reg
  = OffChain.retireLoop (OffChain.rangeKeys reg) 2 reg.
Proof.
  cbn zeta. apply retire_order_irrelevant.
  vm_compute. apply perm_swap.
Defined.

(** X1 at boot: a message of round 2 has its dealer created and started. *)
Lemma unknown_round_creates_dealer_at_boot :
  OffChain.dkgRoundToDealer (fst Scenario.boot) !! 2 = None /\
  fst (OffChain.obtainDealer Scenario.MsgQueueSize (Scenario.hello 2) []
         (fst Scenario.boot, snd Scenario.boot))
  = Return (Some 0%nat).
Proof.
  split; [by vm_compute |].
  edestruct (unknown_round_creates_dealer Scenario.MsgQueueSize
               (Scenario.hello 2) [] (fst Scenario.boot) (snd Scenario.boot))
    as [_ Hrun]; [vm_compute; reflexivity .. |].
  by rewrite Hrun.
Defined.

(** X2 at a coordinator whose registry already has round 1. *)
Lemma startRound_known_round_run :
  let s := Scenario.oneRound Scenario.refusing in
  fst (OffChain.startRound Scenario.MsgQueueSize [] (fst s, snd s))
  = Return None /\
  OffChain.heap (snd (snd (OffChain.startRound Scenario.MsgQueueSize []
                             (fst s, snd s))))
  = [Scenario.refusing].
Proof.
  cbn zeta.
  rewrite (startRound_known_round Scenario.MsgQueueSize []
             (fst (Scenario.oneRound Scenario.refusing))
             (snd (Scenario.oneRound Scenario.refusing))
             (OffChain.LoggerHandle "dkg") (Some 0%nat));
    by vm_compute.
Defined.

(** X3 at boot: round 1 gets its dealer. *)
Lemma startRound_new_round_at_boot :
  exists s',
    OffChain.startRound Scenario.MsgQueueSize []
      (fst Scenario.boot, snd Scenario.boot)
    = (Return None, s').
Proof.
  eexists.
  eapply (startRound_new_round Scenario.MsgQueueSize []
            (fst Scenario.boot) (snd Scenario.boot));
    vm_compute; reflexivity.
Defined.

(** X5 at boot: round 2 completes and keeps its dealer. *)
Lemma completion_without_older_rounds_run :
  OffChain.dkgRoundToDealer
    (fst (snd (OffChain.HandleOffChainShare Scenario.MsgQueueSize
                 (Mock.message DKGPubKey 2) 77 [] Scenario.pubKey
                 (fst Scenario.boot, snd Scenario.boot))))
  = {[ 2 := Some 0%nat ]}.
Proof.
  erewrite (completion_without_older_rounds Scenario.MsgQueueSize
              (Mock.message DKGPubKey 2) 77 [] Scenario.pubKey
              (fst Scenario.boot) (snd Scenario.boot)); cycle 1.
  - vm_compute; reflexivity.
  - vm_compute; reflexivity.
  - vm_compute; reflexivity.
  - vm_compute; reflexivity.
  - vm_compute; reflexivity.
  - vm_compute; reflexivity.
  - vm_compute; reflexivity.
  - intros k Hk. apply elem_of_rangeKeys in Hk.
    change (k ∈ [2]) in Hk. apply list_elem_of_singleton in Hk as ->.
    simpl. lia.
  - by vm_compute.
Defined.

(** X6 at a dealer that refuses a message of round 1: the next message of
    round 1 is dropped. *)
Lemma failed_round_is_closed_run :
  let s := Scenario.oneRound Scenario.refusing in
  let s1 := snd (OffChain.HandleOffChainShare Scenario.MsgQueueSize
                   (Mock.message DKGDeal 1) 50 [] Scenario.pubKey
                   (fst s, snd s)) in
  OffChain.HandleOffChainShare Scenario.MsgQueueSize
    (Mock.message DKGPubKey 1) 51 [] Scenario.pubKey s1
  = (Return false,
     (fst s1,
      logged [OffChain.ALog LInfo
                "dkgState: received message for inactive round:"
                [VStr "round"; VInt 1]] (snd s1))).
Proof.
  cbn zeta.
  eapply (failed_round_is_closed Scenario.MsgQueueSize
            (Mock.message DKGDeal 1) 50 [] Scenario.pubKey
            (fst (Scenario.oneRound Scenario.refusing))
            (snd (Scenario.oneRound Scenario.refusing)));
    vm_compute; reflexivity.
Defined.

(** X7 at a message of type 9: the dealer has handled nothing and is
    asked for its verifier. *)
Lemma unknown_type_run :
  let s := Scenario.oneRound (Mock.honest 3 1 ErrVerifierNotReady) in
  OffChain.HandleOffChainShare Scenario.MsgQueueSize (Mock.message 9 1) 50 []
    Scenario.pubKey (fst s, snd s)
  = (Return false,
     (fst s,
      logged
        (verifiedLines (Data (Mock.message 9 1))
         ++ [OffChain.ALog LDebug "dkgState: verifier not ready" []])
        (snd s))).
Proof.
  cbn zeta.
  rewrite (unknown_type_skips_the_handlers Scenario.MsgQueueSize
             (Mock.message 9 1) 50 [] Scenario.pubKey
             (fst (Scenario.oneRound (Mock.honest 3 1 ErrVerifierNotReady)))
             (snd (Scenario.oneRound (Mock.honest 3 1 ErrVerifierNotReady)))
             (fst (Scenario.oneRound (Mock.honest 3 1 ErrVerifierNotReady)))
             (snd (Scenario.oneRound (Mock.honest 3 1 ErrVerifierNotReady)))
             (OffChain.LoggerHandle "dkg") 0%nat
             (Mock.honest 3 1 ErrVerifierNotReady)).
  - by vm_compute.
  - by vm_compute.
  - by vm_compute.
  - by vm_compute.
  - by vm_compute.
  - simpl. lia.
Defined.

(** X8 at a key that does not sign. *)
Lemma unsigned_message_run :
  let locked := mkPrivValidator (fun chainID data =>
                  (data, Some (ErrOther "key is locked"))) in
  let m : @OffChain.OffChainDKG Mock.Script :=
    OffChain.NewOffChainDKG Scenario.newDealer
      (OffChain.EventSwitchHandle "evsw") "rchain"
      [OffChain.WithPVKey (Some locked)] in
  OffChain.sendSignedMessage Scenario.MsgQueueSize (Scenario.hello 1)
    (m, OffChain.emptyWorld)
  = (Return (Scenario.hello 1,
             Some (Errorf "failed to sign data: %v"
                     (ErrOther "key is locked"))),
     (m, OffChain.emptyWorld)).
Proof.
  cbn zeta.
  apply (unsigned_message_is_not_sent Scenario.MsgQueueSize (Scenario.hello 1)
           _ OffChain.emptyWorld
           (mkPrivValidator (fun chainID data =>
              (data, Some (ErrOther "key is locked")))));
    reflexivity.
Defined.

(** X9 at boot: the signed message is in the queue. *)
Lemma signed_message_run :
  length
    (OffChain.dkgMsgQueue
       (snd (snd (OffChain.sendSignedMessage Scenario.MsgQueueSize
                    (Scenario.hello 1)
                    (fst Scenario.boot, snd Scenario.boot)))))
  = 1%nat.
Proof.
  edestruct (signed_message_is_queued Scenario.MsgQueueSize (Scenario.hello 1)
               (fst Scenario.boot) (snd Scenario.boot) Mock.pv
               (OffChain.LoggerHandle "dkg"))
    as (_ & _ & Hroom & _ & _); [vm_compute; reflexivity .. |].
  rewrite Hroom; [reflexivity | vm_compute; lia].
Defined.

(** X12 at boot: round 2 completes at height 77, and at height 95 its
    verifier is the current one. *)
Lemma staged_verifier_run :
  let s1 := snd (OffChain.HandleOffChainShare Scenario.MsgQueueSize
                   (Mock.message DKGPubKey 2) 77 [] Scenario.pubKey
                   (fst Scenario.boot, snd Scenario.boot)) in
  OffChain.verifier
    (fst (snd (OffChain.CheckDKGTime Scenario.MsgQueueSize 95 []
                 (fst s1, snd s1))))
  = Some (VerifierHandle 22).
Proof.
  cbn zeta.
  edestruct (staged_verifier_is_promoted Scenario.MsgQueueSize
               (Mock.message DKGPubKey 2) 77 [] Scenario.pubKey
               (fst Scenario.boot) (snd Scenario.boot))
    as (Hv & _ & _); [vm_compute; reflexivity .. |].
  exact Hv.
Defined.

(** X13 at a builder without an account number and a sequence number:
    they become 3 and 9, the numbers the node reports for the account, and
    the gas stays 400000. *)
Lemma prepared_builder_run :
  let blank := Utils.mkTxBuilder 0 0 400000 (SpecFloat.S754_zero false) false
                 "rchain" "" in
  let run :=
    Utils.PrepareTxBuilder
      (OnChain.perform (D := Mock.Script) ChainScenario.node) blank
      (ChainScenario.cliOf [Byte.x01])
      (ChainScenario.started [Byte.x01] 0 ChainScenario.talkative) in
  exists b,
    run = (Return (b, None), snd run) /\
    Utils.accountNumber b = 3 /\
    Utils.sequence b = 9 /\
    Utils.gas b = 400000.
Proof.
  cbn zeta.
  exists (Utils.mkTxBuilder 3 9 400000 (SpecFloat.S754_zero false) false
            "rchain" "").
  assert (Hrun :
    Utils.PrepareTxBuilder
      (OnChain.perform (D := Mock.Script) ChainScenario.node)
      (Utils.mkTxBuilder 0 0 400000 (SpecFloat.S754_zero false) false
         "rchain" "")
      (ChainScenario.cliOf [Byte.x01])
      (ChainScenario.started [Byte.x01] 0 ChainScenario.talkative)
    = (Return (Utils.mkTxBuilder 3 9 400000 (SpecFloat.S754_zero false) false
                 "rchain" "", None),
       snd (Utils.PrepareTxBuilder
              (OnChain.perform (D := Mock.Script) ChainScenario.node)
              (Utils.mkTxBuilder 0 0 400000 (SpecFloat.S754_zero false) false
                 "rchain" "")
              (ChainScenario.cliOf [Byte.x01])
              (ChainScenario.started [Byte.x01] 0 ChainScenario.talkative))))
    by (vm_compute; reflexivity).
  split; [exact Hrun |].
  pose proof (PrepareTxBuilder_fills_zero_fields _ _ _ _ _ _ _ Hrun) as Hw.
  cbn zeta in Hw.
  destruct Hw as ((Hgas & _) & _ & _ & _ & check & s1 & Echeck & _ & _ & Hfill).
  vm_compute in Echeck. injection Echeck as <- <-.
  destruct (Hfill eq_refl (or_introl eq_refl))
    as (account & Eaccount & _ & Hnums).
  apply (f_equal fst) in Eaccount. vm_compute in Eaccount.
  injection Eaccount as <-.
  destruct (Hnums eq_refl) as [Hnum Hseq].
  split; [exact (Hnum eq_refl) |]. split; [exact (Hseq eq_refl) |].
  exact Hgas.
Defined.

(** X14 at the scripted node, whose simulation reports 200000 units: with
    a gas adjustment of 1.5 the gas becomes 300000 and nothing else
    changes; with the adjustment 0.0 of the driver's builder it becomes
    0. *)
Lemma enriched_builder_run :
  let adjusted := Utils.mkTxBuilder 3 9 400000
                    (SpecFloat.S754_finite false 6755399441055744 (-52)) true
                    "rchain" "" in
  let s := ChainScenario.started [Byte.x01] 9 ChainScenario.talkative in
  let run :=
    Utils.EnrichWithGas
      (OnChain.perform (D := Mock.Script) ChainScenario.node)
      ChainScenario.deps adjusted [] s in
  fst run = Return (Utils.WithGas 300000 adjusted, None) /\
  fst (Utils.EnrichWithGas
         (OnChain.perform (D := Mock.Script) ChainScenario.node)
         ChainScenario.deps (ChainScenario.txBldr 9) [] s)
  = Return (Utils.WithGas 0 (ChainScenario.txBldr 9), None).
Proof.
  cbn zeta. split; [| by vm_compute].
  destruct (Utils.EnrichWithGas _ _ _ _ _) as [o s'] eqn:Hrun.
  assert (Hok : exists b, o = Return (b, None)).
  { apply (f_equal fst) in Hrun. vm_compute in Hrun.
    rewrite <- Hrun. by eexists. }
  destruct Hok as [b ->].
  destruct (EnrichWithGas_sets_gas_only _ _ _ _ _ _ _ _ Hrun)
    as (Hkept & _ & Hgas).
  destruct (Hgas eq_refl)
    as (txBytes & r & gasUsed & Hbuild & Equery & _ & Hparse & Hg).
  vm_compute in Hbuild. injection Hbuild as <-.
  apply (f_equal fst) in Equery. vm_compute in Equery.
  injection Equery as <-.
  vm_compute in Hparse. injection Hparse as <-.
  cbn [fst]. f_equal. f_equal.
  rewrite <- Hkept. destruct b. cbn in Hg |- *. rewrite Hg.
  by vm_compute.
Defined.

(** X15 at a generate-only context. *)
Lemma no_broadcast_run :
  let cliCtx := Utils.mkCLIContext true false "12345678" "validator0"
                  [Byte.x01] in
  let m : @OnChain.OnChainDKG Mock.Script :=
    OnChain.NewOnChainDKG cliCtx (ChainScenario.txBldr 9) in
  exists err new,
    Utils.GenerateOrBroadcastMsgs (OnChain.perform ChainScenario.node)
      ChainScenario.deps cliCtx (ChainScenario.txBldr 9)
      [OnChain.NewMsgSendDKGData (Scenario.hello 0) [Byte.x01]] false (m, [])
    = (Return err, (m, [] ++ new)) /\
    forall a, a ∈ new -> forall txBytes r,
      a <> OnChain.ACall (Utils.CBroadcastTx txBytes) r.
Proof.
  cbn zeta. apply no_broadcast_when_generating. left. reflexivity.
Defined.

(** X16 at a generate-only context: the sequence number goes from 9 to
    10. *)
Lemma sequence_advances_run :
  let cliCtx := Utils.mkCLIContext true false "12345678" "validator0"
                  [Byte.x01] in
  let m : @OnChain.OnChainDKG Mock.Script :=
    OnChain.NewOnChainDKG cliCtx (ChainScenario.txBldr 9) in
  Utils.sequence
    (OnChain.txBldr
       (fst (snd (ChainScenario.sendMsg (Scenario.hello 0) (m, [])))))
  = 10.
Proof.
  cbn zeta.
  edestruct (sequence_advances_without_broadcast ChainScenario.node
               ChainScenario.ValidateBasic ChainScenario.deps
               (Scenario.hello 0)
               (OnChain.NewOnChainDKG (D := Mock.Script)
                  (Utils.mkCLIContext true false "12345678" "validator0"
                     [Byte.x01])
                  (ChainScenario.txBldr 9)) [])
    as (err & new & Hrun & _ & Hseq);
    [by vm_compute | left; reflexivity |].
  unfold ChainScenario.sendMsg. rewrite Hrun. cbn [fst snd].
  rewrite Hseq. reflexivity.
Defined.

(** X17 at a node that does not know the account. *)
Lemma missing_account_run :
  let node := fun (history : list OnChain.Action) (c : Utils.Call) =>
                Utils.mkReply [] 0 0 (Some (ErrOther "no such account")) in
  let s := ChainScenario.started [Byte.x01] 9 ChainScenario.talkative in
  OnChain.sendMsg node ChainScenario.ValidateBasic ChainScenario.deps
    (Scenario.hello 0) (fst s, snd s)
  = (Return (Some (Errorf "failed to broadcast msg: %v"
                     (ErrOther "no such account"))),
     (bumped (fst s),
      snd s ++ [OnChain.ACall (Utils.CEnsureExists [Byte.x01])
                  (Utils.mkReply [] 0 0 (Some (ErrOther "no such account")))])).
Proof.
  cbn zeta.
  apply (missing_account_stops_broadcast
           (fun history c =>
              Utils.mkReply [] 0 0 (Some (ErrOther "no such account")))
           ChainScenario.ValidateBasic ChainScenario.deps (Scenario.hello 0)
           (fst (ChainScenario.started [Byte.x01] 9 ChainScenario.talkative))
           (snd (ChainScenario.started [Byte.x01] 9 ChainScenario.talkative))
           (ErrOther "no such account"));
    reflexivity.
Defined.

(** X18 at the first two buckets. *)
Lemma paths_differ_run :
  OnChain.dkgDataPath DKGPubKey <> OnChain.dkgDataPath DKGDeal.
Proof. apply dkgDataPath_inj. by vm_compute. Defined.

(** X20 at a coordinator fresh from [NewOnChainDKG]: the first bucket is
    fetched and the nil dealer panics. *)
Lemma process_block_without_dealer_run :
  fst (ChainScenario.ProcessBlock
         (OnChain.NewOnChainDKG (ChainScenario.cliOf [Byte.x01])
            (ChainScenario.txBldr 9), []))
  = Panic nilDereference.
Proof.
  exact (ProcessBlock_without_dealer ChainScenario.node
           ChainScenario.ValidateBasic ChainScenario.gobDecode
           ChainScenario.deps
           (OnChain.NewOnChainDKG (ChainScenario.cliOf [Byte.x01])
              (ChainScenario.txBldr 9)) [] eq_refl).
Defined.

(** X21 at a started coordinator. *)
Lemma process_block_returns_run :
  let s := ChainScenario.started [Byte.x01] 9 ChainScenario.talkative in
  exists res m' new,
    ChainScenario.ProcessBlock (fst s, snd s)
    = (Return res, (m', snd s ++ new)) /\
    is_Some (OnChain.dealer m').
Proof.
  cbn zeta.
  apply (ProcessBlock_returns ChainScenario.node ChainScenario.ValidateBasic
           ChainScenario.gobDecode ChainScenario.deps
           (fst (ChainScenario.started [Byte.x01] 9 ChainScenario.talkative))
           (snd (ChainScenario.started [Byte.x01] 9 ChainScenario.talkative))
           ChainScenario.talkative).
  reflexivity.
Defined.

(** X22 at a dealer that is ready after the three messages of the
    block: it has handled the three. *)
Lemma process_block_done_run :
  let s := ChainScenario.started [Byte.x01] 9 ChainScenario.talkative in
  exists d,
    OnChain.dealer (fst (snd (ChainScenario.ProcessBlock (fst s, snd s))))
    = Some d /\
    snd (GetVerifier d) = None /\
    Mock.handled d
    = [(HPubKey, mkDKGData DKGPubKey [Byte.x0a] 0 [] []);
       (HPubKey, mkDKGData DKGPubKey [Byte.x0b] 0 [] []);
       (HDeal, mkDKGData DKGPubKey [Byte.x0c] 0 [] [])].
Proof.
  cbn zeta.
  edestruct (ProcessBlock_done ChainScenario.node ChainScenario.ValidateBasic
               ChainScenario.gobDecode ChainScenario.deps
               (fst (ChainScenario.started [Byte.x01] 9
                       ChainScenario.talkative))
               (snd (ChainScenario.started [Byte.x01] 9
                       ChainScenario.talkative)))
    as (_ & _ & d & Hd & Hv); [vm_compute; reflexivity |].
  exists d. vm_compute in Hd. injection Hd as <-.
  split; [by vm_compute |]. split; by vm_compute.
Defined.
